(** * AutoPilot AI: the slot scheduler and the booking orchestration

    A shallow embedding of [backend/models.py], [backend/crud.py],
    [backend/scheduler.py], [backend/notifications.py], the extractors
    of [backend/nlp_parser.py] and the booking, scheduling and
    notification endpoints of [backend/main.py].

    Conventions.
    - Python [int] is [Z]; Python [str] is [string] (ASCII text).
    - A table is the list of its rows in insertion order; a query
      [filter(...).count()] is the length of the filtered list and
      [filter(...).first()] its head.
    - A function that only reads the session takes it as an argument;
      a function that writes is a computation in the monad [M], which
      threads the committed store and may raise.
    - The store is the default SQLite one of [backend/database.py]:
      [unique=True] columns and the 64-bit range of [Integer] columns are
      enforced, declared [String(n)] lengths are not.
    - A [float] that is only a constant of the source, or the result of
      the Day Optimizer, is the rational it denotes.
    - The clock is an argument: the timestamp of a notification and the
      date of today are given to the functions that read them. *)

From Stdlib Require Import List String Ascii ZArith Lia Bool QArith Qround.
From Stdlib Require Import DecimalString Permutation.
Import ListNotations.

#[local] Open Scope string_scope.
#[local] Open Scope Z_scope.

(* ===================================================================== *)
(** ** backend/models.py *)
(* ===================================================================== *)

Module User.
Record t := mk { id : Z; name : string; phone : string; email : string }.
End User.

Module Vehicle.
Record t := mk { id : Z; user_id : Z; make : string; model : string; year : Z }.
End Vehicle.

Module Booking.
Record t := mk {
  id : Z;
  user_id : Z;
  vehicle_id : Z;
  service_center_id : Z;
  date : string;
  time : string;
  service_type : string;
  status : string
}.

Definition set_status (b : t) (s : string) : t :=
  mk (id b) (user_id b) (vehicle_id b) (service_center_id b)
     (date b) (time b) (service_type b) s.
End Booking.

Module ServiceCenter.
Record t := mk {
  id : Z; name : string; address : string; phone : string; city : string
}.
End ServiceCenter.

(** The committed content of the four tables. *)
Record Session := mkSession {
  users : list User.t;
  vehicles : list Vehicle.t;
  bookings : list Booking.t;
  service_centers : list ServiceCenter.t
}.

Definition empty_session : Session := mkSession [] [] [] [].

(* ===================================================================== *)
(** ** Exceptions and the session monad *)
(* ===================================================================== *)

Inductive exn :=
| ValueError        (* datetime.strptime on text that is not a date *)
| OverflowError     (* date out of range, integer too large for the store *)
| IntegrityError.   (* a unique column already holds the value *)

Definition result (A : Type) : Type := (exn + A)%type.

Definition M (A : Type) : Type := Session -> Session * result A.

Definition ret {A} (a : A) : M A := fun db => (db, inr a).
Definition raise {A} (e : exn) : M A := fun db => (db, inl e).
Definition bind {A B} (c : M A) (k : A -> M B) : M B :=
  fun db => match c db with
            | (db', inl e) => (db', inl e)
            | (db', inr a) => k a db'
            end.
Definition query {A} (f : Session -> A) : M A := fun db => (db, inr (f db)).
Definition lift {A} (r : Session -> result A) : M A := fun db => (db, r db).

Declare Scope m_scope.
Delimit Scope m_scope with M.
Notation "x <- c ;; k" := (bind c (fun x => k))
  (at level 61, c at next level, right associativity) : m_scope.

(* ===================================================================== *)
(** ** The store: primary keys and column constraints *)
(* ===================================================================== *)

(** An [Integer primary_key] column of SQLite: the new row id is one more
    than the largest id in the table. *)
Definition next_id (ids : list Z) : Z := 1 + fold_right Z.max 0 ids.

(** SQLite's INTEGER is a signed 64-bit value; binding a larger Python
    int raises.  Only [year] is an integer taken from the request: the other
    integer columns hold ids that the store produced itself. *)
Definition integer_fits (z : Z) : bool := (- 2 ^ 63 <=? z) && (z <? 2 ^ 63).

Definition insert_user (name phone email : string) : M User.t :=
  fun db =>
    if existsb (fun u => (User.phone u =? phone)%string
                         || (User.email u =? email)%string) (users db)
    then (db, inl IntegrityError)
    else
      let u := User.mk (next_id (map User.id (users db))) name phone email in
      (mkSession (users db ++ [u]) (vehicles db) (bookings db)
                 (service_centers db), inr u).

Definition insert_vehicle (user_id : Z) (make model : string) (year : Z)
  : M Vehicle.t :=
  fun db =>
    if integer_fits year then
      let v := Vehicle.mk (next_id (map Vehicle.id (vehicles db)))
                          user_id make model year in
      (mkSession (users db) (vehicles db ++ [v]) (bookings db)
                 (service_centers db), inr v)
    else (db, inl OverflowError).

Definition insert_booking (user_id vehicle_id : Z) (date time service_type
  status : string) (service_center_id : Z) : M Booking.t :=
  fun db =>
    let b := Booking.mk (next_id (map Booking.id (bookings db)))
                        user_id vehicle_id service_center_id
                        date time service_type status in
    (mkSession (users db) (vehicles db) (bookings db ++ [b])
               (service_centers db), inr b).

(* ===================================================================== *)
(** ** backend/scheduler.py: constants, availability, occupancy *)
(* ===================================================================== *)

Definition AVAILABLE_SLOTS : list string :=
  ["09:00"; "10:00"; "11:00"; "12:00"; "14:00"; "15:00"; "16:00"; "17:00"].

Definition SLOTS_PER_TIMEFRAME : Z := 5.

(** The filter shared by [check_slot_availability] and
    [get_slot_occupancy]. *)
Definition slot_filter (date time : string) (service_center_id : Z)
  (b : Booking.t) : bool :=
  (Booking.date b =? date)%string
  && (Booking.time b =? time)%string
  && (Booking.service_center_id b =? service_center_id)
  && negb (Booking.status b =? "Cancelled")%string.

Definition slot_count (db : Session) (date time : string)
  (service_center_id : Z) : Z :=
  Z.of_nat (List.length (filter (slot_filter date time service_center_id)
                           (bookings db))).

Definition check_slot_availability (db : Session) (date time : string)
  (service_center_id : Z) : bool :=
  let existing_bookings := slot_count db date time service_center_id in
  existing_bookings <? SLOTS_PER_TIMEFRAME.

(** A Python [dict] with [str] keys, in insertion order. *)
Definition dict (V : Type) : Type := list (string * V).

Fixpoint dict_get {V} (d : dict V) (k : string) : option V :=
  match d with
  | [] => None
  | (k', v) :: d' => if (k' =? k)%string then Some v else dict_get d' k
  end.

Fixpoint dict_set {V} (d : dict V) (k : string) (v : V) : dict V :=
  match d with
  | [] => [(k, v)]
  | (k', v') :: d' =>
      if (k' =? k)%string then (k', v) :: d' else (k', v') :: dict_set d' k v
  end.

(** [occupancy.get(k, default)] *)
Definition dict_get_default {V} (d : dict V) (k : string) (default : V) : V :=
  match dict_get d k with Some v => v | None => default end.

Definition get_slot_occupancy (db : Session) (date : string)
  (service_center_id : Z) : dict Z :=
  fold_left
    (fun occupancy slot =>
       dict_set occupancy slot (slot_count db date slot service_center_id))
    AVAILABLE_SLOTS [].

(* ===================================================================== *)
(** ** datetime: [strptime(_, "%Y-%m-%d")], [timedelta(days=i)],
       [strftime("%Y-%m-%d")] *)
(* ===================================================================== *)

Module datetime.

Definition is_digit (c : ascii) : bool :=
  let n := Z.of_nat (nat_of_ascii c) in (48 <=? n) && (n <=? 57).

Definition digit_val (c : ascii) : Z := Z.of_nat (nat_of_ascii c) - 48.

Definition in_range (c : ascii) (lo hi : Z) : bool :=
  is_digit c && (lo <=? digit_val c) && (digit_val c <=? hi).

(** The alternatives of the directive [%m], [1[0-2]|0[1-9]|[1-9]], in
    the order the regular expression tries them: each gives the value
    read and the text left. *)
Definition match_m (s : string) : list (Z * string) :=
  (match s with
   | String a (String b r) =>
       (if (a =? "1")%char && in_range b 0 2
        then [(10 + digit_val b, r)] else [])
       ++ (if (a =? "0")%char && in_range b 1 9
           then [(digit_val b, r)] else [])
   | _ => []
   end)
  ++ (match s with
      | String a r => if in_range a 1 9 then [(digit_val a, r)] else []
      | _ => []
      end).

(** The alternatives of [%d], [3[0-1]|[1-2]\d|0[1-9]|[1-9]| [1-9]]. *)
Definition match_d (s : string) : list (Z * string) :=
  (match s with
   | String a (String b r) =>
       (if (a =? "3")%char && in_range b 0 1
        then [(30 + digit_val b, r)] else [])
       ++ (if in_range a 1 2 && is_digit b
           then [(10 * digit_val a + digit_val b, r)] else [])
       ++ (if (a =? "0")%char && in_range b 1 9
           then [(digit_val b, r)] else [])
   | _ => []
   end)
  ++ (match s with
      | String a r => if in_range a 1 9 then [(digit_val a, r)] else []
      | _ => []
      end)
  ++ (match s with
      | String a (String b r) =>
          if (a =? " ")%char && in_range b 1 9
          then [(digit_val b, r)] else []
      | _ => []
      end).

(** [%Y] is exactly four digits. *)
Definition match_Y (s : string) : list (Z * string) :=
  match s with
  | String a (String b (String c (String d r))) =>
      if is_digit a && is_digit b && is_digit c && is_digit d
      then [(1000 * digit_val a + 100 * digit_val b
             + 10 * digit_val c + digit_val d, r)]
      else []
  | _ => []
  end.

Definition expect_dash (s : string) : list string :=
  match s with
  | String "-" r => [r]
  | _ => []
  end.

(** All the ways the pattern [%Y-%m-%d] matches a prefix of the text,
    in backtracking order; the regular expression takes the first. *)
Definition matches (s : string) : list (Z * Z * Z * string) :=
  flat_map (fun '(y, r1) =>
    flat_map (fun r2 =>
      flat_map (fun '(m, r3) =>
        flat_map (fun r4 =>
          map (fun '(d, r5) => (y, m, d, r5)) (match_d r4))
          (expect_dash r3))
        (match_m r2))
      (expect_dash r1))
    (match_Y s).

Definition is_leap (y : Z) : bool :=
  (y mod 4 =? 0) && (negb (y mod 100 =? 0) || (y mod 400 =? 0)).

Definition days_in_month (y m : Z) : Z :=
  if m =? 2 then (if is_leap y then 29 else 28)
  else if (m =? 4) || (m =? 6) || (m =? 9) || (m =? 11) then 30
  else 31.

Definition MINYEAR : Z := 1.
Definition MAXYEAR : Z := 9999.

Definition date : Type := (Z * Z * Z)%type.

Definition valid (dt : date) : bool :=
  let '(y, m, d) := dt in
  (MINYEAR <=? y) && (y <=? MAXYEAR) && (1 <=? m) && (m <=? 12)
  && (1 <=? d) && (d <=? days_in_month y m).

(** [datetime.strptime(s, "%Y-%m-%d")]: [ValueError] when the pattern
    does not match, when text is left over, or when the fields are not
    a calendar date. *)
Definition strptime (s : string) : result date :=
  match matches s with
  | (y, m, d, EmptyString) :: _ =>
      if valid (y, m, d) then inr (y, m, d) else inl ValueError
  | _ => inl ValueError
  end.

Definition tomorrow (dt : date) : date :=
  let '(y, m, d) := dt in
  if d <? days_in_month y m then (y, m, d + 1)
  else if m <? 12 then (y, m + 1, 1)
  else (y + 1, 1, 1).

(** [dt + timedelta(days=n)] for [n >= 0]: [OverflowError] past
    9999-12-31. *)
Fixpoint add_days (dt : date) (n : nat) : result date :=
  match n with
  | O => inr dt
  | S n' =>
      let dt' := tomorrow dt in
      if valid dt' then add_days dt' n' else inl OverflowError
  end.

Definition digit (n : Z) : ascii := ascii_of_nat (Z.to_nat (48 + n mod 10)).

Definition pad2 (n : Z) : string :=
  String (digit (n / 10)) (String (digit n) "").

Definition pad4 (n : Z) : string :=
  String (digit (n / 1000)) (String (digit (n / 100)) (pad2 n)).

(** [dt.strftime("%Y-%m-%d")], the year written with four digits. *)
Definition strftime (dt : date) : string :=
  let '(y, m, d) := dt in pad4 y ++ "-" ++ pad2 m ++ "-" ++ pad2 d.

(** [(strptime(s, "%Y-%m-%d") + timedelta(days=n)).strftime("%Y-%m-%d")] *)
Definition shift (s : string) (n : nat) : result string :=
  match strptime s with
  | inl e => inl e
  | inr dt =>
      match add_days dt n with
      | inl e => inl e
      | inr dt' => inr (strftime dt')
      end
  end.

End datetime.

(* ===================================================================== *)
(** ** backend/scheduler.py: the Slot Assignment Engine *)
(* ===================================================================== *)

(** [sorted(l, key=key)]: the sort is stable, so its result is the one of
    insertion sort putting an element before the first one whose key is
    not smaller. *)
Fixpoint insert_sorted {A} (key : A -> Z) (x : A) (l : list A) : list A :=
  match l with
  | [] => [x]
  | y :: l' => if key x <=? key y then x :: l else y :: insert_sorted key x l'
  end.

Fixpoint sorted {A} (l : list A) (key : A -> Z) : list A :=
  match l with
  | [] => []
  | x :: l' => insert_sorted key x (sorted l' key)
  end.

(** [x in l] on strings. *)
Definition str_in (x : string) (l : list string) : bool :=
  existsb (String.eqb x) l.

(** [for slot in slots: if check_slot_availability(...): return slot] *)
Definition first_available (db : Session) (date : string)
  (slots : list string) (service_center_id : Z) : option string :=
  find (fun slot => check_slot_availability db date slot service_center_id)
       slots.

(** The loop of step 4 over the day offsets. *)
Fixpoint search_days (db : Session) (preferred_date : string)
  (service_center_id : Z) (offsets : list nat)
  : result (option (string * string)) :=
  match offsets with
  | [] => inr None
  | i :: rest =>
      match datetime.shift preferred_date i with
      | inl e => inl e
      | inr search_date =>
          match first_available db search_date AVAILABLE_SLOTS
                                service_center_id with
          | Some slot => inr (Some (search_date, slot))
          | None => search_days db preferred_date service_center_id rest
          end
      end
  end.

Definition find_preferred_slot (db : Session) (preferred_date
  preferred_time : string) (service_center_id : Z)
  : result (string * string) :=
  (* Step 1: Try to book preferred slot *)
  if str_in preferred_time AVAILABLE_SLOTS
     && check_slot_availability db preferred_date preferred_time
                                service_center_id
  then inr (preferred_date, preferred_time)
  else
    (* Step 2: Try same day, different time slots *)
    let occupancy := get_slot_occupancy db preferred_date service_center_id in
    let available_slots_today :=
      sorted AVAILABLE_SLOTS (fun x => dict_get_default occupancy x 0) in
    match first_available db preferred_date available_slots_today
                          service_center_id with
    | Some slot => inr (preferred_date, slot)
    | None =>
        (* Step 3: Try next day *)
        match datetime.shift preferred_date 1 with
        | inl e => inl e
        | inr next_date =>
            match first_available db next_date AVAILABLE_SLOTS
                                  service_center_id with
            | Some slot => inr (next_date, slot)
            | None =>
                (* Step 4: Try within next 7 days, range(2, 7) *)
                match search_days db preferred_date service_center_id
                                  (seq 2 5) with
                | inl e => inl e
                | inr (Some found) => inr found
                | inr None =>
                    (* Fallback *)
                    inr (next_date, nth 0 AVAILABLE_SLOTS "")
                end
            end
        end
    end.

Definition find_best_service_center (db : Session) : Z :=
  match service_centers db with
  | center :: _ => ServiceCenter.id center
  | [] => 1
  end.

Record booking_details := mk_booking_details {
  bd_date : string;
  bd_time : string;
  bd_service_center : string;
  bd_address : string;
  bd_phone : string;
  bd_city : string
}.

Definition get_booking_details (booked_date booked_time : string)
  (service_center_id : Z) (db : Session) : booking_details :=
  let center :=
    find (fun c => ServiceCenter.id c =? service_center_id)
         (service_centers db) in
  match center with
  | Some c =>
      mk_booking_details booked_date booked_time (ServiceCenter.name c)
        (ServiceCenter.address c) (ServiceCenter.phone c)
        (ServiceCenter.city c)
  | None =>
      mk_booking_details booked_date booked_time "EY Auto Service Center"
        "Contact for location" "+91-XXXX-XXXX" "India"
  end.

(* ===================================================================== *)
(** ** backend/scheduler.py: the Day Optimizer *)
(* ===================================================================== *)

(** [sum(d.values())] *)
Definition dict_sum (d : dict Z) : Z := fold_left Z.add (map snd d) 0.

(** [max(d, key=d.get)] and [min(d, key=d.get)]: the first key, in
    iteration order, with the largest (smallest) value. *)
Fixpoint arg_best (better : Z -> Z -> bool) (best : string * Z)
  (d : dict Z) : string :=
  match d with
  | [] => fst best
  | (k, v) :: d' =>
      arg_best better (if better v (snd best) then (k, v) else best) d'
  end.

Definition dict_max (d : dict Z) : string :=
  match d with
  | [] => "N/A"
  | kv :: d' => arg_best (fun v w => w <? v) kv d'
  end.

Definition dict_min (d : dict Z) : string :=
  match d with
  | [] => "N/A"
  | kv :: d' => arg_best (fun v w => v <? w) kv d'
  end.

(** Python floats are read as exact rationals: [a / b] is the quotient
    and [round(x, 2)] rounds to the nearest multiple of 1/100, a tie
    going to the even one. *)
Definition round_half_even (q : Q) : Z :=
  let f := Qfloor q in
  match (q - inject_Z f ?= 1 # 2)%Q with
  | Lt => f
  | Gt => f + 1
  | Eq => if Z.even f then f else f + 1
  end.

Definition round2 (q : Q) : Q := (inject_Z (round_half_even (q * 100)) / 100)%Q.

Record day_stats := mk_day_stats {
  ds_date : string;
  total_capacity : Z;
  total_booked : Z;
  total_available : Z;
  occupancy_percentage : Q;
  peak_slot : string;
  off_peak_slot : string;
  occupancy_by_slot : dict Z
}.

Definition optimize_slots_for_day (db : Session) (date : string)
  (service_center_id : Z) : day_stats :=
  let occupancy := get_slot_occupancy db date service_center_id in
  let total_capacity :=
    Z.of_nat (List.length AVAILABLE_SLOTS) * SLOTS_PER_TIMEFRAME in
  let total_booked := dict_sum occupancy in
  let total_available := total_capacity - total_booked in
  let occupancy_percentage :=
    if 0 <? total_capacity
    then (inject_Z total_booked / inject_Z total_capacity * 100)%Q
    else 0%Q in
  mk_day_stats date total_capacity total_booked total_available
    (round2 occupancy_percentage) (dict_max occupancy) (dict_min occupancy)
    occupancy.

(* ===================================================================== *)
(** ** backend/scheduler.py: the Wait-Time Estimator *)
(* ===================================================================== *)

(** [str(n)] of an int, as an f-string writes it. *)
Definition str (n : Z) : string := NilZero.string_of_int (Z.to_int n).

Definition predict_wait_time (occupancy : dict Z) (selected_slot : string)
  : string :=
  let booked_count := dict_get_default occupancy selected_slot 0 in
  let estimated_minutes := booked_count * 30 in
  if estimated_minutes =? 0 then "No wait - You'll be first!"
  else if estimated_minutes <=? 30 then
    "~" ++ str estimated_minutes ++ " min wait"
  else if estimated_minutes <=? 60 then
    "~" ++ str estimated_minutes ++ " min wait (about 1 hour)"
  else
    let hours := estimated_minutes / 60 in
    let minutes := estimated_minutes mod 60 in
    "~" ++ str hours ++ "h " ++ str minutes ++ "m wait".

(* ===================================================================== *)
(** ** backend/crud.py *)
(* ===================================================================== *)

Record BookingCreate := mkBookingCreate {
  user_name : string;
  phone : string;
  email : string;
  vehicle_make : string;
  vehicle_model : string;
  vehicle_year : Z;
  preferred_date : string;
  preferred_time : string;
  service_type : string
}.

#[local] Open Scope m_scope.

Definition create_or_get_user (name phone email : string) : M User.t :=
  user <- query (fun db =>
            find (fun u => (User.phone u =? phone)%string) (users db)) ;;
  match user with
  | Some u => ret u
  | None => insert_user name phone email
  end.

Definition create_or_get_vehicle (user_id : Z) (make model : string)
  (year : Z) : M Vehicle.t :=
  vehicle <- query (fun db =>
               find (fun v => (Vehicle.user_id v =? user_id)
                              && (Vehicle.make v =? make)%string
                              && (Vehicle.model v =? model)%string)
                    (vehicles db)) ;;
  match vehicle with
  | Some v => ret v
  | None => insert_vehicle user_id make model year
  end.

Definition create_booking (booking : BookingCreate) : M Booking.t :=
  user <- create_or_get_user (user_name booking) (phone booking)
                             (email booking) ;;
  vehicle <- create_or_get_vehicle (User.id user) (vehicle_make booking)
               (vehicle_model booking) (vehicle_year booking) ;;
  insert_booking (User.id user) (Vehicle.id vehicle)
    (preferred_date booking) (preferred_time booking)
    (service_type booking) "Confirmed" 1.

(** [booking.status = "Cancelled"; db.commit()] updates the row of that
    primary key. *)
Definition update_status (booking_id : Z) (status : string)
  (db : Session) : Session :=
  mkSession (users db) (vehicles db)
    (map (fun b => if Booking.id b =? booking_id
                   then Booking.set_status b status else b)
         (bookings db))
    (service_centers db).

Definition cancel_booking (booking_id : Z) : M (option Booking.t) :=
  fun db =>
    match find (fun b => Booking.id b =? booking_id) (bookings db) with
    | Some booking =>
        (update_status booking_id "Cancelled" db,
         inr (Some (Booking.set_status booking "Cancelled")))
    | None => (db, inr None)
    end.

Definition initialize_service_centers : M unit :=
  fun db =>
    if (0 <? Z.of_nat (List.length (service_centers db))) then (db, inr tt)
    else
      (mkSession (users db) (vehicles db) (bookings db)
         [ ServiceCenter.mk 1 "EY Auto Service Center - Mumbai"
             "Andheri East, Mumbai" "+91-22-1234-5678" "Mumbai";
           ServiceCenter.mk 2 "EY Auto Service Center - Pune"
             "Koregaon Park, Pune" "+91-20-1234-5678" "Pune";
           ServiceCenter.mk 3 "EY Auto Service Center - Bangalore"
             "Whitefield, Bangalore" "+91-80-1234-5678" "Bangalore" ],
       inr tt).

(* ===================================================================== *)
(** ** backend/main.py: the endpoints that write bookings *)
(* ===================================================================== *)

(** What an endpoint answers: its payload, or the [HTTPException] it
    raises with the exception that caused it. *)
Inductive http (A : Type) : Type :=
| OK (payload : A)
| HTTPException (status_code : Z) (cause : exn).
Arguments OK {A} payload.
Arguments HTTPException {A} status_code cause.

(** [try: ... except Exception as e: raise HTTPException(status_code=400)] *)
Definition try_400 {A} (c : M A) (db : Session) : Session * http A :=
  match c db with
  | (db', inr a) => (db', OK a)
  | (db', inl e) => (db', HTTPException 400 e)
  end.

Definition zfill (width : nat) (s : string) : string :=
  string_of_list_ascii (repeat "0"%char (width - String.length s)) ++ s.

(** [f"{n:05d}"] *)
Definition format_05d (n : Z) : string :=
  if n <? 0 then "-" ++ zfill 4 (str (- n)) else zfill 5 (str n).

Record schedule_response := mk_schedule_response {
  sr_booking_id : Z;
  sr_confirmation_number : string;
  sr_customer_name : string;
  sr_vehicle : string;
  sr_preferred_request : string * string;
  sr_assigned_slot : string * string;
  sr_slot_changed : bool;
  sr_booking_details : booking_details;
  sr_estimated_wait : string;
  sr_email_confirmation : string;
  sr_sms_notification : string
}.

Definition schedule_appointment_body (booking : BookingCreate)
  : M schedule_response :=
  (* Find best service center for user *)
  service_center_id <- query find_best_service_center ;;
  (* Find optimal slot using greedy algorithm *)
  assigned <- lift (fun db =>
                find_preferred_slot db (preferred_date booking)
                  (preferred_time booking) service_center_id) ;;
  let assigned_date := fst assigned in
  let assigned_time := snd assigned in
  (* Get slot occupancy for predictions *)
  occupancy <- query (fun db =>
                 get_slot_occupancy db assigned_date service_center_id) ;;
  let wait_time := predict_wait_time occupancy assigned_time in
  (* Create the booking *)
  user <- create_or_get_user (user_name booking) (phone booking)
                             (email booking) ;;
  vehicle <- create_or_get_vehicle (User.id user) (vehicle_make booking)
               (vehicle_model booking) (vehicle_year booking) ;;
  db_booking <- insert_booking (User.id user) (Vehicle.id vehicle)
                  assigned_date assigned_time (service_type booking)
                  "Confirmed" service_center_id ;;
  details <- query (get_booking_details assigned_date assigned_time
                                        service_center_id) ;;
  ret (mk_schedule_response
         (Booking.id db_booking)
         ("AP-" ++ format_05d (Booking.id db_booking))
         (User.name user)
         (Vehicle.make vehicle ++ " " ++ Vehicle.model vehicle)
         (preferred_date booking, preferred_time booking)
         (assigned_date, assigned_time)
         (negb (assigned_date =? preferred_date booking)%string
          || negb (assigned_time =? preferred_time booking)%string)
         details
         wait_time
         ("Confirmation sent to " ++ User.email user)
         ("Notification sent to " ++ User.phone user)).

Definition schedule_appointment (booking : BookingCreate)
  : Session -> Session * http schedule_response :=
  try_400 (schedule_appointment_body booking).

(** [POST /bookings] keeps, of the new booking, its id, date and time. *)
Definition create_new_booking (booking : BookingCreate)
  : Session -> Session * http (Z * string * string) :=
  try_400 (new_booking <- create_booking booking ;;
           ret (Booking.id new_booking, Booking.date new_booking,
                Booking.time new_booking)).

(** [PUT /bookings/{booking_id}/cancel] *)
Definition cancel_booking_endpoint (booking_id : Z)
  : Session -> Session * http Z :=
  fun db =>
    match cancel_booking booking_id db with
    | (db', inr (Some booking)) => (db', OK (Booking.id booking))
    | (db', inr None) => (db', HTTPException 404 ValueError)
    | (db', inl e) => (db', HTTPException 400 e)
    end.

(** The store after the startup event on an empty database. *)
Definition startup : Session := fst (initialize_service_centers empty_session).

#[local] Close Scope m_scope.

(* ===================================================================== *)
(** ** Specification vocabulary *)
(* ===================================================================== *)

(** The capacity invariant of the data model: no (date, time, center)
    triple holds more than [SLOTS_PER_TIMEFRAME] bookings that are not
    cancelled. *)
Definition capacity_ok (db : Session) : Prop :=
  forall date time service_center_id,
    slot_count db date time service_center_id <= SLOTS_PER_TIMEFRAME.

(** The new state of a computation in [M]. *)
Definition exec {A} (c : M A) (db : Session) : Session := fst (c db).

(** Running a list of requests through [POST /bookings]. *)
Definition post_bookings (reqs : list BookingCreate) (db : Session)
  : Session :=
  fold_left (fun db r => fst (create_new_booking r db)) reqs db.

(** Running a list of requests through [POST /schedule-appointment]. *)
Definition post_schedule (reqs : list BookingCreate) (db : Session)
  : Session :=
  fold_left (fun db r => fst (schedule_appointment r db)) reqs db.

(** *** Concrete stores, built by running the endpoints *)

Definition request (date time : string) : BookingCreate :=
  mkBookingCreate "Asha" "9000000001" "asha@example.com" "Tata" "Nexon" 2023
                  date time "General Service".

(** Five bookings at 10:00 and one at 09:00 on 2025-06-10, center 1. *)
Definition busy_day : Session :=
  post_schedule (repeat (request "2025-06-10" "10:00") 5
                 ++ [request "2025-06-10" "09:00"])%list startup.

(** 280 requests for 2025-06-10 09:00: they fill the eight slots of
    2025-06-10, then those of each day up to 2025-06-16. *)
Definition full_week : Session :=
  post_schedule (repeat (request "2025-06-10" "09:00") 280) startup.

(** Whether no slot of [AVAILABLE_SLOTS] is available on a date. *)
Definition day_full (db : Session) (date : string) (service_center_id : Z)
  : bool :=
  forallb (fun slot =>
             negb (check_slot_availability db date slot service_center_id))
          AVAILABLE_SLOTS.

(** A request whose year does not fit the store's INTEGER column. *)
Definition big_year_request : BookingCreate :=
  mkBookingCreate "Asha" "9000000001" "asha@example.com" "Tata" "Nexon"
                  (2 ^ 63) "2025-06-10" "10:00" "General Service".

(** Six bookings of one slot through [POST /bookings]. *)
Definition overbooked : Session :=
  post_bookings (repeat (request "2025-06-10" "09:00") 6) startup.

(** Forty-one bookings on one day through [POST /bookings]. *)
Definition crowded : Session :=
  post_bookings (repeat (request "2025-06-10" "09:00") 41) startup.

(** Forty requests dated "tomorrow": they fill the eight slots of the
    date text "tomorrow". *)
Definition tomorrow_full : Session :=
  post_schedule (repeat (request "tomorrow" "10:00") 40) startup.

(** *** The states the program reaches *)

(** The stores reachable from startup through the endpoints that write
    bookings. *)
Inductive reachable : Session -> Prop :=
| reachable_startup : reachable startup
| reachable_create booking db :
    reachable db -> reachable (fst (create_new_booking booking db))
| reachable_schedule booking db :
    reachable db -> reachable (fst (schedule_appointment booking db))
| reachable_cancel booking_id db :
    reachable db -> reachable (fst (cancel_booking_endpoint booking_id db)).

(** Whether the slot that [find_preferred_slot] answers is available, that
    is, whether the answer comes from tiers 1 to 4 and not from the
    fallback. *)
Definition answer_available (db : Session) (booking : BookingCreate) : bool :=
  let c := find_best_service_center db in
  match find_preferred_slot db (preferred_date booking)
                            (preferred_time booking) c with
  | inr (assigned_date, assigned_time) =>
      check_slot_availability db assigned_date assigned_time c
  | inl _ => true
  end.

(** The stores reachable from startup through scheduling requests that
    the fallback does not answer, and through cancellations. *)
Inductive reachable_guarded : Session -> Prop :=
| guarded_startup : reachable_guarded startup
| guarded_schedule booking db :
    reachable_guarded db ->
    answer_available db booking = true ->
    reachable_guarded (fst (schedule_appointment booking db))
| guarded_cancel booking_id db :
    reachable_guarded db ->
    reachable_guarded (fst (cancel_booking_endpoint booking_id db)).

(** *** The formats of the request *)

(** The text is [YYYY-MM-DD] and names a calendar date. *)
Definition is_YYYY_MM_DD (s : string) : bool :=
  (String.length s =? 10)%nat
  && match s with
     | String _ (String _ (String _ (String _ (String _
         (String m1 (String m2 (String _ (String d1 (String d2 _))))))))) =>
         datetime.is_digit m1 && datetime.is_digit m2
         && datetime.is_digit d1 && datetime.is_digit d2
     | _ => false
     end
  && match datetime.strptime s with inr _ => true | inl _ => false end.

(** The text is [HH:MM] and names a time of day. *)
Definition is_HH_MM (s : string) : bool :=
  match s with
  | String h1 (String h2 (String ":" (String m1 (String m2 EmptyString)))) =>
      datetime.is_digit h1 && datetime.is_digit h2
      && datetime.is_digit m1 && datetime.is_digit m2
      && (10 * datetime.digit_val h1 + datetime.digit_val h2 <? 24)
      && (10 * datetime.digit_val m1 + datetime.digit_val m2 <? 60)
  | _ => false
  end.

(** *** The claims that the code does not satisfy as they are stated *)

(** Atomicity as the specification words it: a request either persists
    User, Vehicle and Booking together or leaves the three tables as they
    were. *)
Definition booking_atomic (booking : BookingCreate) (db : Session) : Prop :=
  match schedule_appointment booking db with
  | (db', OK resp) =>
      exists u v b,
        In u (users db') /\ In v (vehicles db') /\ In b (bookings db')
        /\ Booking.id b = sr_booking_id resp
        /\ Booking.user_id b = User.id u
        /\ Booking.vehicle_id b = Vehicle.id v
  | (db', HTTPException _ _) =>
      users db' = users db /\ vehicles db' = vehicles db
      /\ bookings db' = bookings db
  end.

(** Validation as the specification words it: a request with a malformed
    date or time is answered with a client error and persists nothing. *)
Definition rejects_malformed (booking : BookingCreate) (db : Session)
  : Prop :=
  is_YYYY_MM_DD (preferred_date booking) = false
  \/ is_HH_MM (preferred_time booking) = false ->
  exists e, schedule_appointment booking db = (db, HTTPException 400 e).

(** The percentage of the Day Optimizer lies between 0 and 100. *)
Definition percentage_in_range (db : Session) (date : string) (c : Z)
  : Prop :=
  (0 <= occupancy_percentage (optimize_slots_for_day db date c) <= 100)%Q.

(** *** Further concrete stores *)

(** Forty requests for 2025-06-10: the day is full, the next one empty. *)
Definition full_day : Session :=
  post_schedule (repeat (request "2025-06-10" "09:00") 40) startup.

(** Eighty requests: 2025-06-10 and 2025-06-11 are full. *)
Definition two_full_days : Session :=
  post_schedule (repeat (request "2025-06-10" "09:00") 80) startup.

(** *** Vocabulary for the Day Optimizer *)

(** A booking of the date and the center that is not cancelled and whose
    time is one of the slot labels. *)
Definition day_filter (date : string) (service_center_id : Z)
  (b : Booking.t) : bool :=
  (Booking.date b =? date)%string
  && str_in (Booking.time b) AVAILABLE_SLOTS
  && (Booking.service_center_id b =? service_center_id)
  && negb (Booking.status b =? "Cancelled")%string.

(* ===================================================================== *)
(** ** backend/crud.py and backend/main.py: the reading operations *)
(* ===================================================================== *)

Definition get_booking_by_id (db : Session) (booking_id : Z)
  : option Booking.t :=
  find (fun b => Booking.id b =? booking_id) (bookings db).

Definition get_service_centers (db : Session) : list ServiceCenter.t :=
  service_centers db.

(** The relationships [booking.user] and [booking.vehicle]: the row the
    foreign key points to, [None] when there is none. *)
Definition booking_user (db : Session) (b : Booking.t) : option User.t :=
  find (fun u => User.id u =? Booking.user_id b) (users db).

Definition booking_vehicle (db : Session) (b : Booking.t)
  : option Vehicle.t :=
  find (fun v => Vehicle.id v =? Booking.vehicle_id b) (vehicles db).

Record booking_row := mk_booking_row {
  br_id : Z;
  br_user_name : string;
  br_phone : string;
  br_vehicle : string;
  br_date : string;
  br_time : string;
  br_status : string;
  br_service_type : string;
  br_service_center : string
}.

(** One entry of [get_all_bookings]; [None] stands for the
    [AttributeError] of reading a field of a missing user or vehicle. *)
Definition booking_entry (db : Session) (booking : Booking.t)
  : option booking_row :=
  match booking_user db booking, booking_vehicle db booking with
  | Some user, Some vehicle =>
      Some (mk_booking_row
              (Booking.id booking) (User.name user) (User.phone user)
              (Vehicle.make vehicle ++ " " ++ Vehicle.model vehicle)
              (Booking.date booking) (Booking.time booking)
              (Booking.status booking) (Booking.service_type booking)
              "EY Service Center - Mumbai")
  | _, _ => None
  end.

Fixpoint get_all_bookings_loop (db : Session) (rows : list Booking.t)
  : option (list booking_row) :=
  match rows with
  | [] => Some []
  | booking :: rest =>
      match booking_entry db booking with
      | None => None
      | Some entry =>
          match get_all_bookings_loop db rest with
          | None => None
          | Some result => Some (entry :: result)
          end
      end
  end.

Definition get_all_bookings (db : Session) : option (list booking_row) :=
  get_all_bookings_loop db (bookings db).

(** [GET /stats]: total, confirmed, pending, cancelled. *)
Record stats := mk_stats {
  total_bookings : Z;
  confirmed : Z;
  pending : Z;
  cancelled : Z
}.

Definition count_status (db : Session) (status : string) : Z :=
  Z.of_nat (List.length
              (filter (fun b => (Booking.status b =? status)%string)
                      (bookings db))).

Definition get_stats (db : Session) : stats :=
  mk_stats (Z.of_nat (List.length (bookings db)))
           (count_status db "Confirmed")
           (count_status db "Pending")
           (count_status db "Cancelled").

(** The startup store after a first request has created its user. *)
Definition one_user : Session :=
  fst (create_or_get_user "Asha" "9000000001" "asha@example.com" startup).

(* ===================================================================== *)
(** ** backend/notifications.py *)
(* ===================================================================== *)

(** The notifications are kept in the class attribute
    [sent_notifications]; the functions below take that list and return
    the new one. [datetime.now()] is an argument, [now]; what is printed
    to the console is left out. *)
Module NotificationService.

Record notification := mk {
  n_id : string;
  n_type : string;
  n_to : string;
  n_subject : string;
  n_message : string;
  n_booking_id : Z;
  n_status : string;
  n_timestamp : option string
}.

(** [x or default] on an optional text. *)
Definition or_default (x : option string) (default : string) : string :=
  match x with
  | Some s => if (s =? "")%string then default else s
  | None => default
  end.

Definition log_notification (now : string) (n : notification)
  (sent_notifications : list notification)
  : list notification * string :=
  let n' := mk (n_id n) (n_type n) (n_to n) (n_subject n) (n_message n)
               (n_booking_id n) (n_status n) (Some now) in
  ((sent_notifications ++ [n'])%list, n_id n').

Definition send_confirmation_email_subject (booking_id : Z) (user_name : string) (phone : string) (email : string) (vehicle : string) (date : string) (time : string) (service_center : string) (confirmation_number : string) : string :=
  "✅ AutoPilot AI - Booking Confirmed (#"
  ++ confirmation_number
  ++ ")".

Definition send_confirmation_email_message (booking_id : Z) (user_name : string) (phone : string) (email : string) (vehicle : string) (date : string) (time : string) (service_center : string) (confirmation_number : string) : string :=
  "
Dear "
  ++ user_name
  ++ ",

🎉 Your service appointment has been confirmed!

━━━━━━━━━━━━━━━━━━━━━━━━━━━━━━━━━━━━━━━━━━
📋 BOOKING DETAILS
━━━━━━━━━━━━━━━━━━━━━━━━━━━━━━━━━━━━━━━━━━

🔔 Confirmation Number: "
  ++ confirmation_number
  ++ "
📅 Appointment Date: "
  ++ date
  ++ "
🕐 Appointment Time: "
  ++ time
  ++ "
🚗 Vehicle: "
  ++ vehicle
  ++ "
🏢 Service Center: "
  ++ service_center
  ++ "
📞 Phone: "
  ++ phone
  ++ "

━━━━━━━━━━━━━━━━━━━━━━━━━━━━━━━━━━━━━━━━━━
⏰ WHAT TO EXPECT
━━━━━━━━━━━━━━━━━━━━━━━━━━━━━━━━━━━━━━━━━━

✓ Please arrive 5-10 minutes early
✓ Bring vehicle documents
✓ Service typically takes 1-2 hours
✓ We'll notify you when your vehicle is ready

━━━━━━━━━━━━━━━━━━━━━━━━━━━━━━━━━━━━━━━━━━
❓ QUESTIONS?
━━━━━━━━━━━━━━━━━━━━━━━━━━━━━━━━━━━━━━━━━━

Contact our support team:
📧 support@autopilot-ai.com
📞 1800-AUTO-PILOT
🌐 www.autopilot-ai.com

Thank you for choosing AutoPilot AI! 🚗✨

Best regards,
AutoPilot AI Team
EY Techathon 6.0
".

Definition send_confirmation_email (now : string) (booking_id : Z) (user_name : string) (phone : string) (email : string) (vehicle : string) (date : string) (time : string) (service_center : string) (confirmation_number : string)
  (sent_notifications : list notification) : list notification * string :=
  log_notification now
    (mk ("EMAIL-" ++ str booking_id) "email" email
        (send_confirmation_email_subject booking_id user_name phone email vehicle date time service_center confirmation_number)
        (send_confirmation_email_message booking_id user_name phone email vehicle date time service_center confirmation_number)
        booking_id "sent" None)
    sent_notifications.

Definition send_confirmation_sms_subject (booking_id : Z) (phone : string) (confirmation_number : string) (date : string) (time : string) (service_center : string) : string :=
  "Booking Confirmation".

Definition send_confirmation_sms_message (booking_id : Z) (phone : string) (confirmation_number : string) (date : string) (time : string) (service_center : string) : string :=
  "
🎉 AutoPilot AI Booking Confirmed!

Booking: "
  ++ confirmation_number
  ++ "
Date: "
  ++ date
  ++ " | Time: "
  ++ time
  ++ "
Center: "
  ++ service_center
  ++ "

Arrive 5-10 min early. Track status: www.autopilot-ai.com/booking/"
  ++ confirmation_number
  ++ "

Questions? Call 1800-AUTO-PILOT
".

Definition send_confirmation_sms (now : string) (booking_id : Z) (phone : string) (confirmation_number : string) (date : string) (time : string) (service_center : string)
  (sent_notifications : list notification) : list notification * string :=
  log_notification now
    (mk ("SMS-" ++ str booking_id) "sms" phone
        (send_confirmation_sms_subject booking_id phone confirmation_number date time service_center)
        (send_confirmation_sms_message booking_id phone confirmation_number date time service_center)
        booking_id "sent" None)
    sent_notifications.

Definition send_reminder_notification_subject (booking_id : Z) (user_name : string) (phone : string) (email : string) (date : string) (time : string) (vehicle : string) (confirmation_number : string) : string :=
  "🔔 Reminder - Your AutoPilot AI Service Tomorrow".

Definition send_reminder_notification_message (booking_id : Z) (user_name : string) (phone : string) (email : string) (date : string) (time : string) (vehicle : string) (confirmation_number : string) : string :=
  "
Hi "
  ++ user_name
  ++ ",

📢 We want to remind you about your upcoming service appointment!

🕐 Tomorrow at "
  ++ time
  ++ "
🚗 Your "
  ++ vehicle
  ++ "
📍 Service Center location confirmed

Please confirm you'll be able to make it by replying to this email or calling us.

Confirmation #: "
  ++ confirmation_number
  ++ "

Drive safe!
AutoPilot AI Team
".

Definition send_reminder_notification (now : string) (booking_id : Z) (user_name : string) (phone : string) (email : string) (date : string) (time : string) (vehicle : string) (confirmation_number : string)
  (sent_notifications : list notification) : list notification * string :=
  log_notification now
    (mk ("REMINDER-" ++ str booking_id) "reminder" email
        (send_reminder_notification_subject booking_id user_name phone email date time vehicle confirmation_number)
        (send_reminder_notification_message booking_id user_name phone email date time vehicle confirmation_number)
        booking_id "scheduled" None)
    sent_notifications.

Definition send_completion_notification_subject (booking_id : Z) (user_name : string) (email : string) (phone : string) (vehicle : string) (service_type : string) (cost : string) (feedback_link : option string) : string :=
  "✅ Your "
  ++ vehicle
  ++ " service is complete!".

Definition send_completion_notification_message (booking_id : Z) (user_name : string) (email : string) (phone : string) (vehicle : string) (service_type : string) (cost : string) (feedback_link : option string) : string :=
  "
Dear "
  ++ user_name
  ++ ",

Great news! Your "
  ++ vehicle
  ++ " "
  ++ service_type
  ++ " is complete! 🎉

━━━━━━━━━━━━━━━━━━━━━━━━━━━━━━━━━━━━━━━━━━
📋 SERVICE SUMMARY
━━━━━━━━━━━━━━━━━━━━━━━━━━━━━━━━━━━━━━━━━━

Vehicle: "
  ++ vehicle
  ++ "
Service: "
  ++ service_type
  ++ "
Booking ID: "
  ++ str booking_id
  ++ "
Status: ✅ Completed

━━━━━━━━━━━━━━━━━━━━━━━━━━━━━━━━━━━━━━━━━━
💰 AMOUNT PAYABLE
━━━━━━━━━━━━━━━━━━━━━━━━━━━━━━━━━━━━━━━━━━

Estimated: "
  ++ cost
  ++ "

Payment methods:
✓ Card/UPI at center
✓ Online payment link below
✓ EMI options available

━━━━━━━━━━━━━━━━━━━━━━━━━━━━━━━━━━━━━━━━━━

Your vehicle is ready for pickup at your scheduled service center.

We'd love your feedback! "
  ++ or_default feedback_link "Rate us on AutoPilot AI app"
  ++ "

Thank you for choosing us! 🚗✨
".

Definition send_completion_notification (now : string) (booking_id : Z) (user_name : string) (email : string) (phone : string) (vehicle : string) (service_type : string) (cost : string) (feedback_link : option string)
  (sent_notifications : list notification) : list notification * string :=
  log_notification now
    (mk ("COMPLETE-" ++ str booking_id) "completion" email
        (send_completion_notification_subject booking_id user_name email phone vehicle service_type cost feedback_link)
        (send_completion_notification_message booking_id user_name email phone vehicle service_type cost feedback_link)
        booking_id "sent" None)
    sent_notifications.

Definition get_all_notifications (sent_notifications : list notification)
  : list notification := sent_notifications.

Definition get_notification_history (booking_id : Z)
  (sent_notifications : list notification) : list notification :=
  filter (fun n => n_booking_id n =? booking_id) sent_notifications.

(** [clear_notifications]: the emptied list and the count reported. *)
Definition clear_notifications (sent_notifications : list notification)
  : list notification * Z :=
  ([], Z.of_nat (List.length sent_notifications)).

End NotificationService.

(* ===================================================================== *)
(** ** backend/main.py: the notification endpoints *)
(* ===================================================================== *)

(** The store together with the notifications sent so far. *)
Definition World : Type :=
  (Session * list NotificationService.notification)%type.

(** What a notification endpoint answers: its payload, or the status code
    of the [HTTPException] it raises. Inside their [try] these endpoints
    raise a 404 that their own [except Exception] turns into a 400. *)
Inductive reply (A : Type) : Type :=
| Reply (payload : A)
| Failure (status_code : Z).
Arguments Reply {A} payload.
Arguments Failure {A} status_code.

Definition center_name (db : Session) (booking : Booking.t) : string :=
  match find (fun c => ServiceCenter.id c =? Booking.service_center_id booking)
             (service_centers db) with
  | Some center => ServiceCenter.name center
  | None => "EY Service Center"
  end.

(** [POST /notify/send-confirmation]: [now_email] and [now_sms] are the
    two readings of the clock. *)
Definition send_booking_confirmation (now_email now_sms : string)
  (booking_id : Z) (w : World) : World * reply (Z * list string) :=
  let '(db, sent) := w in
  match get_booking_by_id db booking_id with
  | None => (w, Failure 400)
  | Some booking =>
      match booking_user db booking, booking_vehicle db booking with
      | Some user, Some vehicle =>
          let confirmation_number := "AP-" ++ format_05d (Booking.id booking) in
          let sent1 :=
            fst (NotificationService.send_confirmation_email now_email
                   (Booking.id booking) (User.name user) (User.phone user)
                   (User.email user)
                   (Vehicle.make vehicle ++ " " ++ Vehicle.model vehicle)
                   (Booking.date booking) (Booking.time booking)
                   (center_name db booking) confirmation_number sent) in
          let sent2 :=
            fst (NotificationService.send_confirmation_sms now_sms
                   (Booking.id booking) (User.phone user) confirmation_number
                   (Booking.date booking) (Booking.time booking)
                   (center_name db booking) sent1) in
          ((db, sent2), Reply (Booking.id booking, ["email"; "sms"]))
      | _, _ => (w, Failure 400)
      end
  end.

(** [POST /notify/send-reminder] *)
Definition send_booking_reminder (now : string) (booking_id : Z) (w : World)
  : World * reply Z :=
  let '(db, sent) := w in
  match get_booking_by_id db booking_id with
  | None => (w, Failure 400)
  | Some booking =>
      match booking_user db booking, booking_vehicle db booking with
      | Some user, Some vehicle =>
          let sent1 :=
            fst (NotificationService.send_reminder_notification now
                   (Booking.id booking) (User.name user) (User.phone user)
                   (User.email user) (Booking.date booking)
                   (Booking.time booking)
                   (Vehicle.make vehicle ++ " " ++ Vehicle.model vehicle)
                   ("AP-" ++ format_05d (Booking.id booking)) sent) in
          ((db, sent1), Reply (Booking.id booking))
      | _, _ => (w, Failure 400)
      end
  end.

(** [POST /notify/send-completion]: the notification, then the status of
    the booking becomes "Completed". *)
Definition send_completion_notification (now : string) (booking_id : Z)
  (w : World) : World * reply Z :=
  let '(db, sent) := w in
  match get_booking_by_id db booking_id with
  | None => (w, Failure 400)
  | Some booking =>
      match booking_user db booking, booking_vehicle db booking with
      | Some user, Some vehicle =>
          let sent1 :=
            fst (NotificationService.send_completion_notification now
                   (Booking.id booking) (User.name user) (User.email user)
                   (User.phone user)
                   (Vehicle.make vehicle ++ " " ++ Vehicle.model vehicle)
                   (Booking.service_type booking) "₹2,500" None sent) in
          ((update_status (Booking.id booking) "Completed" db, sent1),
           Reply (Booking.id booking))
      | _, _ => (w, Failure 400)
      end
  end.

(** [GET /notifications/history/{booking_id}]: the id, the number of
    notifications and the notifications. *)
Definition get_booking_notification_history (booking_id : Z) (w : World)
  : reply (Z * Z * list NotificationService.notification) :=
  let '(db, sent) := w in
  match get_booking_by_id db booking_id with
  | None => Failure 404
  | Some _ =>
      let history :=
        NotificationService.get_notification_history booking_id sent in
      Reply (booking_id, Z.of_nat (List.length history), history)
  end.

(** [DELETE /notifications/clear]: the new world and the count in the
    message. *)
Definition clear_all_notifications (w : World) : World * Z :=
  let '(db, sent) := w in
  let '(sent', cleared) := NotificationService.clear_notifications sent in
  ((db, sent'), cleared).

(** One request to an endpoint that writes. *)
Inductive request_step : World -> World -> Prop :=
| step_create booking db sent :
    request_step (db, sent) (fst (create_new_booking booking db), sent)
| step_schedule booking db sent :
    request_step (db, sent) (fst (schedule_appointment booking db), sent)
| step_cancel booking_id db sent :
    request_step (db, sent) (fst (cancel_booking_endpoint booking_id db), sent)
| step_confirmation now_email now_sms booking_id w :
    request_step w (fst (send_booking_confirmation now_email now_sms
                                                   booking_id w))
| step_reminder now booking_id w :
    request_step w (fst (send_booking_reminder now booking_id w))
| step_completion now booking_id w :
    request_step w (fst (send_completion_notification now booking_id w))
| step_clear w :
    request_step w (fst (clear_all_notifications w)).

(** The worlds the server reaches after startup. *)
Inductive served : World -> Prop :=
| served_startup : served (startup, [])
| served_step w w' : served w -> request_step w w' -> served w'.

(** *** The consistency of a store *)

(** The ids [1, ..., n]. *)
Definition ids_upto (n : nat) : list Z := map Z.of_nat (seq 1 n).

Definition known_status (s : string) : bool :=
  (s =? "Confirmed")%string || (s =? "Cancelled")%string
  || (s =? "Completed")%string.

Record consistent (db : Session) : Prop := mk_consistent {
  user_ids : map User.id (users db) = ids_upto (List.length (users db));
  vehicle_ids :
    map Vehicle.id (vehicles db) = ids_upto (List.length (vehicles db));
  booking_ids :
    map Booking.id (bookings db) = ids_upto (List.length (bookings db));
  phones_unique : NoDup (map User.phone (users db));
  emails_unique : NoDup (map User.email (users db));
  vehicle_owner :
    forall v, In v (vehicles db) ->
      exists u, In u (users db) /\ User.id u = Vehicle.user_id v;
  booking_refs :
    forall b, In b (bookings db) ->
      (exists u, In u (users db) /\ User.id u = Booking.user_id b)
      /\ (exists v, In v (vehicles db) /\ Vehicle.id v = Booking.vehicle_id b
                    /\ Vehicle.user_id v = Booking.user_id b);
  booking_status :
    forall b, In b (bookings db) -> known_status (Booking.status b) = true
}.

(** A served world in which a cancelled booking is completed after its
    slot was refilled: five bookings at 10:00, booking 3 cancelled, a
    sixth request takes the freed place, then booking 3 is completed. *)
Definition refilled : Session :=
  post_schedule [request "2025-06-10" "10:00"]
    (fst (cancel_booking_endpoint 3
            (post_schedule (repeat (request "2025-06-10" "10:00") 5)
                           startup))).

(* ===================================================================== *)
(** ** backend/nlp_parser.py *)
(* ===================================================================== *)

(** Text is ASCII. A confidence is one of the decimal constants of the
    source, kept as a rational. *)
Module nlp_parser.

Definition code (c : ascii) : Z := Z.of_nat (nat_of_ascii c).

Definition is_upper (c : ascii) : bool := (65 <=? code c) && (code c <=? 90).
Definition is_lower (c : ascii) : bool := (97 <=? code c) && (code c <=? 122).

Definition lower_char (c : ascii) : ascii :=
  if is_upper c then ascii_of_nat (nat_of_ascii c + 32) else c.
Definition upper_char (c : ascii) : ascii :=
  if is_lower c then ascii_of_nat (nat_of_ascii c - 32) else c.

(** [s.lower()] *)
Fixpoint lower (s : string) : string :=
  match s with
  | EmptyString => EmptyString
  | String c r => String (lower_char c) (lower r)
  end.

(** [s.title()]: a letter that follows a letter is lowered, any other
    letter is raised. *)
Fixpoint title_from (previous_is_cased : bool) (s : string) : string :=
  match s with
  | EmptyString => EmptyString
  | String c r =>
      if is_lower c || is_upper c
      then String (if previous_is_cased then lower_char c else upper_char c)
                  (title_from true r)
      else String c (title_from false r)
  end.

Definition title (s : string) : string := title_from false s.

(** [needle in text] *)
Fixpoint contains (needle text : string) : bool :=
  prefix needle text
  || match text with
     | EmptyString => false
     | String _ r => contains needle r
     end.

(** [any(kw in text for kw in keywords)] *)
Definition any_in (keywords : list string) (text : string) : bool :=
  existsb (fun kw => contains kw text) keywords.

Definition VEHICLE_MAKES : list (string * string) :=
  [("tata", "Tata"); ("maruti", "Maruti"); ("hyundai", "Hyundai");
   ("mahindra", "Mahindra"); ("kia", "Kia"); ("renault", "Renault");
   ("nissan", "Nissan"); ("skoda", "Skoda"); ("volkswagen", "Volkswagen");
   ("toyota", "Toyota"); ("honda", "Honda"); ("force", "Force");
   ("jeep", "Jeep"); ("mg", "MG"); ("citroen", "Citroen")].

Definition VEHICLE_MODELS : list (string * list string) :=
  [("tata", ["nexon"; "harrier"; "safari"; "altroz"; "punch"; "tigor"]);
   ("maruti", ["swift"; "wagon-r"; "alto"; "dzire"; "brezza"; "s-cross";
               "baleno"]);
   ("hyundai", ["creta"; "venue"; "tucson"; "i20"; "i10"; "kona"]);
   ("mahindra", ["xuv500"; "xuv700"; "scorpio"; "bolero"; "thar";
                 "nuvosport"]);
   ("kia", ["seltos"; "sonet"; "carens"; "niro"]);
   ("renault", ["duster"; "kwid"; "triber"]);
   ("nissan", ["magnite"; "kicks"]);
   ("skoda", ["rapid"; "slavia"; "superb"]);
   ("volkswagen", ["polo"; "vento"]);
   ("toyota", ["innova"; "fortuner"; "glanza"]);
   ("honda", ["city"; "civic"; "jazz"]);
   ("jeep", ["wrangler"; "compass"]);
   ("mg", ["hector"; "astor"; "gloster"]);
   ("citroen", ["c3"; "c5"])].

Definition SERVICE_TYPES : list string :=
  ["general service"; "oil change"; "maintenance"; "inspection";
   "repair"; "battery replacement"; "tire replacement"; "alignment"].

Definition AVAILABLE_SLOTS : list string :=
  ["09:00"; "10:00"; "11:00"; "12:00"; "14:00"; "15:00"; "16:00"; "17:00"].

Definition detect_intent (text : string) : string * Q :=
  let text_lower := lower text in
  let booking_keywords :=
    ["book"; "schedule"; "appointment"; "service"; "need"; "want"] in
  let check_keywords := ["check"; "view"; "status"; "booking"; "confirm"] in
  let cancel_keywords := ["cancel"; "delete"; "remove"; "reschedule"] in
  if any_in booking_keywords text_lower then ("book_service", 95 # 100)
  else if any_in check_keywords text_lower then ("check_booking", 90 # 100)
  else if any_in cancel_keywords text_lower then ("cancel_booking", 88 # 100)
  else ("unknown", 0%Q).

(** The inner loop of [extract_vehicle]: the first model in the text. *)
Definition find_model (models : list string) (text_lower : string)
  : option string :=
  option_map title (find (fun model => contains model text_lower) models).

Definition extract_vehicle (text : string) : string * string * Q :=
  let text_lower := lower text in
  match find (fun kv => contains (fst kv) text_lower) VEHICLE_MAKES with
  | None => ("Unknown", "Unknown", 0%Q)
  | Some (make_key, make_name) =>
      match dict_get VEHICLE_MODELS make_key with
      | None => (make_name, "Unknown", 90 # 100)
      | Some models =>
          match find_model models text_lower with
          | Some detected_model => (make_name, detected_model, 95 # 100)
          | None => (make_name, "Unknown", 90 # 100)
          end
      end
  end.

Definition is_digit (c : ascii) : bool := (48 <=? code c) && (code c <=? 57).

(** [\s] on ASCII text *)
Definition is_space (c : ascii) : bool :=
  ((9 <=? code c) && (code c <=? 13)) || ((28 <=? code c) && (code c <=? 32)).

(** [int(s)] of a run of digits *)
Fixpoint int_from (acc : Z) (s : string) : Z :=
  match s with
  | EmptyString => acc
  | String c r => int_from (10 * acc + (code c - 48)) r
  end.

Definition int (s : string) : Z := int_from 0 s.

(** [re.search(pattern, s)]: the match at the leftmost position that has
    one, [match_at] giving the match of the pattern at the start of a
    text. *)
Fixpoint search {A} (match_at : string -> option A) (s : string)
  : option A :=
  match match_at s with
  | Some m => Some m
  | None =>
      match s with
      | EmptyString => None
      | String _ r => search match_at r
      end
  end.

Fixpoint skip_spaces (s : string) : string :=
  match s with
  | String c r => if is_space c then skip_spaces r else s
  | EmptyString => s
  end.

(** [date.toordinal()] and [date.weekday()] (Monday is 0), as the
    [datetime] module computes them. *)
Definition days_before_year (year : Z) : Z :=
  let y := year - 1 in y * 365 + y / 4 - y / 100 + y / 400.

Definition days_before_month (year month : Z) : Z :=
  nth (Z.to_nat month) [0; 0; 31; 59; 90; 120; 151; 181; 212; 243; 273; 304; 334] 0
  + (if (2 <? month) && datetime.is_leap year then 1 else 0).

Definition toordinal (dt : datetime.date) : Z :=
  let '(y, m, d) := dt in days_before_year y + days_before_month y m + d.

Definition weekday (dt : datetime.date) : Z := (toordinal dt + 6) mod 7.

Definition day_map : list (string * Z) :=
  [("monday", 0); ("tuesday", 1); ("wednesday", 2); ("thursday", 3);
   ("friday", 4); ("saturday", 5); ("sunday", 6)].

(** [(\d{4})-(\d{2})-(\d{2})] at the start of a text: group 0. *)
Definition match_iso (s : string) : option string :=
  match s with
  | String y1 (String y2 (String y3 (String y4 (String "-"
      (String m1 (String m2 (String "-" (String d1 (String d2 _))))))))) =>
      if is_digit y1 && is_digit y2 && is_digit y3 && is_digit y4
         && is_digit m1 && is_digit m2 && is_digit d1 && is_digit d2
      then Some (String y1 (String y2 (String y3 (String y4 (String "-"
             (String m1 (String m2 (String "-" (String d1
               (String d2 ""))))))))))
      else None
  | _ => None
  end.

(** The ways [\d{1,2}] matches at the start of a text, two digits
    first: the digits and the text left. *)
Definition digits_1_2 (s : string) : list (string * string) :=
  (match s with
   | String a (String b r) =>
       if is_digit a && is_digit b then [(String a (String b ""), r)] else []
   | _ => []
   end)
  ++ (match s with
      | String a r => if is_digit a then [(String a "", r)] else []
      | EmptyString => []
      end).

(** [(\d{1,2})/(\d{1,2})/(\d{4})] at the start of a text: the groups. *)
Definition match_slash (s : string) : option (string * string * string) :=
  hd_error
    (flat_map (fun '(day, r1) =>
       match r1 with
       | String "/" r2 =>
           flat_map (fun '(month, r3) =>
             match r3 with
             | String "/" (String a (String b (String c (String d _)))) =>
                 if is_digit a && is_digit b && is_digit c && is_digit d
                 then [(day, month,
                        String a (String b (String c (String d ""))))]
                 else []
             | _ => []
             end) (digits_1_2 r2)
       | _ => []
       end) (digits_1_2 s)).

(** The longest run of digits at the start of a text, and the rest. *)
Fixpoint span_digits (s : string) : string * string :=
  match s with
  | String c r =>
      if is_digit c
      then (let '(ds, rest) := span_digits r in (String c ds, rest))
      else (EmptyString, s)
  | EmptyString => (EmptyString, EmptyString)
  end.

(** [\s+] at the start of a text: the text left. *)
Definition spaces (s : string) : option string :=
  match s with
  | String c r => if is_space c then Some (skip_spaces r) else None
  | EmptyString => None
  end.

(** [next\s+(\d+)\s+days?] at the start of a text: group 1. *)
Definition match_days (s : string) : option string :=
  match s with
  | String "n" (String "e" (String "x" (String "t" r))) =>
      match spaces r with
      | Some r1 =>
          match span_digits r1 with
          | (String c ds, r2) =>
              match spaces r2 with
              | Some r3 => if prefix "day" r3 then Some (String c ds) else None
              | None => None
              end
          | (EmptyString, _) => None
          end
      | None => None
      end
  | _ => None
  end.

(** [today + timedelta(days=days)] for [days >= 0]: a [timedelta] holds
    at most 999999999 days. *)
Definition plus_days (today : datetime.date) (days : Z)
  : result datetime.date :=
  if 999999999 <? days then inl OverflowError
  else datetime.add_days today (Z.to_nat days).

(** [today] is the date of [datetime.today()]. [int] refuses a text of
    more than 4300 digits with [ValueError]. *)
Definition extract_date (today : datetime.date) (text : string)
  : result (string * Q) :=
  let text_lower := lower text in
  if contains "tomorrow" text_lower then
    match plus_days today 1 with
    | inl e => inl e
    | inr tomorrow => inr (datetime.strftime tomorrow, 95 # 100)
    end
  else
    match find (fun kv => contains (fst kv) text_lower) day_map with
    | Some (day_name, day_offset) =>
        let days_ahead := day_offset - weekday today in
        let days_ahead :=
          if days_ahead <=? 0 then days_ahead + 7 else days_ahead in
        match plus_days today days_ahead with
        | inl e => inl e
        | inr future_date => inr (datetime.strftime future_date, 90 # 100)
        end
    | None =>
        match search match_iso text with
        | Some match_iso => inr (match_iso, 95 # 100)
        | None =>
            let by_slash :=
              match search match_slash text with
              | Some (day, month, year) =>
                  let parsed := (int year, int month, int day) in
                  if datetime.valid parsed
                  then Some (datetime.strftime parsed, 92 # 100)
                  else None
              | None => None
              end in
            match by_slash with
            | Some answer => inr answer
            | None =>
                match search match_days text_lower with
                | Some digits =>
                    if (4300 <? String.length digits)%nat
                    then inl ValueError
                    else
                      match plus_days today (int digits) with
                      | inl e => inl e
                      | inr future =>
                          inr (datetime.strftime future, 85 # 100)
                      end
                | None => inr (datetime.strftime today, 50 # 100)
                end
            end
        end
    end.

(** [(\d{1,2}):(\d{2})] at the start of a text: the two groups. *)
Definition match_time_at (s : string) : option (string * string) :=
  match s with
  | String a (String b (String ":" (String m1 (String m2 _)))) =>
      if is_digit a && is_digit b && is_digit m1 && is_digit m2
      then Some (String a (String b ""), String m1 (String m2 ""))
      else None
  | _ => None
  end.

Definition match_time_at_1 (s : string) : option (string * string) :=
  match s with
  | String a (String ":" (String m1 (String m2 _))) =>
      if is_digit a && is_digit m1 && is_digit m2
      then Some (String a "", String m1 (String m2 ""))
      else None
  | _ => None
  end.

Definition match_time (s : string) : option (string * string) :=
  match match_time_at s with
  | Some m => Some m
  | None => match_time_at_1 s
  end.

(** [\s*(am|pm|a\.m\.|p\.m\.)] at the start of a text: group 2. *)
Definition match_period (s : string) : option string :=
  let r := skip_spaces s in
  if prefix "am" r then Some "am"
  else if prefix "pm" r then Some "pm"
  else if prefix "a.m." r then Some "a.m."
  else if prefix "p.m." r then Some "p.m."
  else None.

(** [(\d{1,2})\s*(am|pm|a\.m\.|p\.m\.)] at the start of a text: two
    digits are tried before one. *)
Definition match_am_pm (s : string) : option (string * string) :=
  let two :=
    match s with
    | String a (String b r) =>
        if is_digit a && is_digit b
        then option_map (fun p => (String a (String b ""), p)) (match_period r)
        else None
    | _ => None
    end in
  match two with
  | Some m => Some m
  | None =>
      match s with
      | String a r =>
          if is_digit a
          then option_map (fun p => (String a "", p)) (match_period r)
          else None
      | EmptyString => None
      end
  end.

(** [f"{n:02d}"] for [n >= 0] *)
Definition format_02d (n : Z) : string := zfill 2 (str n).

(** [slot.split(":")[0]] *)
Fixpoint before_colon (s : string) : string :=
  match s with
  | EmptyString => EmptyString
  | String c r => if (c =? ":")%char then EmptyString
                  else String c (before_colon r)
  end.

Definition extract_time (text : string) : string * Q :=
  let text_lower := lower text in
  let by_clock :=
    match search match_time text with
    | Some (hour, minute) =>
        let time_str := format_02d (int hour) ++ ":" ++ minute in
        if str_in time_str AVAILABLE_SLOTS then Some (time_str, 95 # 100)
        else None
    | None => None
    end in
  match by_clock with
  | Some answer => answer
  | None =>
      let by_period :=
        match search match_am_pm text_lower with
        | Some (digits, period) =>
            let hour := int digits in
            let hour :=
              if contains "p" period && negb (hour =? 12) then hour + 12
              else if contains "a" period && (hour =? 12) then 0
              else hour in
            option_map (fun slot => (slot, 90 # 100))
              (find (fun slot => int (before_colon slot) =? hour)
                    AVAILABLE_SLOTS)
        | None => None
        end in
      match by_period with
      | Some answer => answer
      | None =>
          if contains "morning" text_lower then ("09:00", 70 # 100)
          else if contains "afternoon" text_lower then ("14:00", 70 # 100)
          else if contains "evening" text_lower then ("16:00", 70 # 100)
          else ("10:00", 50 # 100)
      end
  end.

Definition extract_service_type (text : string) : string * Q :=
  let text_lower := lower text in
  match find (fun service => contains service text_lower) SERVICE_TYPES with
  | Some service => (title service, 90 # 100)
  | None => ("General Service", 50 # 100)
  end.

End nlp_parser.


(** The keywords that decide for a booking: the six of the booking list,
    and the two of the other lists that contain one of them. *)
Definition booking_words : list string :=
  ["book"; "schedule"; "appointment"; "service"; "need"; "want";
   "booking"; "reschedule"].

(** A text without digits. *)
Fixpoint no_digit (s : string) : bool :=
  match s with
  | EmptyString => true
  | String c r => negb (nlp_parser.is_digit c) && no_digit r
  end.

(** What a notification of the log looks like against a store: it is of
    a booking of the store, it is stamped, and its kind, status and id
    are those of one of the four senders. *)
Definition logged_for (db : Session) (n : NotificationService.notification)
  : Prop :=
  (exists b, get_booking_by_id db (NotificationService.n_booking_id n)
             = Some b)
  /\ NotificationService.n_timestamp n <> None
  /\ In (NotificationService.n_type n, NotificationService.n_status n,
         NotificationService.n_id n)
        [("email", "sent",
          "EMAIL-" ++ str (NotificationService.n_booking_id n));
         ("sms", "sent",
          "SMS-" ++ str (NotificationService.n_booking_id n));
         ("reminder", "scheduled",
          "REMINDER-" ++ str (NotificationService.n_booking_id n));
         ("completion", "sent",
          "COMPLETE-" ++ str (NotificationService.n_booking_id n))].

(** A served world with a log: booking 3 of the busy day is confirmed,
    reminded and completed. *)
Definition notified : World :=
  fst (send_completion_notification "2025-06-10 12:00:00" 3
         (fst (send_booking_reminder "2025-06-09 09:00:00" 3
                 (fst (send_booking_confirmation "2025-06-08 08:00:00"
                         "2025-06-08 08:00:01" 3 (busy_day, [])))))).

(* ===================================================================== *)
(** ** Basic facts on the queries *)
(* ===================================================================== *)

Lemma str_in_In x l : str_in x l = true <-> In x l.
Proof.
  unfold str_in. rewrite existsb_exists. split.
  - intros [y [Hy Heq]]. apply String.eqb_eq in Heq. now subst.
  - intros H. exists x. split; [assumption | apply String.eqb_refl].
Qed.

Lemma check_slot_availability_lt db date time c :
  check_slot_availability db date time c = true
  <-> slot_count db date time c < SLOTS_PER_TIMEFRAME.
Proof. unfold check_slot_availability. apply Z.ltb_lt. Qed.

Lemma check_slot_availability_ge db date time c :
  check_slot_availability db date time c = false
  <-> SLOTS_PER_TIMEFRAME <= slot_count db date time c.
Proof. unfold check_slot_availability. apply Z.ltb_ge. Qed.

Lemma slot_count_nonneg db date time c : 0 <= slot_count db date time c.
Proof. unfold slot_count. lia. Qed.

(* ===================================================================== *)
(** ** C4: the exact-match tier *)
(* ===================================================================== *)

(** C4. When the preferred time is one of the eight slot labels and the
    preferred (date, time, center) slot holds fewer than five bookings
    that are not cancelled, [find_preferred_slot] returns the preferred
    date and time unchanged. *)
Theorem find_preferred_slot_exact_match db d t c :
  In t AVAILABLE_SLOTS ->
  slot_count db d t c < 5 ->
  find_preferred_slot db d t c = inr (d, t).
Proof.
  intros Hin Hlt. unfold find_preferred_slot.
  apply str_in_In in Hin. rewrite Hin.
  apply check_slot_availability_lt in Hlt. rewrite Hlt.
  reflexivity.
Qed.

Lemma find_preferred_slot_exact_match_witness :
  find_preferred_slot startup "2025-06-10" "14:00" 1
  = inr ("2025-06-10", "14:00").
Proof.
  apply find_preferred_slot_exact_match.
  - simpl. tauto.
  - vm_compute. reflexivity.
Defined.

(* ===================================================================== *)
(** ** C9: the wait-time bands *)
(* ===================================================================== *)

(** C9. With [minutes = occupancy.get(slot, 0) * 30], [predict_wait_time]
    answers the no-wait message when [minutes = 0], "~N min wait" when
    [0 < minutes <= 30], "~N min wait (about 1 hour)" when
    [30 < minutes <= 60] and "~Hh Mm wait" with [H = minutes div 60] and
    [M = minutes mod 60] when [minutes > 60]; a count of 0 gives no wait,
    a count of 1 gives "~30 min wait" and a count of 3 "~1h 30m wait". *)
Theorem predict_wait_time_bands (occupancy : dict Z) (slot : string) :
  let count := dict_get_default occupancy slot 0 in
  let minutes := count * 30 in
  (minutes = 0 ->
   predict_wait_time occupancy slot = "No wait - You'll be first!")
  /\ (0 < minutes <= 30 ->
      predict_wait_time occupancy slot = "~" ++ str minutes ++ " min wait")
  /\ (30 < minutes <= 60 ->
      predict_wait_time occupancy slot
      = "~" ++ str minutes ++ " min wait (about 1 hour)")
  /\ (60 < minutes ->
      predict_wait_time occupancy slot
      = "~" ++ str (minutes / 60) ++ "h " ++ str (minutes mod 60) ++ "m wait")
  /\ (count = 0 ->
      predict_wait_time occupancy slot = "No wait - You'll be first!")
  /\ (count = 1 -> predict_wait_time occupancy slot = "~30 min wait")
  /\ (count = 3 -> predict_wait_time occupancy slot = "~1h 30m wait").
Proof.
  intros count minutes. unfold predict_wait_time.
  fold count. fold minutes.
  repeat split; intros H.
  - rewrite H. reflexivity.
  - destruct (Z.eqb_spec minutes 0); [lia|].
    destruct (Z.leb_spec minutes 30); [reflexivity | lia].
  - destruct (Z.eqb_spec minutes 0); [lia|].
    destruct (Z.leb_spec minutes 30); [lia|].
    destruct (Z.leb_spec minutes 60); [reflexivity | lia].
  - destruct (Z.eqb_spec minutes 0); [lia|].
    destruct (Z.leb_spec minutes 30); [lia|].
    destruct (Z.leb_spec minutes 60); [lia | reflexivity].
  - subst minutes. rewrite H. reflexivity.
  - subst minutes. rewrite H. reflexivity.
  - subst minutes. rewrite H. reflexivity.
Qed.

Lemma predict_wait_time_bands_witness :
  predict_wait_time [("09:00", 0); ("10:00", 1); ("11:00", 2); ("12:00", 3)]
                    "12:00" = "~1h 30m wait"
  /\ predict_wait_time [("09:00", 0); ("10:00", 1); ("11:00", 2)] "11:00"
     = "~60 min wait (about 1 hour)"
  /\ predict_wait_time [("09:00", 0); ("10:00", 1)] "10:00" = "~30 min wait"
  /\ predict_wait_time [("09:00", 0); ("10:00", 1)] "17:00"
     = "No wait - You'll be first!".
Proof.
  split; [| split; [| split]].
  - apply (predict_wait_time_bands
             [("09:00", 0); ("10:00", 1); ("11:00", 2); ("12:00", 3)]
             "12:00").
    reflexivity.
  - apply (predict_wait_time_bands
             [("09:00", 0); ("10:00", 1); ("11:00", 2)] "11:00").
    vm_compute. split; [reflexivity | discriminate].
  - apply (predict_wait_time_bands [("09:00", 0); ("10:00", 1)] "10:00").
    reflexivity.
  - apply (predict_wait_time_bands [("09:00", 0); ("10:00", 1)] "17:00").
    reflexivity.
Defined.


(* ===================================================================== *)
(** ** [sorted] is a stable sort *)
(* ===================================================================== *)

Section Sorted.
Context {A : Type} (key : A -> Z).

Lemma insert_sorted_Permutation x l :
  Permutation (x :: l) (insert_sorted key x l).
Proof.
  induction l as [| y l IH]; simpl.
  - apply Permutation_refl.
  - destruct (key x <=? key y).
    + apply Permutation_refl.
    + eapply perm_trans; [apply perm_swap |].
      apply perm_skip. exact IH.
Qed.

Lemma sorted_Permutation l : Permutation l (sorted l key).
Proof.
  induction l as [| x l IH]; simpl.
  - constructor.
  - eapply perm_trans; [apply perm_skip, IH |].
    apply insert_sorted_Permutation.
Qed.

Lemma sorted_nil l : sorted l key = [] -> l = [].
Proof.
  intros H. apply Permutation_nil.
  rewrite <- H. apply Permutation_sym, sorted_Permutation.
Qed.

(** The keys of the result ascend. *)
Inductive ascending : list A -> Prop :=
| ascending_nil : ascending []
| ascending_one x : ascending [x]
| ascending_cons x y l :
    key x <= key y -> ascending (y :: l) -> ascending (x :: y :: l).

Lemma insert_sorted_ascending x l :
  ascending l -> ascending (insert_sorted key x l).
Proof.
  induction 1 as [| y | y z l Hyz Hl IH]; simpl.
  - constructor.
  - destruct (Z.leb_spec (key x) (key y)); repeat constructor; lia.
  - destruct (Z.leb_spec (key x) (key y)).
    + repeat constructor; assumption.
    + simpl in IH. destruct (Z.leb_spec (key x) (key z)).
      * repeat constructor; try assumption; lia.
      * constructor; assumption.
Qed.

Lemma sorted_ascending l : ascending (sorted l key).
Proof.
  induction l; simpl; [constructor | now apply insert_sorted_ascending].
Qed.

(** Stability: the elements of any one key keep their order. *)
Lemma insert_sorted_stable k x l :
  ascending l ->
  filter (fun y => key y =? k) (insert_sorted key x l)
  = filter (fun y => key y =? k) (x :: l).
Proof.
  induction 1 as [| y | y z l Hyz Hl IH].
  - reflexivity.
  - simpl. destruct (Z.leb_spec (key x) (key y)); simpl; [reflexivity |].
    destruct (Z.eqb_spec (key y) k), (Z.eqb_spec (key x) k);
      try reflexivity; lia.
  - change (insert_sorted key x (y :: z :: l))
      with (if key x <=? key y then x :: y :: z :: l
            else y :: insert_sorted key x (z :: l)).
    destruct (Z.leb_spec (key x) (key y)); [reflexivity |].
    change (filter (fun y => key y =? k) (y :: insert_sorted key x (z :: l)))
      with (if key y =? k
            then y :: filter (fun y => key y =? k)
                             (insert_sorted key x (z :: l))
            else filter (fun y => key y =? k) (insert_sorted key x (z :: l))).
    rewrite IH. cbn [filter].
    destruct (Z.eqb_spec (key y) k), (Z.eqb_spec (key x) k);
      try reflexivity; lia.
Qed.

Lemma sorted_stable k l :
  filter (fun y => key y =? k) (sorted l key)
  = filter (fun y => key y =? k) l.
Proof.
  induction l as [| x l IH]; [reflexivity |].
  cbn [sorted]. rewrite insert_sorted_stable by apply sorted_ascending.
  cbn [filter]. now rewrite IH.
Qed.

(** The head of the result is the first element of least key. *)
Lemma sorted_head l h tl :
  sorted l key = h :: tl ->
  exists l1 l2,
    l = (l1 ++ h :: l2)%list
    /\ (forall y, In y l1 -> key h < key y)
    /\ (forall y, In y l2 -> key h <= key y).
Proof.
  revert h tl. induction l as [| x l IH]; intros h tl H; [discriminate |].
  cbn [sorted] in H.
  destruct (sorted l key) as [| h' tl'] eqn:E.
  - apply sorted_nil in E. subst l. simpl in H.
    injection H as <- <-. exists [], []. simpl. repeat split; tauto.
  - destruct (IH h' tl' eq_refl) as (l1 & l2 & Hl & H1 & H2).
    simpl in H. destruct (Z.leb_spec (key x) (key h')).
    + injection H as <- <-. exists [], l. split; [reflexivity |].
      split; [intros y [] |].
      intros y Hy. subst l. apply in_app_or in Hy.
      destruct Hy as [Hy | [<- | Hy]].
      * specialize (H1 y Hy). lia.
      * assumption.
      * specialize (H2 y Hy). lia.
    + injection H as <- <-. exists (x :: l1), l2. subst l.
      split; [reflexivity |]. split; [| assumption].
      intros y [<- | Hy]; [assumption | now apply H1].
Qed.

End Sorted.

(* ===================================================================== *)
(** ** C5: the same-day relaxation tier *)
(* ===================================================================== *)

Lemma get_slot_occupancy_get db date c slot :
  In slot AVAILABLE_SLOTS ->
  dict_get_default (get_slot_occupancy db date c) slot 0
  = slot_count db date slot c.
Proof.
  intros H. unfold AVAILABLE_SLOTS in H. simpl in H.
  repeat (destruct H as [<- | H]; [reflexivity |]).
  contradiction.
Qed.

(** C5. When the exact-match tier does not apply (the preferred time is
    not a slot label, or the preferred slot is full) and some slot of the
    preferred date is available, [find_preferred_slot] returns the
    preferred date with a slot [s] that is available, whose count of
    bookings not cancelled is the least of the eight, and that is the
    first such slot in the order of [AVAILABLE_SLOTS]; so it is not a
    preferred time holding five bookings. *)
Theorem find_preferred_slot_same_day db d t c :
  ~ (In t AVAILABLE_SLOTS /\ slot_count db d t c < 5) ->
  (exists s0, In s0 AVAILABLE_SLOTS /\ slot_count db d s0 c < 5) ->
  exists s before after,
    find_preferred_slot db d t c = inr (d, s)
    /\ AVAILABLE_SLOTS = (before ++ s :: after)%list
    /\ check_slot_availability db d s c = true
    /\ (forall s', In s' before -> slot_count db d s c < slot_count db d s' c)
    /\ (forall s', In s' after -> slot_count db d s c <= slot_count db d s' c)
    /\ (5 <= slot_count db d t c -> s <> t).
Proof.
  intros Hexact (s0 & Hs0 & Hfree).
  unfold find_preferred_slot.
  assert (Htier1 : str_in t AVAILABLE_SLOTS && check_slot_availability db d t c
                   = false).
  { apply not_true_is_false. intros E. apply andb_prop in E as [E1 E2].
    apply Hexact. split; [now apply str_in_In |].
    now apply check_slot_availability_lt. }
  rewrite Htier1.
  set (key := fun x => dict_get_default (get_slot_occupancy db d c) x 0).
  destruct (sorted AVAILABLE_SLOTS key) as [| h tl] eqn:E.
  { apply sorted_nil in E. discriminate. }
  destruct (sorted_head key _ _ _ E) as (l1 & l2 & Hl & H1 & H2).
  assert (Hkey : forall x, In x AVAILABLE_SLOTS -> key x = slot_count db d x c).
  { intros x Hx. now apply get_slot_occupancy_get. }
  assert (Hin : forall x, In x l1 \/ x = h \/ In x l2 -> In x AVAILABLE_SLOTS).
  { intros x Hx. rewrite Hl. apply in_or_app. simpl.
    destruct Hx as [Hx | [-> | Hx]]; tauto. }
  assert (Hh : slot_count db d h c < 5).
  { rewrite <- Hkey by (apply Hin; tauto).
    rewrite Hl in Hs0. apply in_app_or in Hs0.
    destruct Hs0 as [Hs0 | [<- | Hs0]].
    - specialize (H1 _ Hs0). rewrite (Hkey s0) in H1 by (apply Hin; tauto).
      lia.
    - rewrite Hkey by (apply Hin; tauto). exact Hfree.
    - specialize (H2 _ Hs0). rewrite (Hkey s0) in H2 by (apply Hin; tauto).
      lia. }
  exists h, l1, l2.
  unfold first_available. cbn [find].
  rewrite (proj2 (check_slot_availability_lt db d h c) Hh).
  repeat split.
  - exact Hl.
  - intros s' Hs'. specialize (H1 _ Hs').
    rewrite !Hkey in H1 by (apply Hin; tauto). exact H1.
  - intros s' Hs'. specialize (H2 _ Hs').
    rewrite !Hkey in H2 by (apply Hin; tauto). exact H2.
  - intros Hfull ->. unfold SLOTS_PER_TIMEFRAME in *. lia.
Qed.

Lemma find_preferred_slot_same_day_witness :
  exists s before after,
    find_preferred_slot busy_day "2025-06-10" "10:00" 1
    = inr ("2025-06-10", s)
    /\ AVAILABLE_SLOTS = (before ++ s :: after)%list
    /\ check_slot_availability busy_day "2025-06-10" s 1 = true
    /\ (forall s', In s' before ->
        slot_count busy_day "2025-06-10" s 1
        < slot_count busy_day "2025-06-10" s' 1)
    /\ (forall s', In s' after ->
        slot_count busy_day "2025-06-10" s 1
        <= slot_count busy_day "2025-06-10" s' 1)
    /\ (5 <= slot_count busy_day "2025-06-10" "10:00" 1 -> s <> "10:00").
Proof.
  apply find_preferred_slot_same_day.
  - intros [_ H]. vm_compute in H. discriminate.
  - exists "09:00". split; [simpl; tauto | vm_compute; reflexivity].
Defined.

(** On that store the slot chosen is 11:00: 09:00 holds one booking,
    10:00 is full, 11:00 is the first empty one. *)
Example find_preferred_slot_same_day_run :
  find_preferred_slot busy_day "2025-06-10" "10:00" 1
  = inr ("2025-06-10", "11:00").
Proof. vm_compute. reflexivity. Qed.

(* ===================================================================== *)
(** ** C6: the exhausted fallback *)
(* ===================================================================== *)

Lemma day_full_spec db date c :
  day_full db date c = true
  <-> forall s, In s AVAILABLE_SLOTS ->
                check_slot_availability db date s c = false.
Proof.
  unfold day_full. rewrite forallb_forall. split; intros H s Hs.
  - apply negb_true_iff. now apply H.
  - apply negb_true_iff. now apply H.
Qed.

Lemma first_available_none db date slots c :
  (forall s, In s slots -> check_slot_availability db date s c = false) ->
  first_available db date slots c = None.
Proof.
  intros H. unfold first_available.
  induction slots as [| s slots IH]; [reflexivity |].
  simpl. rewrite (H s) by (left; reflexivity).
  apply IH. intros s' Hs'. apply H. now right.
Qed.

Lemma search_days_none db d c offsets :
  (forall i, In i offsets ->
     exists di, datetime.shift d i = inr di /\ day_full db di c = true) ->
  search_days db d c offsets = inr None.
Proof.
  induction offsets as [| i offsets IH]; intros H; [reflexivity |].
  cbn [search_days].
  destruct (H i (or_introl eq_refl)) as (di & -> & Hfull).
  rewrite first_available_none by now apply day_full_spec.
  apply IH. intros j Hj. apply H. now right.
Qed.

(** C6. When no slot of the eight is available on the preferred date nor
    on any of the six days after it, [find_preferred_slot] returns the day
    after the preferred date with the first slot label, "09:00", although
    that slot is full. *)
Theorem find_preferred_slot_exhausted db d t c :
  day_full db d c = true ->
  (forall i, (1 <= i <= 6)%nat ->
     exists di, datetime.shift d i = inr di /\ day_full db di c = true) ->
  exists next_date,
    datetime.shift d 1 = inr next_date
    /\ find_preferred_slot db d t c = inr (next_date, "09:00")
    /\ check_slot_availability db next_date "09:00" c = false.
Proof.
  intros H0 Hweek.
  destruct (Hweek 1%nat ltac:(lia)) as (next_date & Hshift & H1).
  exists next_date. split; [exact Hshift |].
  rewrite day_full_spec in H0, H1.
  split; [| apply H1; simpl; tauto].
  unfold find_preferred_slot.
  assert (Htier1 : str_in t AVAILABLE_SLOTS && check_slot_availability db d t c
                   = false).
  { destruct (str_in t AVAILABLE_SLOTS) eqn:E; [| reflexivity].
    apply str_in_In in E. simpl. now apply H0. }
  rewrite Htier1.
  rewrite first_available_none.
  2:{ intros s Hs. apply H0.
      eapply Permutation_in; [| exact Hs].
      apply Permutation_sym, sorted_Permutation. }
  rewrite Hshift.
  rewrite first_available_none by exact H1.
  rewrite search_days_none; [reflexivity |].
  intros i Hi. apply Hweek. simpl in Hi. lia.
Qed.

(** The store [full_week], evaluated once. *)
Lemma full_week_facts :
  (day_full full_week "2025-06-10" 1 = true
   /\ day_full full_week "2025-06-11" 1 = true
   /\ day_full full_week "2025-06-12" 1 = true
   /\ day_full full_week "2025-06-13" 1 = true
   /\ day_full full_week "2025-06-14" 1 = true
   /\ day_full full_week "2025-06-15" 1 = true
   /\ day_full full_week "2025-06-16" 1 = true)
  /\ (find_preferred_slot full_week "2025-06-10" "09:00" 1
      = inr ("2025-06-11", "09:00")
      /\ slot_count full_week "2025-06-11" "09:00" 1 = 5
      /\ slot_count (post_schedule [request "2025-06-10" "09:00"] full_week)
                    "2025-06-11" "09:00" 1 = 6).
Proof. vm_compute. repeat split. Qed.

Lemma full_week_is_full :
  day_full full_week "2025-06-10" 1 = true
  /\ day_full full_week "2025-06-11" 1 = true
  /\ day_full full_week "2025-06-12" 1 = true
  /\ day_full full_week "2025-06-13" 1 = true
  /\ day_full full_week "2025-06-14" 1 = true
  /\ day_full full_week "2025-06-15" 1 = true
  /\ day_full full_week "2025-06-16" 1 = true.
Proof. exact (proj1 full_week_facts). Qed.

Lemma find_preferred_slot_exhausted_witness :
  exists next_date,
    datetime.shift "2025-06-10" 1 = inr next_date
    /\ find_preferred_slot full_week "2025-06-10" "09:00" 1
       = inr (next_date, "09:00")
    /\ check_slot_availability full_week next_date "09:00" 1 = false.
Proof.
  destruct full_week_is_full as (F0 & F1 & F2 & F3 & F4 & F5 & F6).
  apply find_preferred_slot_exhausted; [exact F0 |].
  intros i Hi.
  destruct i as [| [| [| [| [| [| [| i]]]]]]]; try lia.
  - exists "2025-06-11". split; [reflexivity | exact F1].
  - exists "2025-06-12". split; [reflexivity | exact F2].
  - exists "2025-06-13". split; [reflexivity | exact F3].
  - exists "2025-06-14". split; [reflexivity | exact F4].
  - exists "2025-06-15". split; [reflexivity | exact F5].
  - exists "2025-06-16". split; [reflexivity | exact F6].
Defined.

(** The scenario of the specification: the week from 2025-06-10 to
    2025-06-16 is fully booked and the request is sent to 2025-06-11
    09:00, which then holds a sixth booking. *)
Example find_preferred_slot_exhausted_run :
  find_preferred_slot full_week "2025-06-10" "09:00" 1
  = inr ("2025-06-11", "09:00")
  /\ slot_count full_week "2025-06-11" "09:00" 1 = 5
  /\ slot_count (post_schedule [request "2025-06-10" "09:00"] full_week)
                "2025-06-11" "09:00" 1 = 6.
Proof. exact (proj2 full_week_facts). Qed.

(* ===================================================================== *)
(** ** C8: cancelling frees the slot *)
(* ===================================================================== *)

Lemma slot_filter_cancelled d t c b :
  slot_filter d t c (Booking.set_status b "Cancelled") = false.
Proof. unfold slot_filter. cbn. apply andb_false_r. Qed.

Section Cancel.
Variables (d t : string) (c booking_id : Z).

Let cancel (b : Booking.t) : Booking.t :=
  if Booking.id b =? booking_id then Booking.set_status b "Cancelled" else b.

Lemma cancel_filter_le (l : list Booking.t) :
  (List.length (filter (slot_filter d t c) (map cancel l))
   <= List.length (filter (slot_filter d t c) l))%nat.
Proof.
  induction l as [| x l IH]; [apply Nat.le_refl |].
  cbn [map filter]. unfold cancel at 1.
  destruct (Booking.id x =? booking_id).
  - rewrite slot_filter_cancelled.
    destruct (slot_filter d t c x); cbn [List.length]; lia.
  - destruct (slot_filter d t c x); cbn [List.length]; lia.
Qed.

Lemma cancel_filter_lt (l : list Booking.t) (b : Booking.t) :
  In b l -> Booking.id b = booking_id -> slot_filter d t c b = true ->
  (List.length (filter (slot_filter d t c) (map cancel l))
   < List.length (filter (slot_filter d t c) l))%nat.
Proof.
  intros Hin Hid Hb. induction l as [| x l IH]; [destruct Hin |].
  cbn [map filter]. destruct Hin as [-> | Hin].
  - unfold cancel at 1. rewrite Hid, Z.eqb_refl, slot_filter_cancelled, Hb.
    cbn [List.length]. pose proof (cancel_filter_le l). lia.
  - specialize (IH Hin). unfold cancel at 1.
    destruct (Booking.id x =? booking_id).
    + rewrite slot_filter_cancelled.
      destruct (slot_filter d t c x); cbn [List.length]; lia.
    + destruct (slot_filter d t c x); cbn [List.length]; lia.
Qed.

End Cancel.

Lemma cancel_booking_exec db b :
  In b (bookings db) ->
  exec (cancel_booking (Booking.id b)) db
  = update_status (Booking.id b) "Cancelled" db.
Proof.
  intros Hin. unfold exec, cancel_booking.
  destruct (find _ (bookings db)) eqn:E; [reflexivity |].
  pose proof (find_none _ _ E b Hin) as H. cbn in H.
  rewrite Z.eqb_refl in H. discriminate.
Qed.

Lemma slot_count_cancel_le db booking_id d t c :
  slot_count (exec (cancel_booking booking_id) db) d t c
  <= slot_count db d t c.
Proof.
  unfold exec, cancel_booking.
  destruct (find _ (bookings db)); cbn [fst]; [| lia].
  unfold slot_count, update_status. cbn [bookings].
  pose proof (cancel_filter_le d t c booking_id (bookings db)). lia.
Qed.

(** C8. When a (date, time, center) triple holds exactly five bookings
    that are not cancelled, the slot is not available; after
    [cancel_booking] on one of those bookings it is. *)
Theorem cancel_booking_frees_slot db d t c b :
  slot_count db d t c = 5 ->
  In b (bookings db) ->
  slot_filter d t c b = true ->
  check_slot_availability db d t c = false
  /\ check_slot_availability (exec (cancel_booking (Booking.id b)) db) d t c
     = true.
Proof.
  intros Hfive Hin Hb. split.
  - apply check_slot_availability_ge. unfold SLOTS_PER_TIMEFRAME. lia.
  - apply check_slot_availability_lt.
    rewrite cancel_booking_exec by assumption.
    unfold slot_count in *. unfold update_status. cbn [bookings].
    pose proof (cancel_filter_lt d t c (Booking.id b) (bookings db) b
                  Hin eq_refl Hb).
    unfold SLOTS_PER_TIMEFRAME. lia.
Qed.

Lemma cancel_booking_frees_slot_witness :
  check_slot_availability busy_day "2025-06-10" "10:00" 1 = false
  /\ check_slot_availability
       (exec (cancel_booking 3) busy_day) "2025-06-10" "10:00" 1 = true.
Proof.
  apply (cancel_booking_frees_slot busy_day "2025-06-10" "10:00" 1
           (Booking.mk 3 1 1 1 "2025-06-10" "10:00" "General Service"
                       "Confirmed")).
  - vm_compute. reflexivity.
  - vm_compute. tauto.
  - vm_compute. reflexivity.
Defined.

(* ===================================================================== *)
(** ** What [find_preferred_slot] can return *)
(* ===================================================================== *)

Lemma first_available_some db date slots c s :
  first_available db date slots c = Some s ->
  In s slots /\ check_slot_availability db date s c = true.
Proof. unfold first_available. apply find_some. Qed.

Lemma first_available_none_inv db date slots c :
  first_available db date slots c = None ->
  forall s, In s slots -> check_slot_availability db date s c = false.
Proof. unfold first_available. intros H s Hs. exact (find_none _ _ H s Hs). Qed.

Lemma first_available_exists db date slots c s :
  In s slots -> check_slot_availability db date s c = true ->
  exists s', first_available db date slots c = Some s'.
Proof.
  intros Hin Hs. destruct (first_available db date slots c) eqn:E.
  - eexists. reflexivity.
  - rewrite (first_available_none_inv _ _ _ _ E s Hin) in Hs. discriminate.
Qed.

Lemma search_days_some db d c offsets sd s :
  search_days db d c offsets = inr (Some (sd, s)) ->
  exists i, In i offsets /\ datetime.shift d i = inr sd
            /\ In s AVAILABLE_SLOTS
            /\ check_slot_availability db sd s c = true.
Proof.
  induction offsets as [| i offsets IH]; cbn [search_days]; [discriminate |].
  destruct (datetime.shift d i) as [e | di] eqn:Hshift; [discriminate |].
  destruct (first_available db di AVAILABLE_SLOTS c) as [s' |] eqn:E.
  - intros H. injection H as <- <-.
    apply first_available_some in E as [Hin Hs].
    exists i. cbn [In]. auto.
  - intros H. destruct (IH H) as (j & Hj & Hrest).
    exists j. cbn [In]. auto.
Qed.

Lemma search_days_none_inv db d c offsets :
  search_days db d c offsets = inr None ->
  forall i, In i offsets ->
    exists di, datetime.shift d i = inr di /\ day_full db di c = true.
Proof.
  induction offsets as [| j offsets IH]; cbn [search_days]; intros H i Hi;
    [destruct Hi |].
  destruct (datetime.shift d j) as [e | dj] eqn:Hshift; [discriminate |].
  destruct (first_available db dj AVAILABLE_SLOTS c) as [s' |] eqn:E;
    [discriminate |].
  destruct Hi as [<- | Hi].
  - exists dj. split; [assumption |].
    apply day_full_spec. now apply first_available_none_inv.
  - now apply IH.
Qed.

Lemma sorted_slots_In key s :
  In s (sorted AVAILABLE_SLOTS key) <-> In s AVAILABLE_SLOTS.
Proof.
  split; apply Permutation_in;
    [apply Permutation_sym |]; apply sorted_Permutation.
Qed.

(** Either tiers 1 to 4 found a slot, one of the eight and available on
    the date returned, or every slot of the seven days is taken and the
    answer is the fallback. *)
Lemma find_preferred_slot_cases db d t c ad at_ :
  find_preferred_slot db d t c = inr (ad, at_) ->
  In at_ AVAILABLE_SLOTS
  /\ ((ad = d \/ exists i, (1 <= i <= 6)%nat /\ datetime.shift d i = inr ad)
      /\ check_slot_availability db ad at_ c = true
      \/ datetime.shift d 1 = inr ad /\ at_ = "09:00"
         /\ day_full db d c = true
         /\ forall i, (1 <= i <= 6)%nat ->
              exists di, datetime.shift d i = inr di
                         /\ day_full db di c = true).
Proof.
  unfold find_preferred_slot.
  destruct (str_in t AVAILABLE_SLOTS && check_slot_availability db d t c)
    eqn:E1.
  { intros H. injection H as <- <-. apply andb_prop in E1 as [Hin Hs].
    apply str_in_In in Hin. auto. }
  destruct (first_available db d (sorted AVAILABLE_SLOTS _) c) as [s |] eqn:E2.
  { intros H. injection H as <- <-.
    apply first_available_some in E2 as [Hin Hs].
    apply sorted_slots_In in Hin. auto. }
  destruct (datetime.shift d 1) as [e | next_date] eqn:Hshift; [discriminate |].
  destruct (first_available db next_date AVAILABLE_SLOTS c) as [s |] eqn:E3.
  { intros H. injection H as <- <-.
    apply first_available_some in E3 as [Hin Hs].
    split; [assumption |]. left. split; [| assumption].
    right. exists 1%nat. split; [lia | assumption]. }
  destruct (search_days db d c (seq 2 5)) as [e | [[sd s] |]] eqn:E4;
    [discriminate | |].
  { intros H. injection H as <- <-.
    apply search_days_some in E4 as (i & Hi & Hsd & Hin & Hs).
    split; [assumption |]. left. split; [| assumption].
    right. exists i. split; [| assumption].
    apply in_seq in Hi. lia. }
  intros H. injection H as <- <-. split; [cbn; tauto |].
  right. split; [reflexivity |]. split; [reflexivity |].
  split.
  - apply day_full_spec. intros s Hs.
    apply (first_available_none_inv _ _ _ _ E2). now apply sorted_slots_In.
  - intros i Hi. destruct (Nat.eq_dec i 1) as [-> | Hne].
    + exists next_date. split; [assumption |].
      apply day_full_spec. now apply first_available_none_inv.
    + apply (search_days_none_inv _ _ _ _ E4). apply in_seq. lia.
Qed.

(** No date is parsed while the preferred date has an available slot. *)
Lemma find_preferred_slot_same_date db d t c :
  day_full db d c = false ->
  exists s, find_preferred_slot db d t c = inr (d, s)
            /\ In s AVAILABLE_SLOTS
            /\ check_slot_availability db d s c = true.
Proof.
  intros Hfree.
  assert (Hex : exists s, In s AVAILABLE_SLOTS
                          /\ check_slot_availability db d s c = true).
  { unfold day_full in Hfree.
    destruct (forallb_forall
                (fun slot => negb (check_slot_availability db d slot c))
                AVAILABLE_SLOTS) as [_ Hall].
    destruct (existsb (fun s => check_slot_availability db d s c)
                      AVAILABLE_SLOTS) eqn:E.
    - apply existsb_exists in E. exact E.
    - rewrite Hall in Hfree; [discriminate |].
      intros s Hs. apply negb_true_iff.
      destruct (check_slot_availability db d s c) eqn:Es; [| reflexivity].
      assert (existsb (fun s => check_slot_availability db d s c)
                      AVAILABLE_SLOTS = true)
        by (apply existsb_exists; eauto).
      congruence. }
  destruct Hex as (s0 & Hin0 & Hs0).
  unfold find_preferred_slot.
  destruct (str_in t AVAILABLE_SLOTS && check_slot_availability db d t c)
    eqn:E1.
  { apply andb_prop in E1 as [Hin Hs]. apply str_in_In in Hin. eauto. }
  destruct (first_available_exists db d (sorted AVAILABLE_SLOTS
              (fun x => dict_get_default (get_slot_occupancy db d c) x 0))
              c s0) as [s Hs]; [now apply sorted_slots_In | assumption |].
  rewrite Hs. apply first_available_some in Hs as [Hin Hav].
  apply sorted_slots_In in Hin. eauto.
Qed.

(** A date that cannot be parsed is an error once the preferred date has
    no available slot. *)
Lemma find_preferred_slot_unparsed db d t c e :
  datetime.strptime d = inl e ->
  day_full db d c = true ->
  find_preferred_slot db d t c = inl e.
Proof.
  intros Hparse Hfull. rewrite day_full_spec in Hfull.
  unfold find_preferred_slot.
  assert (Htier1 : str_in t AVAILABLE_SLOTS && check_slot_availability db d t c
                   = false).
  { destruct (str_in t AVAILABLE_SLOTS) eqn:E; [| reflexivity].
    apply str_in_In in E. cbn. now apply Hfull. }
  rewrite Htier1.
  rewrite first_available_none
    by (intros s Hs; apply Hfull; now apply sorted_slots_In in Hs).
  unfold datetime.shift. rewrite Hparse. reflexivity.
Qed.

(* ===================================================================== *)
(** ** The steps of [schedule_appointment] *)
(* ===================================================================== *)

Lemma create_or_get_user_spec name phone email db :
  match create_or_get_user name phone email db with
  | (db1, inr u) =>
      User.phone u = phone /\ In u (users db1)
      /\ (db1 = db
          \/ ~ In u (users db)
             /\ db1 = mkSession (users db ++ [u]) (vehicles db) (bookings db)
                                (service_centers db))
  | (db1, inl e) => db1 = db /\ e = IntegrityError
  end.
Proof.
  unfold create_or_get_user, bind, query, ret.
  destruct (find _ (users db)) as [u |] eqn:E.
  - apply find_some in E as [Hin Hphone].
    apply String.eqb_eq in Hphone. auto.
  - unfold insert_user.
    destruct (existsb _ (users db)) eqn:Ex; [auto |].
    cbn [users]. split; [reflexivity |].
    split; [apply in_or_app; cbn; auto |].
    right. split; [| reflexivity].
    intros Hin. pose proof (find_none _ _ E _ Hin) as H. cbn in H.
    rewrite String.eqb_refl in H. discriminate.
Qed.

Lemma create_or_get_vehicle_spec user_id make model year db :
  match create_or_get_vehicle user_id make model year db with
  | (db2, inr v) =>
      Vehicle.user_id v = user_id /\ In v (vehicles db2)
      /\ (db2 = db
          \/ db2 = mkSession (users db) (vehicles db ++ [v]) (bookings db)
                             (service_centers db))
  | (db2, inl e) => db2 = db /\ e = OverflowError /\ integer_fits year = false
  end.
Proof.
  unfold create_or_get_vehicle, bind, query, ret.
  destruct (find _ (vehicles db)) as [v |] eqn:E.
  - apply find_some in E as [Hin Hv].
    apply andb_prop in Hv as [Hv _]. apply andb_prop in Hv as [Hv _].
    apply Z.eqb_eq in Hv. auto.
  - unfold insert_vehicle.
    destruct (integer_fits year); [| auto].
    cbn [vehicles]. split; [reflexivity |].
    split; [apply in_or_app; cbn; auto | auto].
Qed.

(** The endpoint, step by step. *)
Lemma schedule_appointment_steps booking db :
  schedule_appointment booking db =
  let c := find_best_service_center db in
  match find_preferred_slot db (preferred_date booking)
                            (preferred_time booking) c with
  | inl e => (db, HTTPException 400 e)
  | inr assigned =>
      match create_or_get_user (user_name booking) (phone booking)
                               (email booking) db with
      | (db1, inl e) => (db1, HTTPException 400 e)
      | (db1, inr user) =>
          match create_or_get_vehicle (User.id user) (vehicle_make booking)
                  (vehicle_model booking) (vehicle_year booking) db1 with
          | (db2, inl e) => (db2, HTTPException 400 e)
          | (db2, inr vehicle) =>
              try_400
                (bind (insert_booking (User.id user) (Vehicle.id vehicle)
                         (fst assigned) (snd assigned) (service_type booking)
                         "Confirmed" c)
                   (fun db_booking =>
                      bind (query (get_booking_details (fst assigned)
                                     (snd assigned) c))
                        (fun details =>
                           ret (mk_schedule_response
                                  (Booking.id db_booking)
                                  ("AP-" ++ format_05d (Booking.id db_booking))
                                  (User.name user)
                                  (Vehicle.make vehicle ++ " "
                                   ++ Vehicle.model vehicle)
                                  (preferred_date booking,
                                   preferred_time booking)
                                  (fst assigned, snd assigned)
                                  (negb (fst assigned
                                         =? preferred_date booking)%string
                                   || negb (snd assigned
                                            =? preferred_time booking)%string)
                                  details
                                  (predict_wait_time
                                     (get_slot_occupancy db (fst assigned) c)
                                     (snd assigned))
                                  ("Confirmation sent to " ++ User.email user)
                                  ("Notification sent to "
                                   ++ User.phone user)))))
                db2
          end
      end
  end.
Proof.
  unfold schedule_appointment, schedule_appointment_body, try_400.
  unfold bind at 1. unfold query at 1. cbv zeta.
  unfold bind at 1. unfold lift at 1.
  destruct (find_preferred_slot db _ _ _) as [e | assigned]; [reflexivity |].
  unfold bind at 1. unfold query at 1.
  unfold bind at 1.
  destruct (create_or_get_user _ _ _ db) as [db1 [e | user]]; [reflexivity |].
  unfold bind at 1.
  destruct (create_or_get_vehicle _ _ _ _ db1) as [db2 [e | vehicle]];
    reflexivity.
Qed.

(** What a request leaves in the store, whatever it answers. *)
Lemma schedule_appointment_outcome booking db :
  let c := find_best_service_center db in
  match schedule_appointment booking db with
  | (db', OK resp) =>
      exists ad at_ u v b,
        find_preferred_slot db (preferred_date booking)
                            (preferred_time booking) c = inr (ad, at_)
        /\ sr_assigned_slot resp = (ad, at_)
        /\ sr_booking_id resp = Booking.id b
        /\ In u (users db') /\ User.phone u = phone booking
        /\ In v (vehicles db') /\ Vehicle.user_id v = User.id u
        /\ b = Booking.mk (next_id (map Booking.id (bookings db)))
                          (User.id u) (Vehicle.id v) c ad at_
                          (service_type booking) "Confirmed"
        /\ bookings db' = (bookings db ++ [b])%list
        /\ service_centers db' = service_centers db
        /\ sr_booking_details resp = get_booking_details ad at_ c db'
  | (db', HTTPException code e) =>
      code = 400
      /\ bookings db' = bookings db
      /\ vehicles db' = vehicles db
      /\ service_centers db' = service_centers db
      /\ (db' = db
          \/ e = OverflowError
             /\ integer_fits (vehicle_year booking) = false
             /\ exists u, ~ In u (users db)
                          /\ User.phone u = phone booking
                          /\ users db' = (users db ++ [u])%list)
  end.
Proof.
  rewrite schedule_appointment_steps. cbv zeta.
  set (c := find_best_service_center db).
  destruct (find_preferred_slot db _ _ c) as [e | [ad at_]];
    [repeat split; auto |].
  pose proof (create_or_get_user_spec (user_name booking) (phone booking)
                (email booking) db) as Hu.
  destruct (create_or_get_user _ _ _ db) as [db1 [e | u]].
  { destruct Hu as [-> _]. repeat split; auto. }
  destruct Hu as (Hphone & Hinu & Hdb1).
  pose proof (create_or_get_vehicle_spec (User.id u) (vehicle_make booking)
                (vehicle_model booking) (vehicle_year booking) db1) as Hv.
  destruct (create_or_get_vehicle _ _ _ _ db1) as [db2 [e | v]].
  { destruct Hv as (-> & -> & Hyear).
    destruct Hdb1 as [-> | [Hnew ->]]; cbn [bookings vehicles service_centers
                                            users].
    - repeat split; auto.
    - repeat split; try reflexivity. right. repeat split; try assumption.
      exists u. auto. }
  destruct Hv as (Huid & Hinv & Hdb2).
  cbn [fst snd]. unfold try_400, bind, insert_booking, query, ret.
  exists ad, at_, u, v, (Booking.mk (next_id (map Booking.id (bookings db2)))
                           (User.id u) (Vehicle.id v) c ad at_
                           (service_type booking) "Confirmed").
  assert (Hb : bookings db2 = bookings db).
  { destruct Hdb2 as [-> | ->], Hdb1 as [-> | [_ ->]]; reflexivity. }
  assert (Hc : service_centers db2 = service_centers db).
  { destruct Hdb2 as [-> | ->], Hdb1 as [-> | [_ ->]]; reflexivity. }
  assert (Hu2 : In u (users db2)).
  { destruct Hdb2 as [-> | ->]; assumption. }
  cbn [sr_assigned_slot sr_booking_id users vehicles bookings service_centers].
  rewrite Hb, Hc. repeat split; assumption.
Qed.

Lemma create_or_get_user_ok name phone email db :
  (exists u, In u (users db) /\ User.phone u = phone)
  \/ (forall u, In u (users db) -> User.email u <> email) ->
  exists db1 u, create_or_get_user name phone email db = (db1, inr u).
Proof.
  intros H. unfold create_or_get_user, bind, query, ret.
  destruct (find _ (users db)) as [u |] eqn:E; [eauto |].
  destruct H as [(u & Hin & Hphone) | Hemail].
  - pose proof (find_none _ _ E _ Hin) as H. cbn in H.
    rewrite Hphone, String.eqb_refl in H. discriminate.
  - unfold insert_user.
    destruct (existsb _ (users db)) eqn:Ex; [| eauto].
    apply existsb_exists in Ex as (u & Hin & Hu).
    apply orb_prop in Hu as [Hu | Hu].
    + pose proof (find_none _ _ E _ Hin) as H. cbn in H. congruence.
    + apply String.eqb_eq in Hu. now apply Hemail in Hin.
Qed.

Lemma create_or_get_vehicle_ok user_id make model year db :
  integer_fits year = true ->
  exists db2 v, create_or_get_vehicle user_id make model year db
                = (db2, inr v).
Proof.
  intros H. unfold create_or_get_vehicle, bind, query, ret.
  destruct (find _ (vehicles db)) as [v |]; [eauto |].
  unfold insert_vehicle. rewrite H. eauto.
Qed.

(** A request is answered with a booking when its preferred date has an
    available slot, its user can be resolved and its year fits. *)
Lemma schedule_appointment_succeeds booking db :
  day_full db (preferred_date booking) (find_best_service_center db) = false ->
  (exists u, In u (users db) /\ User.phone u = phone booking)
  \/ (forall u, In u (users db) -> User.email u <> email booking) ->
  integer_fits (vehicle_year booking) = true ->
  exists db' resp, schedule_appointment booking db = (db', OK resp).
Proof.
  intros Hfree Huser Hyear. rewrite schedule_appointment_steps. cbv zeta.
  destruct (find_preferred_slot_same_date db (preferred_date booking)
              (preferred_time booking) _ Hfree) as (s & -> & _).
  destruct (create_or_get_user_ok (user_name booking) _ _ db Huser)
    as (db1 & u & ->).
  destruct (create_or_get_vehicle_ok (User.id u) (vehicle_make booking)
              (vehicle_model booking) _ db1 Hyear) as (db2 & v & ->).
  unfold try_400, bind, insert_booking, query, ret. eauto.
Qed.

(* ===================================================================== *)
(** ** C10: no service center in the store *)
(* ===================================================================== *)

(** C10. In a store without service centers [find_best_service_center]
    returns 1 and raises nothing, although no ServiceCenter row has that
    id; a request whose preferred date has a free slot is then booked at
    center 1 and answered with the placeholder center name. *)
Theorem find_best_service_center_no_centers db booking :
  service_centers db = [] ->
  find_best_service_center db = 1
  /\ find (fun c => ServiceCenter.id c =? 1) (service_centers db) = None
  /\ (day_full db (preferred_date booking) 1 = false ->
      (exists u, In u (users db) /\ User.phone u = phone booking)
      \/ (forall u, In u (users db) -> User.email u <> email booking) ->
      integer_fits (vehicle_year booking) = true ->
      exists db' resp b,
        schedule_appointment booking db = (db', OK resp)
        /\ bookings db' = (bookings db ++ [b])%list
        /\ Booking.service_center_id b = 1
        /\ service_centers db' = []
        /\ bd_service_center (sr_booking_details resp)
           = "EY Auto Service Center").
Proof.
  intros Hnone.
  assert (Hc : find_best_service_center db = 1)
    by (unfold find_best_service_center; now rewrite Hnone).
  split; [exact Hc |]. split; [now rewrite Hnone |].
  intros Hfree Huser Hyear. rewrite <- Hc in Hfree.
  destruct (schedule_appointment_succeeds booking db Hfree Huser Hyear)
    as (db' & resp & Hrun).
  pose proof (schedule_appointment_outcome booking db) as Hout.
  rewrite Hrun in Hout. cbv zeta in Hout.
  destruct Hout as (ad & at_ & u & v & b & _ & _ & _ & _ & _ & _ & _ & Hb
                    & Hbs & Hcs & Hdetails).
  exists db', resp, b. split; [exact Hrun |]. split; [exact Hbs |].
  split; [rewrite Hb, Hc; reflexivity |].
  split; [now rewrite Hcs |].
  rewrite Hdetails. unfold get_booking_details. rewrite Hcs, Hnone.
  reflexivity.
Qed.

Lemma find_best_service_center_no_centers_witness :
  find_best_service_center empty_session = 1
  /\ exists db' resp b,
       schedule_appointment (request "2025-06-10" "10:00") empty_session
       = (db', OK resp)
       /\ bookings db' = (bookings empty_session ++ [b])%list
       /\ Booking.service_center_id b = 1
       /\ service_centers db' = []
       /\ bd_service_center (sr_booking_details resp)
          = "EY Auto Service Center".
Proof.
  destruct (find_best_service_center_no_centers empty_session
              (request "2025-06-10" "10:00") eq_refl) as (H1 & _ & H3).
  split; [exact H1 |].
  apply H3.
  - vm_compute. reflexivity.
  - right. intros u [].
  - vm_compute. reflexivity.
Defined.

(* ===================================================================== *)
(** ** C2: what a failed request leaves behind *)
(* ===================================================================== *)

(** C2, as stated, fails: [create_or_get_user] commits the new User
    before the vehicle is inserted, so a request whose vehicle insert
    raises is answered with an error and leaves its User in the store. *)
Lemma schedule_appointment_not_atomic :
  (exists db' u,
     schedule_appointment big_year_request startup
     = (db', HTTPException 400 OverflowError)
     /\ users startup = [] /\ users db' = [u]
     /\ vehicles db' = [] /\ bookings db' = [])
  /\ ~ booking_atomic big_year_request startup.
Proof.
  split.
  - eexists. eexists. vm_compute. repeat split.
  - unfold booking_atomic. vm_compute. intros [H _]. discriminate H.
Qed.

(** C2 (amended). A request that succeeds has persisted its Booking, and
    the User and the Vehicle the Booking refers to are in the store. A
    request that fails persists no Booking and no Vehicle and is answered
    with status 400; it leaves the store as it was, except when the
    vehicle insert fails on a year that does not fit the store: then the
    User just created stays. *)
Theorem schedule_appointment_persistence booking db :
  match schedule_appointment booking db with
  | (db', OK resp) =>
      exists u v b,
        In u (users db') /\ In v (vehicles db')
        /\ bookings db' = (bookings db ++ [b])%list
        /\ Booking.id b = sr_booking_id resp
        /\ Booking.user_id b = User.id u
        /\ Booking.vehicle_id b = Vehicle.id v
        /\ Vehicle.user_id v = User.id u
        /\ User.phone u = phone booking
        /\ Booking.status b = "Confirmed"
  | (db', HTTPException code e) =>
      code = 400
      /\ bookings db' = bookings db
      /\ vehicles db' = vehicles db
      /\ (db' = db
          \/ e = OverflowError
             /\ integer_fits (vehicle_year booking) = false
             /\ exists u, ~ In u (users db)
                          /\ User.phone u = phone booking
                          /\ users db' = (users db ++ [u])%list)
  end.
Proof.
  pose proof (schedule_appointment_outcome booking db) as H. cbv zeta in H.
  destruct (schedule_appointment booking db) as [db' [resp | code e]].
  - destruct H as (ad & at_ & u & v & b & _ & _ & Hid & Hu & Hphone & Hv
                   & Huid & Hb & Hbs & _).
    exists u, v, b. rewrite Hid. subst b. cbn. auto 10.
  - tauto.
Qed.

(* ===================================================================== *)
(** ** C3: malformed dates and times *)
(* ===================================================================== *)

(** C3, as stated, fails: the date is parsed only by the next-day tiers,
    so a request dated "tomorrow" is booked and stored under that text. *)
Lemma schedule_appointment_accepts_malformed :
  is_YYYY_MM_DD "tomorrow" = false
  /\ datetime.strptime "tomorrow" = inl ValueError
  /\ (exists resp,
        snd (schedule_appointment (request "tomorrow" "10:00") startup)
        = OK resp)
  /\ map Booking.date
         (bookings (post_schedule [request "tomorrow" "10:00"] startup))
     = ["tomorrow"]
  /\ ~ rejects_malformed (request "tomorrow" "10:00") startup.
Proof.
  split; [reflexivity |]. split; [reflexivity |].
  split; [eexists; vm_compute; reflexivity |].
  split; [vm_compute; reflexivity |].
  unfold rejects_malformed. intros H.
  destruct H as [e He]; [left; vm_compute; reflexivity |].
  vm_compute in He. discriminate He.
Qed.

(** A time that is not [HH:MM] is no error either: the engine books a
    slot label in its place. *)
Example schedule_appointment_replaces_malformed_time :
  is_HH_MM "9am" = false
  /\ ~ rejects_malformed (request "2025-06-10" "9am") startup
  /\ map Booking.time
         (bookings (post_schedule [request "2025-06-10" "9am"] startup))
     = ["09:00"].
Proof.
  split; [reflexivity |]. split; [| vm_compute; reflexivity].
  unfold rejects_malformed. intros H.
  destruct H as [e He]; [right; reflexivity |].
  vm_compute in He. discriminate He.
Qed.

(** C3 (amended). A request whose preferred date cannot be parsed is
    answered with a 400 error and persists nothing when no slot is
    available on that preferred date; while the preferred date has an
    available slot no date is parsed and the booking is stored under the
    date text as given. A preferred time that is not a slot label is not
    an error: the time of a booking stored by the scheduling operation is
    always one of the eight labels. *)
Theorem schedule_appointment_validation booking db :
  let c := find_best_service_center db in
  (forall e, datetime.strptime (preferred_date booking) = inl e ->
             day_full db (preferred_date booking) c = true ->
             schedule_appointment booking db = (db, HTTPException 400 e))
  /\ match schedule_appointment booking db with
     | (db', OK resp) =>
         exists b,
           bookings db' = (bookings db ++ [b])%list
           /\ In (Booking.time b) AVAILABLE_SLOTS
           /\ (day_full db (preferred_date booking) c = false ->
               Booking.date b = preferred_date booking)
           /\ (Booking.date b = preferred_date booking
               \/ exists i, (1 <= i <= 6)%nat
                            /\ datetime.shift (preferred_date booking) i
                               = inr (Booking.date b))
     | (db', HTTPException code e) => code = 400 /\ bookings db' = bookings db
     end.
Proof.
  intros c. split.
  - intros e Hparse Hfull. rewrite schedule_appointment_steps. cbv zeta.
    fold c. now rewrite (find_preferred_slot_unparsed _ _ _ _ _ Hparse Hfull).
  - pose proof (schedule_appointment_outcome booking db) as H.
    cbv zeta in H. fold c in H.
    destruct (schedule_appointment booking db) as [db' [resp | code e]];
      [| tauto].
    destruct H as (ad & at_ & u & v & b & Hslot & _ & _ & _ & _ & _ & _ & Hb
                   & Hbs & _).
    exists b. split; [exact Hbs |]. subst b. cbn [Booking.time Booking.date].
    pose proof (find_preferred_slot_cases _ _ _ _ _ _ Hslot) as [Hin Hcases].
    split; [exact Hin |]. split.
    + intros Hfree.
      destruct (find_preferred_slot_same_date db (preferred_date booking)
                  (preferred_time booking) c Hfree) as (s & Hs & _).
      congruence.
    + destruct Hcases as [[Hdate _] | (Hshift & _)]; [exact Hdate |].
      right. exists 1%nat. split; [lia | exact Hshift].
Qed.

Lemma tomorrow_full_is_full : day_full tomorrow_full "tomorrow" 1 = true.
Proof. vm_compute. reflexivity. Qed.

Lemma schedule_appointment_validation_witness :
  schedule_appointment (request "tomorrow" "10:00") tomorrow_full
  = (tomorrow_full, HTTPException 400 ValueError).
Proof.
  pose proof (schedule_appointment_validation (request "tomorrow" "10:00")
                tomorrow_full) as H.
  cbv zeta in H. destruct H as [H _]. apply H.
  - reflexivity.
  - exact tomorrow_full_is_full.
Defined.

(* ===================================================================== *)
(** ** C1: the capacity invariant *)
(* ===================================================================== *)

Lemma slot_count_same_bookings db db' d t c :
  bookings db' = bookings db -> slot_count db' d t c = slot_count db d t c.
Proof. unfold slot_count. now intros ->. Qed.

Lemma slot_count_new_booking db db' b d t c :
  bookings db' = (bookings db ++ [b])%list ->
  slot_count db' d t c
  = slot_count db d t c + (if slot_filter d t c b then 1 else 0).
Proof.
  unfold slot_count. intros ->. rewrite filter_app, length_app.
  cbn [filter]. destruct (slot_filter d t c b); cbn [List.length]; lia.
Qed.

Lemma slot_filter_true d t c b :
  slot_filter d t c b = true ->
  Booking.date b = d /\ Booking.time b = t /\ Booking.service_center_id b = c.
Proof.
  unfold slot_filter. intros H.
  apply andb_prop in H as [H _]. apply andb_prop in H as [H Hc].
  apply andb_prop in H as [Hd Ht].
  apply String.eqb_eq in Hd, Ht. apply Z.eqb_eq in Hc. auto.
Qed.

Lemma capacity_ok_startup : capacity_ok startup.
Proof.
  intros d t c. unfold slot_count. cbn. unfold SLOTS_PER_TIMEFRAME. lia.
Qed.

Lemma capacity_ok_schedule booking db :
  capacity_ok db ->
  answer_available db booking = true ->
  capacity_ok (fst (schedule_appointment booking db)).
Proof.
  intros Hcap Hguard d t c0.
  pose proof (schedule_appointment_outcome booking db) as H. cbv zeta in H.
  unfold answer_available in Hguard.
  destruct (schedule_appointment booking db) as [db' [resp | code e]];
    cbn [fst].
  - destruct H as (ad & at_ & u & v & b & Hslot & _ & _ & _ & _ & _ & _ & Hb
                   & Hbs & _).
    rewrite Hslot in Hguard. apply check_slot_availability_lt in Hguard.
    rewrite (slot_count_new_booking _ _ _ _ _ _ Hbs).
    destruct (slot_filter d t c0 b) eqn:E.
    + apply slot_filter_true in E as (Hd & Ht & Hc). subst b.
      cbn in Hd, Ht, Hc. subst d t c0. lia.
    + specialize (Hcap d t c0). lia.
  - destruct H as (_ & Hbs & _).
    rewrite (slot_count_same_bookings _ _ _ _ _ Hbs). apply Hcap.
Qed.

Lemma cancel_booking_endpoint_fst booking_id db :
  fst (cancel_booking_endpoint booking_id db)
  = exec (cancel_booking booking_id) db.
Proof.
  unfold cancel_booking_endpoint, exec, cancel_booking.
  destruct (find _ (bookings db)); reflexivity.
Qed.

Lemma capacity_ok_cancel booking_id db :
  capacity_ok db -> capacity_ok (fst (cancel_booking_endpoint booking_id db)).
Proof.
  intros Hcap d t c. rewrite cancel_booking_endpoint_fst.
  pose proof (slot_count_cancel_le db booking_id d t c).
  specialize (Hcap d t c). lia.
Qed.

(** The guard of [reachable_guarded] fails only on the fallback: an
    answer that is not available is the day after the preferred date at
    "09:00", and every slot of the seven days is taken. *)
Lemma answer_available_false db booking :
  answer_available db booking = false ->
  let c := find_best_service_center db in
  exists next_date,
    find_preferred_slot db (preferred_date booking) (preferred_time booking) c
    = inr (next_date, "09:00")
    /\ datetime.shift (preferred_date booking) 1 = inr next_date
    /\ day_full db (preferred_date booking) c = true
    /\ forall i, (1 <= i <= 6)%nat ->
         exists di, datetime.shift (preferred_date booking) i = inr di
                    /\ day_full db di c = true.
Proof.
  unfold answer_available. cbv zeta.
  destruct (find_preferred_slot db _ _ _) as [e | [ad at_]] eqn:E;
    [discriminate |].
  intros Hna.
  destruct (find_preferred_slot_cases _ _ _ _ _ _ E) as [_ [[_ Hav] | H]].
  - congruence.
  - destruct H as (Hshift & -> & Hfull & Hweek). exists ad. auto.
Qed.

Lemma reachable_post_bookings reqs db :
  reachable db -> reachable (post_bookings reqs db).
Proof.
  revert db. induction reqs as [| r reqs IH]; intros db H; [exact H |].
  apply IH. now apply reachable_create.
Qed.

Lemma reachable_post_schedule reqs db :
  reachable db -> reachable (post_schedule reqs db).
Proof.
  revert db. induction reqs as [| r reqs IH]; intros db H; [exact H |].
  apply IH. now apply reachable_schedule.
Qed.

(** C1, as stated, fails: [create_booking] inserts without consulting
    the scheduler, so six requests to [POST /bookings] for one slot leave
    six bookings in it. *)
Lemma capacity_invariant_fails :
  reachable overbooked
  /\ slot_count overbooked "2025-06-10" "09:00" 1 = 6
  /\ ~ capacity_ok overbooked.
Proof.
  split; [| split].
  - apply reachable_post_bookings. constructor.
  - vm_compute. reflexivity.
  - intros H. specialize (H "2025-06-10" "09:00" 1).
    vm_compute in H. apply H. reflexivity.
Qed.

(** The scheduling operation alone exceeds the capacity too, through the
    fallback of [find_preferred_slot]. *)
Example capacity_exceeded_by_fallback :
  reachable (post_schedule [request "2025-06-10" "09:00"] full_week)
  /\ slot_count (post_schedule [request "2025-06-10" "09:00"] full_week)
                "2025-06-11" "09:00" 1 = 6.
Proof.
  split.
  - apply reachable_post_schedule. apply reachable_post_schedule. constructor.
  - exact (proj2 (proj2 (proj2 full_week_facts))).
Qed.

(** C1 (amended). In every store reachable from startup through
    scheduling requests whose answer is an available slot (tiers 1 to 4 of
    the engine) and through cancellations, no (date, time, center) triple
    holds more than five bookings that are not cancelled. *)
Theorem capacity_invariant db :
  reachable_guarded db ->
  forall date time service_center_id,
    slot_count db date time service_center_id <= 5.
Proof.
  intros H. change (capacity_ok db).
  induction H as [| booking db Hdb IH Hguard | booking_id db Hdb IH].
  - exact capacity_ok_startup.
  - now apply capacity_ok_schedule.
  - now apply capacity_ok_cancel.
Qed.

Lemma busy_day_capacity_ok : capacity_ok busy_day.
Proof.
  unfold busy_day, post_schedule. cbn [repeat app fold_left].
  do 6 (apply capacity_ok_schedule; [| vm_compute; reflexivity]).
  exact capacity_ok_startup.
Qed.

Lemma capacity_invariant_witness :
  slot_count busy_day "2025-06-10" "10:00" 1 <= 5.
Proof.
  apply capacity_invariant. unfold busy_day, post_schedule.
  cbn [repeat app fold_left].
  do 6 (apply guarded_schedule; [| vm_compute; reflexivity]).
  apply guarded_startup.
Defined.

(* ===================================================================== *)
(** ** C7: the percentage of the Day Optimizer *)
(* ===================================================================== *)

Lemma round_half_even_Z (q : Q) (z : Z) :
  (q == inject_Z z)%Q -> round_half_even q = z.
Proof.
  intros H. unfold round_half_even.
  rewrite (Qfloor_comp _ _ H), Qfloor_Z.
  assert (Hlt : (q - inject_Z z < 1 # 2)%Q).
  { rewrite H. unfold Qminus. rewrite Qplus_opp_r. reflexivity. }
  apply Qlt_alt in Hlt. unfold Qcompare in *. now rewrite Hlt.
Qed.

Lemma round2_percentage (n : Z) :
  (round2 (inject_Z n / inject_Z 40 * 100) == 5 * n # 2)%Q.
Proof.
  unfold round2.
  rewrite (round_half_even_Z _ (250 * n)).
  - unfold Qeq, Qdiv, Qmult, Qinv, inject_Z. cbn [Qnum Qden]. lia.
  - unfold Qeq, Qdiv, Qmult, Qinv, inject_Z. cbn [Qnum Qden]. lia.
Qed.

Lemma get_slot_occupancy_map db date c :
  get_slot_occupancy db date c
  = map (fun slot => (slot, slot_count db date slot c)) AVAILABLE_SLOTS.
Proof. reflexivity. Qed.

Lemma total_booked_sum db date c :
  total_booked (optimize_slots_for_day db date c)
  = fold_right Z.add 0
      (map (fun slot => slot_count db date slot c) AVAILABLE_SLOTS).
Proof.
  unfold optimize_slots_for_day. cbn [total_booked].
  rewrite get_slot_occupancy_map. unfold dict_sum, AVAILABLE_SLOTS.
  cbn [map snd fold_left fold_right]. lia.
Qed.

Lemma total_booked_nonneg db date c :
  0 <= total_booked (optimize_slots_for_day db date c).
Proof.
  rewrite total_booked_sum. unfold AVAILABLE_SLOTS. cbn [map fold_right].
  repeat match goal with
         | |- context [slot_count db date ?s c] =>
             let H := fresh in
             pose proof (slot_count_nonneg db date s c) as H;
             generalize dependent (slot_count db date s c); intros
         end.
  lia.
Qed.

Lemma total_booked_capacity db date c :
  capacity_ok db -> total_booked (optimize_slots_for_day db date c) <= 40.
Proof.
  intros Hcap. rewrite total_booked_sum.
  unfold AVAILABLE_SLOTS. cbn [map fold_right].
  unfold capacity_ok, SLOTS_PER_TIMEFRAME in Hcap.
  repeat match goal with
         | |- context [slot_count db date ?s c] =>
             let H := fresh in
             pose proof (Hcap date s c) as H;
             generalize dependent (slot_count db date s c); intros
         end.
  lia.
Qed.

Lemma occupancy_percentage_value db date c :
  (occupancy_percentage (optimize_slots_for_day db date c)
   == 5 * total_booked (optimize_slots_for_day db date c) # 2)%Q.
Proof.
  unfold optimize_slots_for_day. cbn [occupancy_percentage total_booked].
  apply round2_percentage.
Qed.

(** C7, as stated, fails: with forty-one bookings on a day the
    percentage is 102.5. *)
Lemma occupancy_percentage_exceeds_100 :
  reachable crowded /\ ~ percentage_in_range crowded "2025-06-10" 1.
Proof.
  split.
  - apply reachable_post_bookings. constructor.
  - unfold percentage_in_range. intros [_ H].
    vm_compute in H. apply H. reflexivity.
Qed.

Example occupancy_percentage_crowded :
  (occupancy_percentage (optimize_slots_for_day crowded "2025-06-10" 1)
   == 1025 # 10)%Q.
Proof. vm_compute. reflexivity. Qed.

(** C7 (amended). [optimize_slots_for_day] returns as percentage
    [total_booked / 40 * 100] rounded to two decimals, where
    [total_booked] is the sum of the eight slot counts; the value is
    [2.5 * total_booked], it is never negative, and it is at most 100
    when no slot of the store holds more than five bookings. *)
Theorem occupancy_percentage_spec db date c :
  let stats := optimize_slots_for_day db date c in
  total_capacity stats = 40
  /\ total_booked stats
     = fold_right Z.add 0
         (map (fun slot => slot_count db date slot c) AVAILABLE_SLOTS)
  /\ occupancy_percentage stats
     = round2 (inject_Z (total_booked stats) / inject_Z 40 * 100)%Q
  /\ (occupancy_percentage stats == 5 * total_booked stats # 2)%Q
  /\ (0 <= occupancy_percentage stats)%Q
  /\ (capacity_ok db -> (occupancy_percentage stats <= 100)%Q).
Proof.
  intros stats. split; [reflexivity |].
  split; [apply total_booked_sum |]. split; [reflexivity |].
  split; [apply occupancy_percentage_value |]. split.
  - unfold stats. rewrite occupancy_percentage_value.
    pose proof (total_booked_nonneg db date c) as H.
    set (n := total_booked _) in *. unfold Qle. cbn [Qnum Qden]. lia.
  - intros Hcap. unfold stats. rewrite occupancy_percentage_value.
    pose proof (total_booked_capacity db date c Hcap) as H.
    set (n := total_booked _) in *. unfold Qle. cbn [Qnum Qden]. lia.
Qed.

Lemma occupancy_percentage_spec_witness :
  (occupancy_percentage (optimize_slots_for_day busy_day "2025-06-10" 1)
   <= 100)%Q.
Proof.
  apply (occupancy_percentage_spec busy_day "2025-06-10" 1).
  exact busy_day_capacity_ok.
Defined.

(* ===================================================================== *)
(** ** The next-day and the horizon tiers of [find_preferred_slot] *)
(* ===================================================================== *)

Lemma find_first_split {A} (f : A -> bool) (l : list A) (x : A) :
  find f l = Some x ->
  exists l1 l2, l = (l1 ++ x :: l2)%list /\ f x = true
                /\ forall y, In y l1 -> f y = false.
Proof.
  induction l as [| a l IH]; cbn [find]; [discriminate |].
  destruct (f a) eqn:E.
  - intros H. injection H as <-. exists [], l.
    split; [reflexivity |]. split; [assumption |]. intros y [].
  - intros H. destruct (IH H) as (l1 & l2 & -> & Hx & Hl1).
    exists (a :: l1), l2. split; [reflexivity |]. split; [assumption |].
    intros y [<- | Hy]; auto.
Qed.

(** The first available slot of a day that is not full, in the order of
    [AVAILABLE_SLOTS]. *)
Lemma first_available_canonical db date c :
  day_full db date c = false ->
  exists s before after,
    first_available db date AVAILABLE_SLOTS c = Some s
    /\ AVAILABLE_SLOTS = (before ++ s :: after)%list
    /\ check_slot_availability db date s c = true
    /\ forall s', In s' before ->
                  check_slot_availability db date s' c = false.
Proof.
  intros Hfree.
  destruct (first_available db date AVAILABLE_SLOTS c) as [s |] eqn:E.
  - unfold first_available in E.
    destruct (find_first_split _ _ _ E) as (l1 & l2 & Hl & Hs & Hl1).
    exists s, l1, l2. auto.
  - pose proof (first_available_none_inv _ _ _ _ E) as H.
    apply day_full_spec in H. congruence.
Qed.

Lemma tiers_1_2_fail db d t c :
  day_full db d c = true ->
  str_in t AVAILABLE_SLOTS && check_slot_availability db d t c = false
  /\ forall key,
       first_available db d (sorted AVAILABLE_SLOTS key) c = None.
Proof.
  intros Hfull. rewrite day_full_spec in Hfull. split.
  - destruct (str_in t AVAILABLE_SLOTS) eqn:E; [| reflexivity].
    apply str_in_In in E. cbn. now apply Hfull.
  - intros key. apply first_available_none.
    intros s Hs. apply Hfull. now apply sorted_slots_In in Hs.
Qed.

(** The loop of step 4 stops at the first offset whose day has an
    available slot. *)
Lemma search_days_first db d c done_ i rest di :
  (forall j, In j done_ ->
     exists dj, datetime.shift d j = inr dj /\ day_full db dj c = true) ->
  datetime.shift d i = inr di ->
  day_full db di c = false ->
  exists s,
    search_days db d c (done_ ++ i :: rest)%list = inr (Some (di, s))
    /\ first_available db di AVAILABLE_SLOTS c = Some s.
Proof.
  intros Hdone Hshift Hfree.
  induction done_ as [| j done_ IH]; cbn [app search_days].
  - rewrite Hshift.
    destruct (first_available_canonical db di c Hfree)
      as (s & _ & _ & -> & _). eauto.
  - destruct (Hdone j (or_introl eq_refl)) as (dj & -> & Hfull).
    rewrite first_available_none by now apply day_full_spec.
    apply IH. intros k Hk. apply Hdone. now right.
Qed.

(** The loop of step 4 raises at the first offset whose date cannot be
    computed, the days before it being full. *)
Lemma search_days_error db d c offsets e :
  search_days db d c offsets = inl e ->
  exists done_ i rest,
    offsets = (done_ ++ i :: rest)%list
    /\ datetime.shift d i = inl e
    /\ forall j, In j done_ ->
         exists dj, datetime.shift d j = inr dj /\ day_full db dj c = true.
Proof.
  induction offsets as [| i offsets IH]; cbn [search_days]; [discriminate |].
  destruct (datetime.shift d i) as [e' | di] eqn:Hshift.
  - intros H. injection H as ->. exists [], i, offsets.
    split; [reflexivity |]. split; [assumption |]. intros j [].
  - destruct (first_available db di AVAILABLE_SLOTS c) as [s |] eqn:E;
      [discriminate |].
    intros H. destruct (IH H) as (done_ & k & rest & -> & Hk & Hdone).
    exists (i :: done_), k, rest. split; [reflexivity |].
    split; [assumption |].
    intros j [<- | Hj]; [| now apply Hdone].
    exists di. split; [assumption |].
    apply day_full_spec. now apply first_available_none_inv.
Qed.

(** X1. Tier 3. When the preferred date has no available slot and the next
    day has one, [find_preferred_slot] returns the next day with its first
    available slot in the order of [AVAILABLE_SLOTS]. *)
Theorem find_preferred_slot_next_day db d t c next_date :
  day_full db d c = true ->
  datetime.shift d 1 = inr next_date ->
  day_full db next_date c = false ->
  exists s before after,
    find_preferred_slot db d t c = inr (next_date, s)
    /\ AVAILABLE_SLOTS = (before ++ s :: after)%list
    /\ check_slot_availability db next_date s c = true
    /\ forall s', In s' before ->
                  check_slot_availability db next_date s' c = false.
Proof.
  intros Hfull Hshift Hfree.
  destruct (first_available_canonical db next_date c Hfree)
    as (s & before & after & Hs & Hsplit & Hav & Hbefore).
  exists s, before, after. split; [| auto].
  unfold find_preferred_slot.
  destruct (tiers_1_2_fail db d t c Hfull) as [-> ->].
  now rewrite Hshift, Hs.
Qed.

Lemma seq_split a n l1 i l2 :
  seq a n = (l1 ++ i :: l2)%list ->
  l1 = seq a (i - a) /\ (a <= i < a + n)%nat.
Proof.
  revert a l1. induction n as [| n IH]; intros a l1 H; cbn [seq] in H.
  - destruct l1; discriminate.
  - destruct l1 as [| x l1]; cbn [app] in H; injection H as Hx Hrest.
    + subst i. rewrite Nat.sub_diag. split; [reflexivity | lia].
    + subst x. destruct (IH _ _ Hrest) as [-> Hi].
      split; [| lia].
      replace (i - a)%nat with (S (i - S a)) by lia. reflexivity.
Qed.

(** X2. Tier 4. When the preferred date and the days after it up to offset
    [i - 1] have no available slot, [2 <= i <= 6], and the day at offset
    [i] has one, [find_preferred_slot] returns that day with its first
    available slot in the order of [AVAILABLE_SLOTS]. *)
Theorem find_preferred_slot_horizon db d t c i di :
  (2 <= i <= 6)%nat ->
  day_full db d c = true ->
  (forall j, (1 <= j < i)%nat ->
     exists dj, datetime.shift d j = inr dj /\ day_full db dj c = true) ->
  datetime.shift d i = inr di ->
  day_full db di c = false ->
  exists s before after,
    find_preferred_slot db d t c = inr (di, s)
    /\ AVAILABLE_SLOTS = (before ++ s :: after)%list
    /\ check_slot_availability db di s c = true
    /\ forall s', In s' before -> check_slot_availability db di s' c = false.
Proof.
  intros Hi Hfull Hbefore Hshift Hfree.
  destruct (Hbefore 1%nat ltac:(lia)) as (d1 & Hd1 & Hfull1).
  assert (Hsplit : seq 2 5 = (seq 2 (i - 2) ++ i :: seq (S i) (6 - i))%list).
  { replace 5%nat with ((i - 2) + S (6 - i))%nat by lia.
    rewrite seq_app. cbn [seq]. repeat f_equal; lia. }
  destruct (search_days_first db d c (seq 2 (i - 2)) i (seq (S i) (6 - i)) di)
    as (s & Hsearch & Hfirst); try assumption.
  { intros j Hj. apply Hbefore. apply in_seq in Hj. lia. }
  destruct (first_available_canonical db di c Hfree)
    as (s' & before & after & Hs' & Hslots & Hav & Hearlier).
  assert (s' = s) by congruence. subst s'.
  exists s, before, after. split; [| auto].
  unfold find_preferred_slot.
  destruct (tiers_1_2_fail db d t c Hfull) as [-> ->].
  rewrite Hd1, first_available_none by now apply day_full_spec.
  now rewrite Hsplit, Hsearch.
Qed.

Lemma strptime_error s e : datetime.strptime s = inl e -> e = ValueError.
Proof.
  unfold datetime.strptime.
  destruct (datetime.matches s) as [| [[[y m] d] [| a r]] l];
    try (intros H; now injection H as <-).
  destruct (datetime.valid (y, m, d)); [discriminate |].
  intros H. now injection H as <-.
Qed.

Lemma add_days_error dt n e :
  datetime.add_days dt n = inl e -> e = OverflowError.
Proof.
  revert dt. induction n as [| n IH]; intros dt; cbn [datetime.add_days];
    [discriminate |].
  destruct (datetime.valid (datetime.tomorrow dt)); [apply IH |].
  intros H. now injection H as <-.
Qed.

Lemma shift_error s n e :
  datetime.shift s n = inl e ->
  e = ValueError /\ datetime.strptime s = inl ValueError
  \/ e = OverflowError /\ exists dt, datetime.strptime s = inr dt.
Proof.
  unfold datetime.shift.
  destruct (datetime.strptime s) as [e' | dt] eqn:E.
  - intros H. injection H as ->. left.
    pose proof (strptime_error _ _ E). subst e. auto.
  - destruct (datetime.add_days dt n) as [e' | dt'] eqn:E'; [| discriminate].
    intros H. injection H as ->. right.
    split; [now apply add_days_error in E' | eauto].
Qed.

(** X3. What [find_preferred_slot] raises. It raises only after the preferred
    date turned out to have no available slot: [ValueError] when the
    preferred date is not a date, [OverflowError] when a day of the search
    lies past 9999-12-31; the days searched before that one were full. *)
Theorem find_preferred_slot_raises db d t c e :
  find_preferred_slot db d t c = inl e ->
  day_full db d c = true
  /\ (e = ValueError /\ datetime.strptime d = inl ValueError
      \/ e = OverflowError /\ exists dt, datetime.strptime d = inr dt)
  /\ exists i, (1 <= i <= 6)%nat
       /\ datetime.shift d i = inl e
       /\ forall j, (1 <= j < i)%nat ->
            exists dj, datetime.shift d j = inr dj
                       /\ day_full db dj c = true.
Proof.
  unfold find_preferred_slot.
  destruct (str_in t AVAILABLE_SLOTS && check_slot_availability db d t c);
    [discriminate |].
  destruct (first_available db d (sorted AVAILABLE_SLOTS _) c) as [s |] eqn:E2;
    [discriminate |].
  assert (Hfull : day_full db d c = true).
  { apply day_full_spec. intros s Hs.
    apply (first_available_none_inv _ _ _ _ E2). now apply sorted_slots_In. }
  destruct (datetime.shift d 1) as [e1 | next_date] eqn:Hshift.
  { intros H. injection H as ->. split; [assumption |].
    split; [exact (shift_error _ _ _ Hshift) |].
    exists 1%nat. split; [lia |]. split; [assumption |]. intros j Hj. lia. }
  destruct (first_available db next_date AVAILABLE_SLOTS c) as [s |] eqn:E3;
    [discriminate |].
  destruct (search_days db d c (seq 2 5)) as [e4 | [found |]] eqn:E4;
    [| discriminate | discriminate].
  intros H. injection H as ->.
  destruct (search_days_error _ _ _ _ _ E4)
    as (done_ & i & rest & Hsplit & Hi & Hdone).
  apply seq_split in Hsplit as [-> Hrange].
  split; [assumption |]. split; [exact (shift_error _ _ _ Hi) |].
  exists i. split; [lia |]. split; [assumption |].
  intros j Hj. destruct (Nat.eq_dec j 1) as [-> | Hne].
  - exists next_date. split; [assumption |].
    apply day_full_spec. now apply first_available_none_inv.
  - apply Hdone. apply in_seq. lia.
Qed.

(** X4. What [find_preferred_slot] returns. The time is one of the eight
    labels and the date is the preferred date as given or one of the six
    days after it; the slot returned is available, unless the seven days
    are all full, and then it is the day after the preferred date at
    "09:00". *)
Theorem find_preferred_slot_sound db d t c assigned_date assigned_time :
  find_preferred_slot db d t c = inr (assigned_date, assigned_time) ->
  In assigned_time AVAILABLE_SLOTS
  /\ (assigned_date = d
      \/ exists i, (1 <= i <= 6)%nat
                   /\ datetime.shift d i = inr assigned_date)
  /\ (check_slot_availability db assigned_date assigned_time c = true
      \/ datetime.shift d 1 = inr assigned_date
         /\ assigned_time = "09:00"
         /\ day_full db d c = true
         /\ forall i, (1 <= i <= 6)%nat ->
              exists di, datetime.shift d i = inr di
                         /\ day_full db di c = true).
Proof.
  intros H.
  destruct (find_preferred_slot_cases _ _ _ _ _ _ H)
    as [Hin [[Hdate Hav] | (Hshift & Htime & Hfull & Hweek)]].
  - auto.
  - split; [assumption |]. split; [| right; auto].
    right. exists 1%nat. split; [lia | assumption].
Qed.

Lemma full_day_facts :
  day_full full_day "2025-06-10" 1 = true
  /\ day_full full_day "2025-06-11" 1 = false
  /\ find_preferred_slot full_day "2025-06-10" "10:00" 1
     = inr ("2025-06-11", "09:00").
Proof. vm_compute. repeat split. Qed.

Lemma two_full_days_facts :
  day_full two_full_days "2025-06-10" 1 = true
  /\ day_full two_full_days "2025-06-11" 1 = true
  /\ day_full two_full_days "2025-06-12" 1 = false.
Proof. vm_compute. repeat split. Qed.

Lemma tomorrow_full_raises :
  find_preferred_slot tomorrow_full "tomorrow" "10:00" 1 = inl ValueError.
Proof. vm_compute. reflexivity. Qed.

Lemma find_preferred_slot_next_day_witness :
  exists s before after,
    find_preferred_slot full_day "2025-06-10" "10:00" 1
    = inr ("2025-06-11", s)
    /\ AVAILABLE_SLOTS = (before ++ s :: after)%list
    /\ check_slot_availability full_day "2025-06-11" s 1 = true
    /\ forall s', In s' before ->
                  check_slot_availability full_day "2025-06-11" s' 1 = false.
Proof.
  apply (find_preferred_slot_next_day full_day "2025-06-10" "10:00" 1
           "2025-06-11").
  - exact (proj1 full_day_facts).
  - reflexivity.
  - exact (proj1 (proj2 full_day_facts)).
Defined.

Lemma find_preferred_slot_horizon_witness :
  exists s before after,
    find_preferred_slot two_full_days "2025-06-10" "10:00" 1
    = inr ("2025-06-12", s)
    /\ AVAILABLE_SLOTS = (before ++ s :: after)%list
    /\ check_slot_availability two_full_days "2025-06-12" s 1 = true
    /\ forall s', In s' before ->
         check_slot_availability two_full_days "2025-06-12" s' 1 = false.
Proof.
  apply (find_preferred_slot_horizon two_full_days "2025-06-10" "10:00" 1
           2%nat "2025-06-12").
  - lia.
  - exact (proj1 two_full_days_facts).
  - intros j Hj. assert (j = 1%nat) as -> by lia.
    exists "2025-06-11". split; [reflexivity |].
    exact (proj1 (proj2 two_full_days_facts)).
  - reflexivity.
  - exact (proj2 (proj2 two_full_days_facts)).
Defined.

Lemma find_preferred_slot_raises_witness :
  day_full tomorrow_full "tomorrow" 1 = true
  /\ (ValueError = ValueError /\ datetime.strptime "tomorrow" = inl ValueError
      \/ ValueError = OverflowError
         /\ exists dt, datetime.strptime "tomorrow" = inr dt)
  /\ exists i, (1 <= i <= 6)%nat
       /\ datetime.shift "tomorrow" i = inl ValueError
       /\ forall j, (1 <= j < i)%nat ->
            exists dj, datetime.shift "tomorrow" j = inr dj
                       /\ day_full tomorrow_full dj 1 = true.
Proof.
  exact (find_preferred_slot_raises tomorrow_full "tomorrow" "10:00" 1
           ValueError tomorrow_full_raises).
Defined.

Lemma find_preferred_slot_sound_witness :
  In "09:00" AVAILABLE_SLOTS
  /\ ("2025-06-11" = "2025-06-10"
      \/ exists i, (1 <= i <= 6)%nat
                   /\ datetime.shift "2025-06-10" i = inr "2025-06-11")
  /\ (check_slot_availability full_day "2025-06-11" "09:00" 1 = true
      \/ datetime.shift "2025-06-10" 1 = inr "2025-06-11"
         /\ "09:00" = "09:00"
         /\ day_full full_day "2025-06-10" 1 = true
         /\ forall i, (1 <= i <= 6)%nat ->
              exists di, datetime.shift "2025-06-10" i = inr di
                         /\ day_full full_day di 1 = true).
Proof.
  exact (find_preferred_slot_sound full_day "2025-06-10" "10:00" 1
           "2025-06-11" "09:00" (proj2 (proj2 full_day_facts))).
Defined.

(* ===================================================================== *)
(** ** The Day Optimizer: peak and off-peak slots, totals *)
(* ===================================================================== *)

Lemma arg_best_max best d :
  exists l1 v l2,
    best :: d = (l1 ++ (arg_best (fun v w => w <? v) best d, v) :: l2)%list
    /\ (forall kv, In kv l1 -> snd kv < v)
    /\ (forall kv, In kv l2 -> snd kv <= v).
Proof.
  revert best. induction d as [| [k v] d IH]; intros best.
  - exists [], (snd best), []. destruct best. cbn.
    repeat split; intros kv [].
  - cbn [arg_best snd].
    destruct (Z.ltb_spec (snd best) v) as [Hlt | Hge].
    + destruct (IH (k, v)) as (l1 & vr & l2 & Heq & H1 & H2).
      exists (best :: l1), vr, l2. split; [cbn; now rewrite Heq |].
      split; [| assumption].
      intros kv [<- | Hkv]; [| now apply H1].
      destruct l1 as [| x l1]; cbn in Heq.
      * assert (v = vr) by congruence. subst vr. exact Hlt.
      * assert (x = (k, v)) by congruence. subst x.
        specialize (H1 (k, v) (or_introl eq_refl)). cbn in H1. lia.
    + destruct (IH best) as (l1 & vr & l2 & Heq & H1 & H2).
      destruct l1 as [| x l1]; cbn in Heq; injection Heq as Hx Hrest.
      * exists [], vr, ((k, v) :: l2).
        split; [cbn; now rewrite <- Hx, Hrest |].
        split; [intros kv [] |].
        intros kv [<- | Hkv]; [| now apply H2].
        assert (Hs : snd best = vr) by now rewrite Hx.
        cbn. lia.
      * subst x. exists (best :: (k, v) :: l1), vr, l2.
        split; [cbn; now rewrite <- Hrest |]. split; [| assumption].
        pose proof (H1 best (or_introl eq_refl)) as Hbest.
        intros kv [<- | [<- | Hkv]]; [assumption | cbn; lia |].
        apply H1. now right.
Qed.

Lemma arg_best_min best d :
  exists l1 v l2,
    best :: d = (l1 ++ (arg_best (fun v w => v <? w) best d, v) :: l2)%list
    /\ (forall kv, In kv l1 -> v < snd kv)
    /\ (forall kv, In kv l2 -> v <= snd kv).
Proof.
  revert best. induction d as [| [k v] d IH]; intros best.
  - exists [], (snd best), []. destruct best. cbn.
    repeat split; intros kv [].
  - cbn [arg_best snd].
    destruct (Z.ltb_spec v (snd best)) as [Hlt | Hge].
    + destruct (IH (k, v)) as (l1 & vr & l2 & Heq & H1 & H2).
      exists (best :: l1), vr, l2. split; [cbn; now rewrite Heq |].
      split; [| assumption].
      intros kv [<- | Hkv]; [| now apply H1].
      destruct l1 as [| x l1]; cbn in Heq.
      * assert (v = vr) by congruence. subst vr. exact Hlt.
      * assert (x = (k, v)) by congruence. subst x.
        specialize (H1 (k, v) (or_introl eq_refl)). cbn in H1. lia.
    + destruct (IH best) as (l1 & vr & l2 & Heq & H1 & H2).
      destruct l1 as [| x l1]; cbn in Heq; injection Heq as Hx Hrest.
      * exists [], vr, ((k, v) :: l2).
        split; [cbn; now rewrite <- Hx, Hrest |].
        split; [intros kv [] |].
        intros kv [<- | Hkv]; [| now apply H2].
        assert (Hs : snd best = vr) by now rewrite Hx.
        cbn. lia.
      * subst x. exists (best :: (k, v) :: l1), vr, l2.
        split; [cbn; now rewrite <- Hrest |]. split; [| assumption].
        pose proof (H1 best (or_introl eq_refl)) as Hbest.
        intros kv [<- | [<- | Hkv]]; [assumption | cbn; lia |].
        apply H1. now right.
Qed.

(** Reading a split of the occupancy dict as a split of the slot list. *)
Lemma occupancy_split db date c l1 k v l2 :
  get_slot_occupancy db date c = (l1 ++ (k, v) :: l2)%list ->
  exists before after,
    AVAILABLE_SLOTS = (before ++ k :: after)%list
    /\ v = slot_count db date k c
    /\ l1 = map (fun s => (s, slot_count db date s c)) before
    /\ l2 = map (fun s => (s, slot_count db date s c)) after.
Proof.
  rewrite get_slot_occupancy_map. intros H.
  apply map_eq_app in H as (before & rest & Hslots & Hl1 & Hrest).
  apply map_eq_cons in Hrest as (s & after & -> & Hs & Hl2).
  injection Hs as -> ->. exists before, after. auto.
Qed.

(** X5. The peak slot is the first slot, in the order of [AVAILABLE_SLOTS],
    whose count is the largest; the off-peak slot the first whose count is
    the smallest. *)
Theorem optimize_slots_for_day_peaks db date c :
  let stats := optimize_slots_for_day db date c in
  (exists before after,
     AVAILABLE_SLOTS = (before ++ peak_slot stats :: after)%list
     /\ (forall s, In s before ->
           slot_count db date s c < slot_count db date (peak_slot stats) c)
     /\ (forall s, In s after ->
           slot_count db date s c <= slot_count db date (peak_slot stats) c))
  /\ (exists before after,
        AVAILABLE_SLOTS = (before ++ off_peak_slot stats :: after)%list
        /\ (forall s, In s before ->
              slot_count db date (off_peak_slot stats) c
              < slot_count db date s c)
        /\ (forall s, In s after ->
              slot_count db date (off_peak_slot stats) c
              <= slot_count db date s c)).
Proof.
  cbv zeta. unfold optimize_slots_for_day. cbn [peak_slot off_peak_slot].
  destruct (get_slot_occupancy db date c) as [| kv d] eqn:E;
    [rewrite get_slot_occupancy_map in E; discriminate |].
  cbn [dict_max dict_min]. split.
  - destruct (arg_best_max kv d) as (l1 & v & l2 & Heq & H1 & H2).
    rewrite <- E in Heq.
    apply occupancy_split in Heq as (before & after & Hs & -> & -> & ->).
    exists before, after. split; [assumption |]. split.
    + intros s Hs'. apply (H1 (s, slot_count db date s c)).
      apply in_map_iff. eauto.
    + intros s Hs'. apply (H2 (s, slot_count db date s c)).
      apply in_map_iff. eauto.
  - destruct (arg_best_min kv d) as (l1 & v & l2 & Heq & H1 & H2).
    rewrite <- E in Heq.
    apply occupancy_split in Heq as (before & after & Hs & -> & -> & ->).
    exists before, after. split; [assumption |]. split.
    + intros s Hs'. apply (H1 (s, slot_count db date s c)).
      apply in_map_iff. eauto.
    + intros s Hs'. apply (H2 (s, slot_count db date s c)).
      apply in_map_iff. eauto.
Qed.

Lemma AVAILABLE_SLOTS_NoDup : NoDup AVAILABLE_SLOTS.
Proof.
  unfold AVAILABLE_SLOTS.
  repeat (constructor;
          [cbn; intros H;
           repeat (destruct H as [H | H]; [discriminate H |]); exact H |]).
  constructor.
Qed.

Lemma sum_map_add {A} (f g : A -> Z) (l : list A) :
  fold_right Z.add 0 (map (fun x => f x + g x) l)
  = fold_right Z.add 0 (map f l) + fold_right Z.add 0 (map g l).
Proof. induction l as [| x l IH]; cbn [map fold_right]; lia. Qed.

Lemma sum_map_zero {A} (f : A -> Z) (l : list A) :
  (forall x, In x l -> f x = 0) -> fold_right Z.add 0 (map f l) = 0.
Proof.
  induction l as [| x l IH]; intros H; cbn [map fold_right]; [reflexivity |].
  rewrite (H x (or_introl eq_refl)), IH; [reflexivity |].
  intros y Hy. apply H. now right.
Qed.

(** A booking counts for at most one slot of a day, and for one exactly
    when it passes [day_filter]. *)
Lemma slots_of_booking date c b (slots : list string) :
  NoDup slots ->
  fold_right Z.add 0
    (map (fun s => if slot_filter date s c b then 1 else 0) slots)
  = if (Booking.date b =? date)%string
       && str_in (Booking.time b) slots
       && (Booking.service_center_id b =? c)
       && negb (Booking.status b =? "Cancelled")%string
    then 1 else 0.
Proof.
  unfold slot_filter.
  induction 1 as [| s slots Hnotin Hnodup IH]; cbn [map fold_right].
  - unfold str_in. cbn [existsb]. now rewrite andb_false_r.
  - unfold str_in in *. cbn [existsb].
    destruct (String.eqb_spec (Booking.time b) s) as [Heq | Hne].
    + rewrite sum_map_zero.
      * rewrite orb_true_l, andb_true_r.
        destruct (Booking.date b =? date)%string,
                 (Booking.service_center_id b =? c),
                 (negb (Booking.status b =? "Cancelled")%string);
          reflexivity.
      * intros s' Hs'.
        destruct (String.eqb_spec (Booking.time b) s') as [Heq' | _];
          [congruence |].
        now rewrite andb_false_r.
    + rewrite IH, orb_false_l, andb_false_r. reflexivity.
Qed.

Lemma slot_counts_sum date c (l : list Booking.t) (slots : list string) :
  NoDup slots ->
  fold_right Z.add 0
    (map (fun s => Z.of_nat (List.length (filter (slot_filter date s c) l)))
         slots)
  = Z.of_nat
      (List.length
         (filter (fun b => (Booking.date b =? date)%string
                           && str_in (Booking.time b) slots
                           && (Booking.service_center_id b =? c)
                           && negb (Booking.status b =? "Cancelled")%string)
                 l)).
Proof.
  intros Hnodup. induction l as [| b l IH].
  - cbn [filter List.length]. now apply sum_map_zero.
  - cbn [filter].
    rewrite (map_ext _
               (fun s => (if slot_filter date s c b then 1 else 0)
                         + Z.of_nat (List.length
                                       (filter (slot_filter date s c) l)))).
    + rewrite sum_map_add, IH, slots_of_booking by assumption.
      destruct (_ && _ && _ && _); cbn [List.length]; lia.
    + intros s. destruct (slot_filter date s c b); cbn [List.length]; lia.
Qed.

(** X6. The totals of the Day Optimizer. [total_booked] counts the bookings
    of the date and center that are not cancelled and whose time is one
    of the eight slot labels; a booking stored under any other time text
    is not counted. [total_available] is 40 minus that count, which is
    negative once more than 40 are booked. *)
Theorem optimize_slots_for_day_totals db date c :
  let stats := optimize_slots_for_day db date c in
  total_booked stats
  = Z.of_nat (List.length (filter (day_filter date c) (bookings db)))
  /\ total_available stats = 40 - total_booked stats
  /\ (total_available stats < 0 <-> 40 < total_booked stats).
Proof.
  cbv zeta. split; [| split].
  - rewrite total_booked_sum. unfold slot_count.
    apply (slot_counts_sum date c (bookings db) AVAILABLE_SLOTS).
    exact AVAILABLE_SLOTS_NoDup.
  - reflexivity.
  - change (total_available (optimize_slots_for_day db date c))
      with (40 - total_booked (optimize_slots_for_day db date c)).
    lia.
Qed.

(* ===================================================================== *)
(** ** The answer of [schedule_appointment] *)
(* ===================================================================== *)

(** A successful request, step by step. *)
Lemma schedule_appointment_OK_inv booking db db' resp :
  schedule_appointment booking db = (db', OK resp) ->
  let c := find_best_service_center db in
  exists ad at_ db1 u db2 v,
    find_preferred_slot db (preferred_date booking) (preferred_time booking) c
    = inr (ad, at_)
    /\ create_or_get_user (user_name booking) (phone booking) (email booking)
                          db = (db1, inr u)
    /\ create_or_get_vehicle (User.id u) (vehicle_make booking)
         (vehicle_model booking) (vehicle_year booking) db1 = (db2, inr v)
    /\ bookings db2 = bookings db
    /\ service_centers db2 = service_centers db
    /\ let b := Booking.mk (next_id (map Booking.id (bookings db)))
                           (User.id u) (Vehicle.id v) c ad at_
                           (service_type booking) "Confirmed" in
       db' = mkSession (users db2) (vehicles db2) (bookings db ++ [b])%list
                       (service_centers db)
       /\ resp = mk_schedule_response
                   (Booking.id b)
                   ("AP-" ++ format_05d (Booking.id b))
                   (User.name u)
                   (Vehicle.make v ++ " " ++ Vehicle.model v)
                   (preferred_date booking, preferred_time booking)
                   (ad, at_)
                   (negb (ad =? preferred_date booking)%string
                    || negb (at_ =? preferred_time booking)%string)
                   (get_booking_details ad at_ c db')
                   (predict_wait_time (get_slot_occupancy db ad c) at_)
                   ("Confirmation sent to " ++ User.email u)
                   ("Notification sent to " ++ User.phone u).
Proof.
  rewrite schedule_appointment_steps. cbv zeta.
  set (c := find_best_service_center db).
  destruct (find_preferred_slot db _ _ c) as [e | [ad at_]] eqn:Eslot;
    [discriminate |].
  pose proof (create_or_get_user_spec (user_name booking) (phone booking)
                (email booking) db) as Hu.
  destruct (create_or_get_user _ _ _ db) as [db1 [e | u]] eqn:Euser;
    [discriminate |].
  destruct Hu as (_ & _ & Hdb1).
  pose proof (create_or_get_vehicle_spec (User.id u) (vehicle_make booking)
                (vehicle_model booking) (vehicle_year booking) db1) as Hv.
  destruct (create_or_get_vehicle _ _ _ _ db1) as [db2 [e | v]] eqn:Eveh;
    [discriminate |].
  destruct Hv as (_ & _ & Hdb2).
  assert (Hb : bookings db2 = bookings db).
  { destruct Hdb2 as [-> | ->], Hdb1 as [-> | [_ ->]]; reflexivity. }
  assert (Hc : service_centers db2 = service_centers db).
  { destruct Hdb2 as [-> | ->], Hdb1 as [-> | [_ ->]]; reflexivity. }
  cbn [fst snd]. unfold try_400, bind, insert_booking, query, ret.
  rewrite Hb, Hc. intros H. injection H as <- <-.
  exists ad, at_, db1, u, db2, v. repeat split; try assumption; reflexivity.
Qed.

Lemma predict_wait_time_count occupancy slot :
  predict_wait_time occupancy slot
  = predict_wait_time [(slot, dict_get_default occupancy slot 0)] slot.
Proof.
  unfold predict_wait_time, dict_get_default. cbn [dict_get].
  now rewrite String.eqb_refl.
Qed.

(** X7. The answer to a successful request. It names the booking stored and
    its slot; [slot_changed] is false exactly when the slot assigned is the
    preferred date and time as given; the wait estimate is computed from
    the number of bookings the slot held before this one; the customer
    name is the one of the stored User, found by phone. *)
Theorem schedule_appointment_response booking db :
  match schedule_appointment booking db with
  | (db', OK resp) =>
      exists b u,
        bookings db' = (bookings db ++ [b])%list
        /\ sr_booking_id resp = Booking.id b
        /\ sr_confirmation_number resp = "AP-" ++ format_05d (Booking.id b)
        /\ sr_assigned_slot resp = (Booking.date b, Booking.time b)
        /\ (sr_slot_changed resp = false
            <-> sr_assigned_slot resp
                = (preferred_date booking, preferred_time booking))
        /\ sr_estimated_wait resp
           = predict_wait_time
               [(Booking.time b,
                 slot_count db (Booking.date b) (Booking.time b)
                            (Booking.service_center_id b))]
               (Booking.time b)
        /\ In u (users db') /\ User.phone u = phone booking
        /\ Booking.user_id b = User.id u
        /\ sr_customer_name resp = User.name u
  | (_, HTTPException _ _) => True
  end.
Proof.
  destruct (schedule_appointment booking db) as [db' [resp | code e]] eqn:E;
    [| exact I].
  pose proof (schedule_appointment_outcome booking db) as Hout.
  rewrite E in Hout. cbv zeta in Hout.
  destruct Hout as (ad0 & at0 & u0 & v0 & b0 & Hslot0 & _ & _ & Hu0 & Hphone0
                    & _ & _ & Hb0 & _).
  apply schedule_appointment_OK_inv in E. cbv zeta in E.
  destruct E as (ad & at_ & db1 & u & db2 & v & Hslot & Huser & Hveh & _ & _
                 & -> & ->).
  pose proof (create_or_get_user_spec (user_name booking) (phone booking)
                (email booking) db) as Hu.
  rewrite Huser in Hu. destruct Hu as (Hphone & Hin1 & _).
  pose proof (create_or_get_vehicle_spec (User.id u) (vehicle_make booking)
                (vehicle_model booking) (vehicle_year booking) db1) as Hv.
  rewrite Hveh in Hv. destruct Hv as (_ & _ & Hdb2).
  eexists. exists u.
  cbn [bookings users sr_booking_id sr_confirmation_number sr_assigned_slot
       sr_slot_changed sr_estimated_wait sr_customer_name Booking.id
       Booking.date Booking.time Booking.service_center_id Booking.user_id].
  split; [reflexivity |]. split; [reflexivity |]. split; [reflexivity |].
  split; [reflexivity |]. split; [| split; [| split; [| auto]]].
  - rewrite orb_false_iff, !negb_false_iff, !String.eqb_eq.
    split; [intros [-> ->]; reflexivity | intros H; now injection H].
  - rewrite predict_wait_time_count. rewrite get_slot_occupancy_get;
      [reflexivity |].
    now destruct (find_preferred_slot_cases _ _ _ _ _ _ Hslot).
  - destruct Hdb2 as [-> | ->]; assumption.
Qed.

(* ===================================================================== *)
(** ** backend/crud.py: the upserts *)
(* ===================================================================== *)

Lemma find_app_none {A} (f : A -> bool) (l1 l2 : list A) :
  find f l1 = None -> find f (l1 ++ l2) = find f l2.
Proof.
  induction l1 as [| x l1 IH]; cbn [find app]; [reflexivity |].
  destruct (f x); [discriminate | exact IH].
Qed.

Lemma find_app_some {A} (f : A -> bool) (l1 l2 : list A) (x : A) :
  find f l1 = Some x -> find f (l1 ++ l2) = Some x.
Proof.
  induction l1 as [| y l1 IH]; cbn [find app]; [discriminate |].
  destruct (f y); [trivial | exact IH].
Qed.

Lemma next_id_fresh ids x : In x ids -> x < next_id ids.
Proof.
  unfold next_id. induction ids as [| y ids IH]; intros H; [destruct H |].
  cbn [fold_right]. destruct H as [<- | H]; [lia |].
  specialize (IH H). lia.
Qed.

Lemma create_or_get_user_full name phone email db :
  match create_or_get_user name phone email db with
  | (db', inr u) =>
      In u (users db) /\ User.phone u = phone /\ db' = db
      \/ (forall u', In u' (users db) ->
            User.phone u' <> phone /\ User.email u' <> email)
         /\ u = User.mk (next_id (map User.id (users db))) name phone email
         /\ db' = mkSession (users db ++ [u]) (vehicles db) (bookings db)
                            (service_centers db)
  | (db', inl e) =>
      db' = db /\ e = IntegrityError
      /\ (forall u', In u' (users db) -> User.phone u' <> phone)
      /\ exists u', In u' (users db) /\ User.email u' = email
  end.
Proof.
  unfold create_or_get_user, bind, query, ret.
  destruct (find _ (users db)) as [u |] eqn:E.
  - apply find_some in E as [Hin Hphone].
    apply String.eqb_eq in Hphone. auto.
  - assert (Hphone : forall u', In u' (users db) -> User.phone u' <> phone).
    { intros u' Hin Heq. pose proof (find_none _ _ E _ Hin) as H.
      cbn in H. rewrite Heq, String.eqb_refl in H. discriminate. }
    unfold insert_user.
    destruct (existsb _ (users db)) eqn:Ex.
    + apply existsb_exists in Ex as (u' & Hin & Hu').
      apply orb_prop in Hu' as [Hu' | Hu'].
      * apply String.eqb_eq in Hu'. now apply Hphone in Hin.
      * apply String.eqb_eq in Hu'. repeat split; eauto.
    + right. split; [| auto].
      intros u' Hin. split; [now apply Hphone |].
      intros Heq.
      assert (existsb (fun u => (User.phone u =? phone)%string
                                || (User.email u =? email)%string)
                      (users db) = true); [| congruence].
      apply existsb_exists. exists u'. split; [assumption |].
      rewrite Heq, String.eqb_refl. apply orb_true_r.
Qed.

(** X8. The upsert of users, in full. An existing user of that phone is
    returned and the store is untouched, whatever the name and email of
    the request; otherwise a user is inserted, unless the email belongs
    to another user: then [IntegrityError] and the store is untouched. *)
Theorem create_or_get_user_cases name phone email db :
  match create_or_get_user name phone email db with
  | (db', inr u) =>
      In u (users db) /\ User.phone u = phone /\ db' = db
      \/ (forall u', In u' (users db) ->
            User.phone u' <> phone /\ User.email u' <> email)
         /\ u = User.mk (next_id (map User.id (users db))) name phone email
         /\ db' = mkSession (users db ++ [u]) (vehicles db) (bookings db)
                            (service_centers db)
  | (db', inl e) =>
      db' = db /\ e = IntegrityError
      /\ (forall u', In u' (users db) -> User.phone u' <> phone)
      /\ exists u', In u' (users db) /\ User.email u' = email
  end.
Proof. exact (create_or_get_user_full name phone email db). Qed.

(** X9. Asking again for a phone that has just been resolved returns the same
    user and leaves the store as it is, with any name and email. *)
Theorem create_or_get_user_again name email name' email' phone db db1 u :
  create_or_get_user name phone email db = (db1, inr u) ->
  create_or_get_user name' phone email' db1 = (db1, inr u).
Proof.
  intros H.
  assert (Hfind : find (fun u => (User.phone u =? phone)%string) (users db1)
                  = Some u).
  { revert H. unfold create_or_get_user, bind, query, ret.
    destruct (find _ (users db)) as [u0 |] eqn:E.
    - intros H. injection H as <- <-. exact E.
    - unfold insert_user. destruct (existsb _ (users db)); [discriminate |].
      intros H. injection H as <- <-. cbn [users].
      rewrite find_app_none by assumption. cbn. now rewrite String.eqb_refl. }
  unfold create_or_get_user, bind, query, ret. now rewrite Hfind.
Qed.

Lemma create_or_get_user_again_witness :
  create_or_get_user "Bina" "9000000001" "bina@example.com" one_user
  = (one_user, inr (User.mk 1 "Asha" "9000000001" "asha@example.com")).
Proof.
  apply (create_or_get_user_again "Asha" "asha@example.com" "Bina"
           "bina@example.com" "9000000001" startup).
  reflexivity.
Defined.

Lemma create_or_get_vehicle_full user_id make model year db :
  match create_or_get_vehicle user_id make model year db with
  | (db', inr v) =>
      In v (vehicles db) /\ db' = db
      /\ Vehicle.user_id v = user_id /\ Vehicle.make v = make
      /\ Vehicle.model v = model
      \/ (forall v', In v' (vehicles db) ->
            ~ (Vehicle.user_id v' = user_id /\ Vehicle.make v' = make
               /\ Vehicle.model v' = model))
         /\ integer_fits year = true
         /\ v = Vehicle.mk (next_id (map Vehicle.id (vehicles db)))
                           user_id make model year
         /\ db' = mkSession (users db) (vehicles db ++ [v]) (bookings db)
                            (service_centers db)
  | (db', inl e) =>
      db' = db /\ e = OverflowError /\ integer_fits year = false
      /\ forall v', In v' (vehicles db) ->
           ~ (Vehicle.user_id v' = user_id /\ Vehicle.make v' = make
              /\ Vehicle.model v' = model)
  end.
Proof.
  unfold create_or_get_vehicle, bind, query, ret.
  destruct (find _ (vehicles db)) as [v |] eqn:E.
  - apply find_some in E as [Hin Hv].
    apply andb_prop in Hv as [Hv Hmodel]. apply andb_prop in Hv as [Hid Hmake].
    apply Z.eqb_eq in Hid. apply String.eqb_eq in Hmake, Hmodel.
    left. auto.
  - assert (Hnone : forall v', In v' (vehicles db) ->
              ~ (Vehicle.user_id v' = user_id /\ Vehicle.make v' = make
                 /\ Vehicle.model v' = model)).
    { intros v' Hin (H1 & H2 & H3).
      pose proof (find_none _ _ E _ Hin) as H. cbn in H.
      rewrite H1, H2, H3, Z.eqb_refl, !String.eqb_refl in H. discriminate. }
    unfold insert_vehicle. destruct (integer_fits year); auto 6.
Qed.

(** X10. The upsert of vehicles, in full. A vehicle of that user, make and
    model is returned and the store is untouched, whatever the year of
    the request; otherwise one is inserted, unless the year does not fit
    the store: then [OverflowError] and the store is untouched. *)
Theorem create_or_get_vehicle_cases user_id make model year db :
  match create_or_get_vehicle user_id make model year db with
  | (db', inr v) =>
      In v (vehicles db) /\ db' = db
      /\ Vehicle.user_id v = user_id /\ Vehicle.make v = make
      /\ Vehicle.model v = model
      \/ (forall v', In v' (vehicles db) ->
            ~ (Vehicle.user_id v' = user_id /\ Vehicle.make v' = make
               /\ Vehicle.model v' = model))
         /\ integer_fits year = true
         /\ v = Vehicle.mk (next_id (map Vehicle.id (vehicles db)))
                           user_id make model year
         /\ db' = mkSession (users db) (vehicles db ++ [v]) (bookings db)
                            (service_centers db)
  | (db', inl e) =>
      db' = db /\ e = OverflowError /\ integer_fits year = false
      /\ forall v', In v' (vehicles db) ->
           ~ (Vehicle.user_id v' = user_id /\ Vehicle.make v' = make
              /\ Vehicle.model v' = model)
  end.
Proof. exact (create_or_get_vehicle_full user_id make model year db). Qed.

(** X11. Asking again for the same user, make and model returns the same
    vehicle and inserts nothing, whatever the year, even one that does not
    fit the store. *)
Theorem create_or_get_vehicle_again user_id make model year year' db db2 v :
  create_or_get_vehicle user_id make model year db = (db2, inr v) ->
  create_or_get_vehicle user_id make model year' db2 = (db2, inr v).
Proof.
  intros H.
  assert (Hfind : find (fun v => (Vehicle.user_id v =? user_id)
                                 && (Vehicle.make v =? make)%string
                                 && (Vehicle.model v =? model)%string)
                       (vehicles db2) = Some v).
  { revert H. unfold create_or_get_vehicle, bind, query, ret.
    destruct (find _ (vehicles db)) as [v0 |] eqn:E.
    - intros H. injection H as <- <-. exact E.
    - unfold insert_vehicle. destruct (integer_fits year); [| discriminate].
      intros H. injection H as <- <-. cbn [vehicles].
      rewrite find_app_none by assumption. cbn.
      now rewrite Z.eqb_refl, !String.eqb_refl. }
  unfold create_or_get_vehicle, bind, query, ret. now rewrite Hfind.
Qed.

Lemma create_or_get_vehicle_again_witness :
  let db2 := fst (create_or_get_vehicle 1 "Tata" "Nexon" 2023 one_user) in
  create_or_get_vehicle 1 "Tata" "Nexon" (2 ^ 63) db2
  = (db2, inr (Vehicle.mk 1 1 "Tata" "Nexon" 2023)).
Proof.
  cbv zeta.
  apply (create_or_get_vehicle_again 1 "Tata" "Nexon" 2023 (2 ^ 63)
           one_user).
  reflexivity.
Defined.

(* ===================================================================== *)
(** ** Inserting a booking and finding it again *)
(* ===================================================================== *)

Lemma find_app_last {A} (f : A -> bool) (l : list A) (x : A) :
  f x = false -> find f (l ++ [x]) = find f l.
Proof.
  intros Hx. induction l as [| y l IH]; cbn [find app].
  - now rewrite Hx.
  - destruct (f y); [reflexivity | exact IH].
Qed.

Lemma find_new_booking (l : list Booking.t) (b : Booking.t) :
  Booking.id b = next_id (map Booking.id l) ->
  find (fun x => Booking.id x =? Booking.id b) (l ++ [b]) = Some b
  /\ forall booking_id, booking_id <> Booking.id b ->
       find (fun x => Booking.id x =? booking_id) (l ++ [b])
       = find (fun x => Booking.id x =? booking_id) l.
Proof.
  intros Hid. split.
  - rewrite find_app_none; [cbn; now rewrite Z.eqb_refl |].
    destruct (find _ l) as [x |] eqn:E; [| reflexivity].
    apply find_some in E as [Hin Hx]. apply Z.eqb_eq in Hx.
    pose proof (next_id_fresh (map Booking.id l) (Booking.id x)
                  (in_map _ _ _ Hin)). lia.
  - intros booking_id Hne. apply find_app_last. apply Z.eqb_neq. congruence.
Qed.

(** X12. After a successful scheduling request [get_booking_by_id] finds, under
    the id of the answer, the booking of the assigned slot, confirmed; the
    other ids answer as before. *)
Theorem schedule_appointment_lookup booking db :
  match schedule_appointment booking db with
  | (db', OK resp) =>
      exists b,
        get_booking_by_id db' (sr_booking_id resp) = Some b
        /\ (Booking.date b, Booking.time b) = sr_assigned_slot resp
        /\ Booking.status b = "Confirmed"
        /\ Booking.service_center_id b = find_best_service_center db
        /\ forall booking_id, booking_id <> sr_booking_id resp ->
             get_booking_by_id db' booking_id
             = get_booking_by_id db booking_id
  | (_, HTTPException _ _) => True
  end.
Proof.
  pose proof (schedule_appointment_outcome booking db) as H. cbv zeta in H.
  destruct (schedule_appointment booking db) as [db' [resp | code e]];
    [| exact I].
  destruct H as (ad & at_ & u & v & b & _ & Hslot & Hid & _ & _ & _ & _ & Hb
                 & Hbs & _).
  assert (Hnew : Booking.id b = next_id (map Booking.id (bookings db)))
    by now subst b.
  destruct (find_new_booking (bookings db) b Hnew) as [Hfind Hother].
  exists b. unfold get_booking_by_id. rewrite Hbs, Hid, Hslot.
  split; [exact Hfind |]. subst b. cbn. auto.
Qed.


(* ===================================================================== *)
(** ** Cancelling *)
(* ===================================================================== *)

Lemma update_status_ids booking_id status db :
  map Booking.id (bookings (update_status booking_id status db))
  = map Booking.id (bookings db).
Proof.
  unfold update_status. cbn [bookings]. rewrite map_map.
  apply map_ext. intros b. now destruct (Booking.id b =? booking_id).
Qed.

Lemma update_status_lookup booking_id status db k :
  get_booking_by_id (update_status booking_id status db) k
  = match get_booking_by_id db k with
    | Some b => Some (if k =? booking_id then Booking.set_status b status
                      else b)
    | None => None
    end.
Proof.
  unfold get_booking_by_id, update_status. cbn [bookings].
  induction (bookings db) as [| x l IH]; cbn [map find]; [reflexivity |].
  destruct (Z.eqb_spec (Booking.id x) booking_id) as [Hx | Hx].
  - cbn [Booking.set_status Booking.id].
    destruct (Z.eqb_spec (Booking.id x) k) as [Hk | Hk]; [| exact IH].
    subst k. rewrite Hx, Z.eqb_refl. reflexivity.
  - destruct (Z.eqb_spec (Booking.id x) k) as [Hk | Hk]; [| exact IH].
    subst k. destruct (Z.eqb_spec (Booking.id x) booking_id); [contradiction |].
    reflexivity.
Qed.

Lemma update_status_twice booking_id status db :
  update_status booking_id status (update_status booking_id status db)
  = update_status booking_id status db.
Proof.
  unfold update_status. cbn [users vehicles bookings service_centers].
  f_equal. rewrite map_map. apply map_ext. intros b.
  destruct (Booking.id b =? booking_id) eqn:E; [| now rewrite E].
  cbn [Booking.set_status Booking.id]. now rewrite E.
Qed.

(** X14. [PUT /bookings/{id}/cancel], in full. An unknown id is answered 404
    and the store is untouched. A known id is answered with that id: the
    booking of that id has status "Cancelled" and is otherwise as it was,
    every other booking is as it was, no row is added or removed, and
    cancelling again changes nothing. *)
Theorem cancel_booking_endpoint_cases booking_id db :
  match get_booking_by_id db booking_id with
  | None =>
      exists e, cancel_booking_endpoint booking_id db
                = (db, HTTPException 404 e)
  | Some b =>
      exists db',
        cancel_booking_endpoint booking_id db = (db', OK booking_id)
        /\ users db' = users db /\ vehicles db' = vehicles db
        /\ service_centers db' = service_centers db
        /\ map Booking.id (bookings db') = map Booking.id (bookings db)
        /\ get_booking_by_id db' booking_id
           = Some (Booking.set_status b "Cancelled")
        /\ (forall k, k <> booking_id ->
              get_booking_by_id db' k = get_booking_by_id db k)
        /\ fst (cancel_booking_endpoint booking_id db') = db'
  end.
Proof.
  destruct (get_booking_by_id db booking_id) as [b |] eqn:E.
  - assert (Hid : Booking.id b = booking_id).
    { apply find_some in E as [_ H]. now apply Z.eqb_eq in H. }
    exists (update_status booking_id "Cancelled" db).
    unfold cancel_booking_endpoint, cancel_booking.
    unfold get_booking_by_id in E. rewrite E.
    cbn [Booking.set_status Booking.id]. rewrite Hid.
    split; [reflexivity |]. split; [reflexivity |]. split; [reflexivity |].
    split; [reflexivity |]. split; [apply update_status_ids |].
    split; [| split].
    + rewrite update_status_lookup. unfold get_booking_by_id.
      now rewrite E, Z.eqb_refl.
    + intros k Hk. rewrite update_status_lookup.
      destruct (get_booking_by_id db k); [| reflexivity].
      now destruct (Z.eqb_spec k booking_id).
    + pose proof (update_status_lookup booking_id "Cancelled" db booking_id)
        as Hl.
      unfold get_booking_by_id in Hl at 2. rewrite E in Hl.
      unfold get_booking_by_id in Hl. rewrite Hl.
      cbn [fst]. apply update_status_twice.
  - exists ValueError. unfold cancel_booking_endpoint, cancel_booking.
    unfold get_booking_by_id in E. now rewrite E.
Qed.

Lemma update_status_other booking_id status (l : list Booking.t) :
  (forall x, In x l -> Booking.id x <> booking_id) ->
  map (fun b => if Booking.id b =? booking_id
                then Booking.set_status b status else b) l = l.
Proof.
  intros H. induction l as [| x l IH]; [reflexivity |].
  cbn [map]. rewrite IH by (intros y Hy; apply H; now right).
  destruct (Z.eqb_spec (Booking.id x) booking_id) as [Hx | _];
    [| reflexivity].
  exfalso. now apply (H x (or_introl eq_refl)).
Qed.

Lemma cancel_filter_exact d t c (l : list Booking.t) (b : Booking.t) :
  NoDup (map Booking.id l) ->
  In b l ->
  (List.length
     (filter (slot_filter d t c)
             (map (fun x => if (Booking.id x =? Booking.id b)%Z
                            then Booking.set_status x "Cancelled" else x) l))
   + (if slot_filter d t c b then 1 else 0)
   = List.length (filter (slot_filter d t c) l))%nat.
Proof.
  induction l as [| x l IH]; intros Hnodup Hin; [destruct Hin |].
  cbn [map] in Hnodup. apply NoDup_cons_iff in Hnodup as [Hnotin Hnodup].
  cbn [map filter]. destruct Hin as [-> | Hin].
  - rewrite Z.eqb_refl, slot_filter_cancelled.
    rewrite update_status_other.
    + destruct (slot_filter d t c b); cbn [List.length]; lia.
    + intros y Hy Heq. apply Hnotin. rewrite <- Heq. now apply in_map.
  - specialize (IH Hnodup Hin).
    destruct (Z.eqb_spec (Booking.id x) (Booking.id b)) as [Heq | _].
    + exfalso. apply Hnotin. rewrite Heq. now apply in_map.
    + destruct (slot_filter d t c x); cbn [List.length]; lia.
Qed.

(** X15. With booking ids that are unique, cancelling a booking lowers the
    count of every slot the booking counted for by exactly one, and
    leaves the count of every other slot as it was. *)
Theorem cancel_booking_count db b d t c :
  NoDup (map Booking.id (bookings db)) ->
  In b (bookings db) ->
  slot_count (exec (cancel_booking (Booking.id b)) db) d t c
  = slot_count db d t c - (if slot_filter d t c b then 1 else 0).
Proof.
  intros Hnodup Hin. rewrite cancel_booking_exec by assumption.
  unfold slot_count, update_status. cbn [bookings].
  pose proof (cancel_filter_exact d t c (bookings db) b Hnodup Hin).
  destruct (slot_filter d t c b); lia.
Qed.

Lemma busy_day_ids : map Booking.id (bookings busy_day) = [1; 2; 3; 4; 5; 6].
Proof. vm_compute. reflexivity. Qed.

Lemma cancel_booking_count_witness :
  slot_count (exec (cancel_booking 3) busy_day) "2025-06-10" "10:00" 1
  = slot_count busy_day "2025-06-10" "10:00" 1 - 1.
Proof.
  apply (cancel_booking_count busy_day
           (Booking.mk 3 1 1 1 "2025-06-10" "10:00" "General Service"
                       "Confirmed") "2025-06-10" "10:00" 1).
  - rewrite busy_day_ids.
    repeat (constructor; [cbn; intros H; repeat destruct H as [H | H];
                          discriminate || assumption |]).
    constructor.
  - vm_compute. tauto.
Defined.

(* ===================================================================== *)
(** ** Seeding the service centers *)
(* ===================================================================== *)

(** X16. [initialize_service_centers] seeds three centers, with ids 1, 2 and
    3, into a store that has none and touches no other table; it leaves a
    store that has a center as it is; so running it twice is running it
    once, and afterwards [find_best_service_center] returns the id of a
    center of the store. *)
Theorem initialize_service_centers_cases db :
  let db' := exec initialize_service_centers db in
  (service_centers db <> [] -> db' = db)
  /\ (service_centers db = [] ->
      map ServiceCenter.id (service_centers db') = [1; 2; 3]
      /\ find_best_service_center db' = 1)
  /\ users db' = users db /\ vehicles db' = vehicles db
  /\ bookings db' = bookings db
  /\ exec initialize_service_centers db' = db'
  /\ exists center, In center (service_centers db')
                    /\ find_best_service_center db' = ServiceCenter.id center.
Proof.
  cbv zeta. unfold exec, initialize_service_centers.
  destruct (service_centers db) as [| center rest] eqn:E.
  - cbn. repeat split; try reflexivity; try congruence.
    eexists. split; [left; reflexivity | reflexivity].
  - cbn. rewrite E. cbn.
    repeat split; try reflexivity; try discriminate.
    exists center. unfold find_best_service_center. rewrite E.
    split; [left; reflexivity | reflexivity].
Qed.

(* ===================================================================== *)
(** ** The consistency of the store is kept by every request *)
(* ===================================================================== *)

Lemma ids_upto_S n : ids_upto (S n) = (ids_upto n ++ [Z.of_nat (S n)])%list.
Proof. unfold ids_upto. now rewrite seq_S, map_app. Qed.

Lemma ids_upto_bound n x : In x (ids_upto n) -> 1 <= x <= Z.of_nat n.
Proof.
  unfold ids_upto. intros H. apply in_map_iff in H as (k & <- & Hk).
  apply in_seq in Hk. lia.
Qed.

Lemma fold_max_le (l : list Z) (m : Z) :
  0 <= m -> (forall x, In x l -> x <= m) -> fold_right Z.max 0 l <= m.
Proof.
  intros Hm. induction l as [| y l IH]; intros H; cbn [fold_right]; [lia |].
  pose proof (H y (or_introl eq_refl)).
  assert (fold_right Z.max 0 l <= m) by (apply IH; intros x Hx; apply H;
                                         now right).
  lia.
Qed.

Lemma next_id_ids_upto n : next_id (ids_upto n) = Z.of_nat n + 1.
Proof.
  assert (Hle : fold_right Z.max 0 (ids_upto n) <= Z.of_nat n).
  { apply fold_max_le; [lia |]. intros x Hx. apply ids_upto_bound in Hx. lia. }
  destruct n as [| n]; [reflexivity |].
  assert (Hin : In (Z.of_nat (S n)) (ids_upto (S n))).
  { rewrite ids_upto_S. apply in_or_app. right. now left. }
  pose proof (next_id_fresh _ _ Hin) as Hlt. unfold next_id in *. lia.
Qed.

Lemma ids_extend {A} (id : A -> Z) (l : list A) (x : A) :
  map id l = ids_upto (List.length l) ->
  id x = next_id (map id l) ->
  map id (l ++ [x]) = ids_upto (List.length (l ++ [x])).
Proof.
  intros Hl Hx. rewrite map_app, length_app. cbn [map List.length].
  rewrite Nat.add_1_r, ids_upto_S, Hx, Hl, next_id_ids_upto.
  repeat f_equal. lia.
Qed.

Lemma NoDup_snoc {A} (l : list A) (x : A) :
  NoDup l -> ~ In x l -> NoDup (l ++ [x]).
Proof.
  intros Hl Hx. induction Hl as [| y l Hy Hl IH]; cbn [app].
  - constructor; [intros [] | constructor].
  - constructor.
    + intros Hin. apply in_app_or in Hin as [Hin | [<- | []]]; [tauto |].
      apply Hx. now left.
    + apply IH. intros Hin. apply Hx. now right.
Qed.

Lemma consistent_startup : consistent startup.
Proof.
  constructor; cbn.
  - reflexivity.
  - reflexivity.
  - reflexivity.
  - apply NoDup_nil.
  - apply NoDup_nil.
  - intros v [].
  - intros b [].
  - intros b [].
Qed.

Lemma consistent_user_step name phone email db db1 r :
  consistent db ->
  create_or_get_user name phone email db = (db1, r) ->
  consistent db1
  /\ forall u, r = inr u -> In u (users db1) /\ User.phone u = phone.
Proof.
  intros H Hrun.
  pose proof (create_or_get_user_full name phone email db) as Hcases.
  rewrite Hrun in Hcases. destruct r as [e | u].
  - destruct Hcases as (-> & _). split; [assumption | discriminate].
  - destruct Hcases as [(Hin & Hphone & ->) | (Hnew & Hu & ->)].
    + split; [assumption |]. intros u' Hu'. injection Hu' as <-. auto.
    + split.
      * destruct H. constructor; cbn [users vehicles bookings]; try assumption.
        -- apply ids_extend; [assumption | now subst u].
        -- rewrite map_app. apply NoDup_snoc; [assumption |].
           intros Hin. apply in_map_iff in Hin as (u' & Heq & Hin).
           apply (proj1 (Hnew u' Hin)). rewrite Heq. now subst u.
        -- rewrite map_app. apply NoDup_snoc; [assumption |].
           intros Hin. apply in_map_iff in Hin as (u' & Heq & Hin).
           apply (proj2 (Hnew u' Hin)). rewrite Heq. now subst u.
        -- intros v Hv. destruct (vehicle_owner0 v Hv) as (u' & Hu' & Hid).
           exists u'. split; [apply in_or_app; now left | assumption].
        -- intros b Hb.
           destruct (booking_refs0 b Hb) as [(u' & Hu' & Hid) Hveh].
           split; [| assumption].
           exists u'. split; [apply in_or_app; now left | assumption].
      * intros u' Hu'. injection Hu' as <-. cbn [users].
        split; [apply in_or_app; right; now left | now subst u].
Qed.

Lemma consistent_vehicle_step u make model year db db2 r :
  consistent db ->
  In u (users db) ->
  create_or_get_vehicle (User.id u) make model year db = (db2, r) ->
  consistent db2 /\ users db2 = users db
  /\ forall v, r = inr v ->
       In v (vehicles db2) /\ Vehicle.user_id v = User.id u.
Proof.
  intros H Hu Hrun.
  pose proof (create_or_get_vehicle_full (User.id u) make model year db)
    as Hcases.
  rewrite Hrun in Hcases. destruct r as [e | v].
  - destruct Hcases as (-> & _).
    split; [assumption | split; [reflexivity | discriminate]].
  - destruct Hcases as [(Hin & -> & Hid & _) | (_ & _ & Hv & ->)].
    + split; [assumption | split; [reflexivity |]].
      intros v' Hv'. injection Hv' as <-. auto.
    + split; [| split; [reflexivity |]].
      * destruct H. constructor; cbn [users vehicles bookings]; try assumption.
        -- apply ids_extend; [assumption | now subst v].
        -- intros v' Hv'. apply in_app_or in Hv' as [Hv' | [<- | []]];
             [now apply vehicle_owner0 |].
           exists u. split; [assumption | now subst v].
        -- intros b Hb.
           destruct (booking_refs0 b Hb) as [Huser (v' & Hv' & Hid)].
           split; [assumption |].
           exists v'. split; [apply in_or_app; now left | assumption].
      * intros v' Hv'. injection Hv' as <-. cbn [vehicles].
        split; [apply in_or_app; right; now left | now subst v].
Qed.

Lemma consistent_insert_booking db u v date time service_type c :
  consistent db ->
  In u (users db) -> In v (vehicles db) -> Vehicle.user_id v = User.id u ->
  consistent
    (mkSession (users db) (vehicles db)
       (bookings db
        ++ [Booking.mk (next_id (map Booking.id (bookings db)))
                       (User.id u) (Vehicle.id v) c date time service_type
                       "Confirmed"])
       (service_centers db)).
Proof.
  intros H Hu Hv Hown. destruct H.
  constructor; cbn [users vehicles bookings]; try assumption.
  - apply ids_extend; [assumption | reflexivity].
  - intros b Hb. apply in_app_or in Hb as [Hb | [<- | []]];
      [now apply booking_refs0 |].
    cbn. split; [exists u; auto | exists v; auto].
  - intros b Hb. apply in_app_or in Hb as [Hb | [<- | []]];
      [now apply booking_status0 | reflexivity].
Qed.

Lemma consistent_schedule booking db :
  consistent db -> consistent (fst (schedule_appointment booking db)).
Proof.
  intros H. rewrite schedule_appointment_steps. cbv zeta.
  destruct (find_preferred_slot db _ _ _) as [e | assigned]; [exact H |].
  destruct (create_or_get_user _ _ _ db) as [db1 r1] eqn:E1.
  destruct (consistent_user_step _ _ _ _ _ _ H E1) as [H1 Hu].
  destruct r1 as [e | u]; [exact H1 |].
  destruct (Hu u eq_refl) as [Hin _].
  destruct (create_or_get_vehicle _ _ _ _ db1) as [db2 r2] eqn:E2.
  destruct (consistent_vehicle_step _ _ _ _ _ _ _ H1 Hin E2)
    as (H2 & Husers & Hv).
  destruct r2 as [e | v]; [exact H2 |].
  destruct (Hv v eq_refl) as [Hinv Hown].
  unfold try_400, bind, insert_booking, query, ret. cbn [fst].
  apply consistent_insert_booking; try assumption. now rewrite Husers.
Qed.

Lemma consistent_create booking db :
  consistent db -> consistent (fst (create_new_booking booking db)).
Proof.
  intros H. unfold create_new_booking, try_400, create_booking.
  unfold bind at 1. unfold bind at 1.
  destruct (create_or_get_user _ _ _ db) as [db1 r1] eqn:E1.
  destruct (consistent_user_step _ _ _ _ _ _ H E1) as [H1 Hu].
  destruct r1 as [e | u]; [exact H1 |].
  destruct (Hu u eq_refl) as [Hin _].
  unfold bind at 1.
  destruct (create_or_get_vehicle _ _ _ _ db1) as [db2 r2] eqn:E2.
  destruct (consistent_vehicle_step _ _ _ _ _ _ _ H1 Hin E2)
    as (H2 & Husers & Hv).
  destruct r2 as [e | v]; [exact H2 |].
  destruct (Hv v eq_refl) as [Hinv Hown].
  unfold insert_booking, ret. cbn [fst].
  apply consistent_insert_booking; try assumption. now rewrite Husers.
Qed.

Lemma consistent_update_status booking_id status db :
  known_status status = true ->
  consistent db -> consistent (update_status booking_id status db).
Proof.
  intros Hs H. destruct H.
  assert (Hlen : List.length (bookings (update_status booking_id status db))
                 = List.length (bookings db))
    by (unfold update_status; cbn [bookings]; apply length_map).
  constructor; try assumption.
  - rewrite update_status_ids, Hlen. assumption.
  - intros b Hb. unfold update_status in Hb. cbn [bookings] in Hb.
    apply in_map_iff in Hb as (b0 & <- & Hb0).
    destruct (booking_refs0 b0 Hb0) as [Hu Hv].
    now destruct (Booking.id b0 =? booking_id).
  - intros b Hb. unfold update_status in Hb. cbn [bookings] in Hb.
    apply in_map_iff in Hb as (b0 & <- & Hb0).
    destruct (Booking.id b0 =? booking_id);
      [exact Hs | now apply booking_status0].
Qed.

Lemma consistent_cancel booking_id db :
  consistent db -> consistent (fst (cancel_booking_endpoint booking_id db)).
Proof.
  intros H. rewrite cancel_booking_endpoint_fst.
  unfold exec, cancel_booking.
  destruct (find _ (bookings db)); [| exact H].
  now apply consistent_update_status.
Qed.

Lemma request_step_consistent w w' :
  request_step w w' -> consistent (fst w) -> consistent (fst w').
Proof.
  intros Hstep. destruct Hstep as [booking db sent | booking db sent
    | booking_id db sent | now_email now_sms booking_id [db sent]
    | now booking_id [db sent] | now booking_id [db sent] | [db sent]];
    cbn [fst]; intros H.
  - now apply consistent_create.
  - now apply consistent_schedule.
  - now apply consistent_cancel.
  - unfold send_booking_confirmation.
    destruct (get_booking_by_id db booking_id) as [bk |]; [| exact H].
    destruct (booking_user db bk), (booking_vehicle db bk); exact H.
  - unfold send_booking_reminder.
    destruct (get_booking_by_id db booking_id) as [bk |]; [| exact H].
    destruct (booking_user db bk), (booking_vehicle db bk); exact H.
  - unfold send_completion_notification.
    destruct (get_booking_by_id db booking_id) as [bk |]; [| exact H].
    destruct (booking_user db bk), (booking_vehicle db bk); try exact H.
    cbn [fst]. now apply consistent_update_status.
  - exact H.
Qed.

Lemma served_db_consistent w : served w -> consistent (fst w).
Proof.
  induction 1 as [| w w' _ IH Hstep]; [exact consistent_startup |].
  exact (request_step_consistent w w' Hstep IH).
Qed.

(* ===================================================================== *)
(** ** What holds in every world the server reaches *)
(* ===================================================================== *)

Lemma served_post_schedule reqs db sent :
  served (db, sent) -> served (post_schedule reqs db, sent).
Proof.
  revert db. induction reqs as [| r reqs IH]; intros db H; [exact H |].
  apply IH. eapply served_step; [exact H | apply step_schedule].
Qed.

Lemma served_busy_day : served (busy_day, []).
Proof. apply served_post_schedule. exact served_startup. Qed.

Lemma ids_upto_NoDup n : NoDup (ids_upto n).
Proof.
  unfold ids_upto. apply NoDup_map_NoDup_ForallPairs; [| apply seq_NoDup].
  intros x y _ _ H. lia.
Qed.

(** X17. The ids of a served store. In each of the three tables the rows
    carry, in insertion order, the ids 1, 2, ..., n, so no two rows share
    an id and the next id is n + 1. *)
Theorem served_ids w :
  served w ->
  let db := fst w in
  map User.id (users db) = ids_upto (List.length (users db))
  /\ map Vehicle.id (vehicles db) = ids_upto (List.length (vehicles db))
  /\ map Booking.id (bookings db) = ids_upto (List.length (bookings db))
  /\ NoDup (map Booking.id (bookings db))
  /\ next_id (map Booking.id (bookings db))
     = Z.of_nat (List.length (bookings db)) + 1.
Proof.
  intros H. cbv zeta. destruct (served_db_consistent w H).
  split; [assumption |]. split; [assumption |]. split; [assumption |].
  rewrite booking_ids0. split; [apply ids_upto_NoDup |].
  apply next_id_ids_upto.
Qed.

Lemma served_ids_witness :
  map User.id (users busy_day) = ids_upto (List.length (users busy_day))
  /\ map Vehicle.id (vehicles busy_day)
     = ids_upto (List.length (vehicles busy_day))
  /\ map Booking.id (bookings busy_day)
     = ids_upto (List.length (bookings busy_day))
  /\ NoDup (map Booking.id (bookings busy_day))
  /\ next_id (map Booking.id (bookings busy_day))
     = Z.of_nat (List.length (bookings busy_day)) + 1.
Proof. exact (served_ids (busy_day, []) served_busy_day). Defined.

(** X18. The references of a served store. No two users share a phone or an
    email; every vehicle has its owner in the store; every booking has its
    user and its vehicle in the store, the vehicle being one of that user;
    and every status is Confirmed, Cancelled or Completed. *)
Theorem served_references w :
  served w ->
  let db := fst w in
  NoDup (map User.phone (users db))
  /\ NoDup (map User.email (users db))
  /\ (forall v, In v (vehicles db) ->
        exists u, In u (users db) /\ User.id u = Vehicle.user_id v)
  /\ (forall b, In b (bookings db) ->
        (exists u, In u (users db) /\ User.id u = Booking.user_id b)
        /\ (exists v, In v (vehicles db)
                      /\ Vehicle.id v = Booking.vehicle_id b
                      /\ Vehicle.user_id v = Booking.user_id b)
        /\ (Booking.status b = "Confirmed" \/ Booking.status b = "Cancelled"
            \/ Booking.status b = "Completed")).
Proof.
  intros H. cbv zeta. destruct (served_db_consistent w H).
  split; [assumption |]. split; [assumption |]. split; [assumption |].
  intros b Hb. destruct (booking_refs0 b Hb) as [Hu Hv].
  split; [assumption |]. split; [assumption |].
  specialize (booking_status0 b Hb). unfold known_status in booking_status0.
  apply orb_prop in booking_status0 as [Hs | Hs];
    [apply orb_prop in Hs as [Hs | Hs] |];
    apply String.eqb_eq in Hs; auto.
Qed.

Lemma served_references_witness :
  NoDup (map User.phone (users busy_day))
  /\ NoDup (map User.email (users busy_day))
  /\ (forall v, In v (vehicles busy_day) ->
        exists u, In u (users busy_day) /\ User.id u = Vehicle.user_id v)
  /\ (forall b, In b (bookings busy_day) ->
        (exists u, In u (users busy_day) /\ User.id u = Booking.user_id b)
        /\ (exists v, In v (vehicles busy_day)
                      /\ Vehicle.id v = Booking.vehicle_id b
                      /\ Vehicle.user_id v = Booking.user_id b)
        /\ (Booking.status b = "Confirmed" \/ Booking.status b = "Cancelled"
            \/ Booking.status b = "Completed")).
Proof. exact (served_references (busy_day, []) served_busy_day). Defined.

Lemma find_exists {A} (f : A -> bool) (l : list A) (x : A) :
  In x l -> f x = true -> exists y, find f l = Some y /\ In y l /\ f y = true.
Proof.
  intros Hin Hx. destruct (find f l) as [y |] eqn:E.
  - exists y. apply find_some in E. tauto.
  - rewrite (find_none _ _ E x Hin) in Hx. discriminate.
Qed.

Lemma consistent_booking_user db b :
  consistent db -> In b (bookings db) ->
  exists u, booking_user db b = Some u /\ In u (users db)
            /\ User.id u = Booking.user_id b.
Proof.
  intros H Hb. destruct (booking_refs db H b Hb) as [(u & Hu & Hid) _].
  destruct (find_exists (fun u => User.id u =? Booking.user_id b)
              (users db) u Hu) as (u' & Hfind & Hin & Hu').
  { now apply Z.eqb_eq. }
  exists u'. apply Z.eqb_eq in Hu'. auto.
Qed.

Lemma consistent_booking_vehicle db b :
  consistent db -> In b (bookings db) ->
  exists v, booking_vehicle db b = Some v /\ In v (vehicles db)
            /\ Vehicle.id v = Booking.vehicle_id b.
Proof.
  intros H Hb. destruct (booking_refs db H b Hb) as [_ (v & Hv & Hid & _)].
  destruct (find_exists (fun v => Vehicle.id v =? Booking.vehicle_id b)
              (vehicles db) v Hv) as (v' & Hfind & Hin & Hv').
  { now apply Z.eqb_eq. }
  exists v'. apply Z.eqb_eq in Hv'. auto.
Qed.

Lemma get_all_bookings_loop_ok db (rows : list Booking.t) :
  consistent db ->
  (forall b, In b rows -> In b (bookings db)) ->
  exists result,
    get_all_bookings_loop db rows = Some result
    /\ map br_id result = map Booking.id rows
    /\ map br_date result = map Booking.date rows
    /\ map br_time result = map Booking.time rows
    /\ map br_status result = map Booking.status rows
    /\ forall row, In row result ->
         br_service_center row = "EY Service Center - Mumbai".
Proof.
  intros H. induction rows as [| b rows IH]; intros Hrows.
  - exists []. cbn. repeat split. intros row [].
  - destruct IH as (result & Hloop & Hid & Hdate & Htime & Hstatus & Hcenter).
    { intros b' Hb'. apply Hrows. now right. }
    pose proof (Hrows b (or_introl eq_refl)) as Hb.
    destruct (consistent_booking_user db b H Hb) as (u & Hu & _).
    destruct (consistent_booking_vehicle db b H Hb) as (v & Hv & _).
    cbn [get_all_bookings_loop]. unfold booking_entry.
    rewrite Hu, Hv, Hloop. eexists. split; [reflexivity |].
    cbn [map br_id br_date br_time br_status].
    rewrite Hid, Hdate, Htime, Hstatus. repeat split.
    intros row [<- | Hrow]; [reflexivity | now apply Hcenter].
Qed.

(** X19. [GET /bookings] on a served store. [get_all_bookings] raises nothing
    and lists the bookings in insertion order, one entry each, with its
    id, date, time and status; the service center of every entry is the
    text "EY Service Center - Mumbai", whatever center holds the
    booking. *)
Theorem served_get_all_bookings w :
  served w ->
  let db := fst w in
  exists result,
    get_all_bookings db = Some result
    /\ map br_id result = map Booking.id (bookings db)
    /\ map br_date result = map Booking.date (bookings db)
    /\ map br_time result = map Booking.time (bookings db)
    /\ map br_status result = map Booking.status (bookings db)
    /\ forall row, In row result ->
         br_service_center row = "EY Service Center - Mumbai".
Proof.
  intros H. cbv zeta. apply get_all_bookings_loop_ok.
  - now apply served_db_consistent.
  - auto.
Qed.

Lemma served_get_all_bookings_witness :
  exists result,
    get_all_bookings busy_day = Some result
    /\ map br_id result = map Booking.id (bookings busy_day)
    /\ map br_date result = map Booking.date (bookings busy_day)
    /\ map br_time result = map Booking.time (bookings busy_day)
    /\ map br_status result = map Booking.status (bookings busy_day)
    /\ forall row, In row result ->
         br_service_center row = "EY Service Center - Mumbai".
Proof. exact (served_get_all_bookings (busy_day, []) served_busy_day). Defined.

Lemma count_known_statuses (l : list Booking.t) :
  (forall b, In b l -> known_status (Booking.status b) = true) ->
  (List.length l
   = List.length (filter (fun b => (Booking.status b =? "Confirmed")%string) l)
     + List.length
         (filter (fun b => (Booking.status b =? "Cancelled")%string) l)
     + List.length
         (filter (fun b => (Booking.status b =? "Completed")%string) l))%nat
  /\ filter (fun b => (Booking.status b =? "Pending")%string) l = [].
Proof.
  induction l as [| b l IH]; intros H; [split; reflexivity |].
  destruct IH as [IHn IHp]; [intros b' Hb'; apply H; now right |].
  specialize (H b (or_introl eq_refl)). unfold known_status in H.
  cbn [filter].
  destruct (String.eqb_spec (Booking.status b) "Confirmed") as [E | _];
    [rewrite E; cbn; split; [lia | assumption] |].
  destruct (String.eqb_spec (Booking.status b) "Cancelled") as [E | _];
    [rewrite E; cbn; split; [lia | assumption] |].
  destruct (String.eqb_spec (Booking.status b) "Completed") as [E | _];
    [rewrite E; cbn; split; [lia | assumption] |].
  discriminate H.
Qed.

(** X20. [GET /stats] on a served store. No booking is ever "Pending", so
    [pending] is 0; [total_bookings] is the sum of [confirmed],
    [cancelled] and the number of completed bookings, which the answer
    does not report. *)
Theorem served_get_stats w :
  served w ->
  let answer := get_stats (fst w) in
  pending answer = 0
  /\ total_bookings answer
     = confirmed answer + cancelled answer
       + count_status (fst w) "Completed"
  /\ confirmed answer + pending answer + cancelled answer
     <= total_bookings answer.
Proof.
  intros H. cbv zeta. unfold get_stats, count_status.
  cbn [pending total_bookings confirmed cancelled].
  destruct (count_known_statuses (bookings (fst w))) as [Hn Hp].
  { apply (booking_status (fst w)). now apply served_db_consistent. }
  rewrite Hp. cbn [List.length]. lia.
Qed.

Lemma served_get_stats_witness :
  let answer := get_stats busy_day in
  pending answer = 0
  /\ total_bookings answer
     = confirmed answer + cancelled answer + count_status busy_day "Completed"
  /\ confirmed answer + pending answer + cancelled answer
     <= total_bookings answer.
Proof. exact (served_get_stats (busy_day, []) served_busy_day). Defined.

(* ===================================================================== *)
(** ** The notification endpoints *)
(* ===================================================================== *)

Lemma get_booking_by_id_some db booking_id b :
  get_booking_by_id db booking_id = Some b ->
  In b (bookings db) /\ Booking.id b = booking_id.
Proof.
  unfold get_booking_by_id. intros H. apply find_some in H as [Hin Hid].
  apply Z.eqb_eq in Hid. auto.
Qed.

Lemma history_app booking_id (l1 l2 : list NotificationService.notification) :
  NotificationService.get_notification_history booking_id (l1 ++ l2)
  = (NotificationService.get_notification_history booking_id l1
     ++ NotificationService.get_notification_history booking_id l2)%list.
Proof. unfold NotificationService.get_notification_history. apply filter_app. Qed.

(** X21. [POST /notify/send-confirmation] on a served world. For an unknown
    booking id it answers 400 (its 404 is raised inside its own [try]) and
    logs nothing. For a known one it answers the id and appends exactly
    two notifications, an email to the email of the booking's user and an
    SMS to the user's phone, both under that booking id; they are the last
    two of the history of that booking and no other history changes. The
    store is not touched. *)
Theorem send_booking_confirmation_cases now_email now_sms booking_id db sent :
  served (db, sent) ->
  match get_booking_by_id db booking_id with
  | None =>
      send_booking_confirmation now_email now_sms booking_id (db, sent)
      = ((db, sent), Failure 400)
  | Some b =>
      exists u n1 n2,
        booking_user db b = Some u
        /\ send_booking_confirmation now_email now_sms booking_id (db, sent)
           = ((db, (sent ++ [n1; n2])%list),
              Reply (booking_id, ["email"; "sms"]))
        /\ (NotificationService.n_id n1, NotificationService.n_type n1,
            NotificationService.n_to n1, NotificationService.n_booking_id n1,
            NotificationService.n_timestamp n1)
           = ("EMAIL-" ++ str booking_id, "email", User.email u, booking_id,
              Some now_email)
        /\ (NotificationService.n_id n2, NotificationService.n_type n2,
            NotificationService.n_to n2, NotificationService.n_booking_id n2,
            NotificationService.n_timestamp n2)
           = ("SMS-" ++ str booking_id, "sms", User.phone u, booking_id,
              Some now_sms)
        /\ NotificationService.get_notification_history booking_id
             (sent ++ [n1; n2])
           = (NotificationService.get_notification_history booking_id sent
              ++ [n1; n2])%list
        /\ forall k, k <> booking_id ->
             NotificationService.get_notification_history k
               (sent ++ [n1; n2])
             = NotificationService.get_notification_history k sent
  end.
Proof.
  intros Hserved. pose proof (served_db_consistent _ Hserved) as H.
  cbn [fst] in H.
  destruct (get_booking_by_id db booking_id) as [b |] eqn:E.
  - destruct (get_booking_by_id_some _ _ _ E) as [Hb Hid].
    destruct (consistent_booking_user db b H Hb) as (u & Hu & _).
    destruct (consistent_booking_vehicle db b H Hb) as (v & Hv & _).
    exists u. unfold send_booking_confirmation. rewrite E, Hu, Hv.
    cbv zeta.
    unfold NotificationService.send_confirmation_email,
      NotificationService.send_confirmation_sms,
      NotificationService.log_notification.
    cbn [fst NotificationService.n_id NotificationService.n_type
         NotificationService.n_to NotificationService.n_subject
         NotificationService.n_message NotificationService.n_booking_id
         NotificationService.n_status].
    rewrite <- app_assoc. cbn [app]. rewrite Hid.
    eexists. eexists. split; [reflexivity |]. split; [reflexivity |].
    cbn [NotificationService.n_id NotificationService.n_type
         NotificationService.n_to NotificationService.n_booking_id
         NotificationService.n_timestamp].
    split; [reflexivity |]. split; [reflexivity |]. split.
    + rewrite history_app. f_equal.
      unfold NotificationService.get_notification_history.
      cbn [filter NotificationService.n_booking_id].
      now rewrite Z.eqb_refl.
    + intros k Hk. rewrite history_app.
      unfold NotificationService.get_notification_history.
      cbn [filter NotificationService.n_booking_id].
      destruct (Z.eqb_spec booking_id k); [congruence |].
      apply app_nil_r.
  - unfold send_booking_confirmation. now rewrite E.
Qed.

Lemma send_booking_confirmation_cases_witness :
  match get_booking_by_id busy_day 3 with
  | None =>
      send_booking_confirmation "2025-06-09 08:00:00" "2025-06-09 08:00:01" 3
                                (busy_day, [])
      = ((busy_day, []), Failure 400)
  | Some b =>
      exists u n1 n2,
        booking_user busy_day b = Some u
        /\ send_booking_confirmation "2025-06-09 08:00:00"
             "2025-06-09 08:00:01" 3 (busy_day, [])
           = ((busy_day, ([] ++ [n1; n2])%list),
              Reply (3, ["email"; "sms"]))
        /\ (NotificationService.n_id n1, NotificationService.n_type n1,
            NotificationService.n_to n1, NotificationService.n_booking_id n1,
            NotificationService.n_timestamp n1)
           = ("EMAIL-" ++ str 3, "email", User.email u, 3,
              Some "2025-06-09 08:00:00")
        /\ (NotificationService.n_id n2, NotificationService.n_type n2,
            NotificationService.n_to n2, NotificationService.n_booking_id n2,
            NotificationService.n_timestamp n2)
           = ("SMS-" ++ str 3, "sms", User.phone u, 3,
              Some "2025-06-09 08:00:01")
        /\ NotificationService.get_notification_history 3 ([] ++ [n1; n2])
           = (NotificationService.get_notification_history 3 []
              ++ [n1; n2])%list
        /\ forall k, k <> 3 ->
             NotificationService.get_notification_history k ([] ++ [n1; n2])
             = NotificationService.get_notification_history k []
  end.
Proof.
  exact (send_booking_confirmation_cases "2025-06-09 08:00:00"
           "2025-06-09 08:00:01" 3 busy_day [] served_busy_day).
Defined.

Lemma update_filter_exact (F : Booking.t -> bool) status
  (l : list Booking.t) (b : Booking.t) :
  NoDup (map Booking.id l) ->
  In b l ->
  (List.length
     (filter F (map (fun x => if (Booking.id x =? Booking.id b)%Z
                              then Booking.set_status x status else x) l))
   + (if F b then 1 else 0)
   = List.length (filter F l)
     + (if F (Booking.set_status b status) then 1 else 0))%nat.
Proof.
  induction l as [| x l IH]; intros Hnodup Hin; [destruct Hin |].
  cbn [map] in Hnodup. apply NoDup_cons_iff in Hnodup as [Hnotin Hnodup].
  cbn [map filter]. destruct Hin as [-> | Hin].
  - rewrite Z.eqb_refl. rewrite update_status_other.
    + destruct (F b), (F (Booking.set_status b status)); cbn [List.length];
        lia.
    + intros y Hy Heq. apply Hnotin. rewrite <- Heq. now apply in_map.
  - specialize (IH Hnodup Hin).
    destruct (Z.eqb_spec (Booking.id x) (Booking.id b)) as [Heq | _].
    + exfalso. apply Hnotin. rewrite Heq. now apply in_map.
    + destruct (F x); cbn [List.length]; lia.
Qed.

(** X22. [POST /notify/send-completion] on a served world. For an unknown
    booking id it answers 400 and changes nothing. For a known one it logs
    one notification and sets the status of the booking to "Completed",
    whatever it was: a cancelled booking counts again for its slot, whose
    count goes up by one. *)
Theorem send_completion_notification_cases now booking_id db sent :
  served (db, sent) ->
  match get_booking_by_id db booking_id with
  | None =>
      send_completion_notification now booking_id (db, sent)
      = ((db, sent), Failure 400)
  | Some b =>
      exists db' n,
        send_completion_notification now booking_id (db, sent)
        = ((db', (sent ++ [n])%list), Reply booking_id)
        /\ NotificationService.n_id n = "COMPLETE-" ++ str booking_id
        /\ get_booking_by_id db' booking_id
           = Some (Booking.set_status b "Completed")
        /\ (forall k, k <> booking_id ->
              get_booking_by_id db' k = get_booking_by_id db k)
        /\ (Booking.status b = "Cancelled" ->
            slot_count db' (Booking.date b) (Booking.time b)
                       (Booking.service_center_id b)
            = slot_count db (Booking.date b) (Booking.time b)
                         (Booking.service_center_id b) + 1)
        /\ (Booking.status b <> "Cancelled" ->
            forall d t c, slot_count db' d t c = slot_count db d t c)
  end.
Proof.
  intros Hserved. pose proof (served_db_consistent _ Hserved) as H.
  cbn [fst] in H.
  destruct (get_booking_by_id db booking_id) as [b |] eqn:E.
  - destruct (get_booking_by_id_some _ _ _ E) as [Hb Hid].
    destruct (consistent_booking_user db b H Hb) as (u & Hu & _).
    destruct (consistent_booking_vehicle db b H Hb) as (v & Hv & _).
    assert (Hnodup : NoDup (map Booking.id (bookings db))).
    { rewrite (booking_ids db H). apply ids_upto_NoDup. }
    unfold send_completion_notification. rewrite E, Hu, Hv.
    unfold NotificationService.send_completion_notification,
      NotificationService.log_notification.
    cbn [fst NotificationService.n_id]. rewrite Hid.
    eexists. eexists. split; [reflexivity |].
    cbn [NotificationService.n_id]. split; [reflexivity |].
    split; [| split; [| split]].
    + rewrite update_status_lookup, E, Z.eqb_refl. reflexivity.
    + intros k Hk. rewrite update_status_lookup.
      destruct (get_booking_by_id db k); [| reflexivity].
      now destruct (Z.eqb_spec k booking_id).
    + intros Hcancelled. unfold slot_count, update_status. cbn [bookings].
      pose proof (update_filter_exact
                    (slot_filter (Booking.date b) (Booking.time b)
                                 (Booking.service_center_id b))
                    "Completed" (bookings db) b Hnodup Hb) as Hcount.
      rewrite Hid in Hcount.
      assert (Hold : slot_filter (Booking.date b) (Booking.time b)
                       (Booking.service_center_id b) b = false).
      { unfold slot_filter. rewrite Hcancelled. cbn. apply andb_false_r. }
      assert (Hnew : slot_filter (Booking.date b) (Booking.time b)
                       (Booking.service_center_id b)
                       (Booking.set_status b "Completed") = true).
      { unfold slot_filter. cbn.
        now rewrite !String.eqb_refl, Z.eqb_refl. }
      rewrite Hold, Hnew in Hcount. lia.
    + intros Hactive d t c. unfold slot_count, update_status. cbn [bookings].
      pose proof (update_filter_exact (slot_filter d t c) "Completed"
                    (bookings db) b Hnodup Hb) as Hcount.
      rewrite Hid in Hcount.
      assert (Hsame : slot_filter d t c (Booking.set_status b "Completed")
                      = slot_filter d t c b).
      { unfold slot_filter. cbn. f_equal.
        destruct (String.eqb_spec (Booking.status b) "Cancelled");
          [contradiction | reflexivity]. }
      rewrite Hsame in Hcount. destruct (slot_filter d t c b); lia.
  - unfold send_completion_notification. now rewrite E.
Qed.

Lemma served_refilled :
  served (fst (cancel_booking_endpoint 3
                 (post_schedule (repeat (request "2025-06-10" "10:00") 5)
                                startup)), []) ->
  served (refilled, []).
Proof. intros H. now apply served_post_schedule. Qed.

Lemma refilled_served : served (refilled, []).
Proof.
  apply served_refilled.
  eapply served_step; [| apply step_cancel].
  apply served_post_schedule. exact served_startup.
Qed.

Lemma send_completion_notification_cases_witness :
  match get_booking_by_id refilled 3 with
  | None =>
      send_completion_notification "2025-06-10 11:00:00" 3 (refilled, [])
      = ((refilled, []), Failure 400)
  | Some b =>
      exists db' n,
        send_completion_notification "2025-06-10 11:00:00" 3 (refilled, [])
        = ((db', ([] ++ [n])%list), Reply 3)
        /\ NotificationService.n_id n = "COMPLETE-" ++ str 3
        /\ get_booking_by_id db' 3 = Some (Booking.set_status b "Completed")
        /\ (forall k, k <> 3 ->
              get_booking_by_id db' k = get_booking_by_id refilled k)
        /\ (Booking.status b = "Cancelled" ->
            slot_count db' (Booking.date b) (Booking.time b)
                       (Booking.service_center_id b)
            = slot_count refilled (Booking.date b) (Booking.time b)
                         (Booking.service_center_id b) + 1)
        /\ (Booking.status b <> "Cancelled" ->
            forall d t c, slot_count db' d t c = slot_count refilled d t c)
  end.
Proof.
  exact (send_completion_notification_cases "2025-06-10 11:00:00" 3 refilled
           [] refilled_served).
Defined.

(** On that world the slot of 2025-06-10 10:00 holds five bookings before
    booking 3 is completed and six after. *)
Example completion_exceeds_capacity :
  slot_count refilled "2025-06-10" "10:00" 1 = 5
  /\ slot_count
       (fst (fst (send_completion_notification "2025-06-10 11:00:00" 3
                    (refilled, []))))
       "2025-06-10" "10:00" 1 = 6.
Proof. vm_compute. split; reflexivity. Qed.

(* ===================================================================== *)
(** ** The language parser *)
(* ===================================================================== *)

Lemma prefix_app a b t : prefix (a ++ b) t = true -> prefix a t = true.
Proof.
  revert t. induction a as [| c a IH]; intros t H; [now destruct t |].
  destruct t as [| c' t]; [discriminate |]. simpl in *.
  destruct (ascii_dec c c'); [now apply IH | discriminate].
Qed.

Lemma contains_prefix a t : prefix a t = true -> nlp_parser.contains a t = true.
Proof.
  intros H. destruct t;
    [change (prefix a "" || false = true)
    | change (prefix a (String a0 t) || nlp_parser.contains a t = true)];
    rewrite H; reflexivity.
Qed.

Lemma contains_tail a c t :
  nlp_parser.contains a t = true -> nlp_parser.contains a (String c t) = true.
Proof.
  intros H. change (prefix a (String c t) || nlp_parser.contains a t = true).
  rewrite H. apply orb_true_r.
Qed.

Lemma contains_step a c t :
  nlp_parser.contains a (String c t)
  = prefix a (String c t) || nlp_parser.contains a t.
Proof. reflexivity. Qed.

Lemma contains_app_l a b t :
  nlp_parser.contains (a ++ b) t = true -> nlp_parser.contains a t = true.
Proof.
  induction t as [| c t IH]; intros H.
  - simpl in H. rewrite orb_false_r in H.
    apply contains_prefix. now apply prefix_app with b.
  - rewrite contains_step in H. apply orb_true_iff in H as [H | H].
    + apply contains_prefix. now apply prefix_app with b.
    + apply contains_tail. now apply IH.
Qed.

Lemma prefix_contains_r a b t :
  prefix (a ++ b) t = true -> nlp_parser.contains b t = true.
Proof.
  revert t. induction a as [| c a IH]; intros t H.
  - now apply contains_prefix.
  - destruct t as [| c' t]; [discriminate |]. simpl in H.
    destruct (ascii_dec c c'); [| discriminate].
    apply contains_tail. now apply IH.
Qed.

Lemma contains_app_r a b t :
  nlp_parser.contains (a ++ b) t = true -> nlp_parser.contains b t = true.
Proof.
  induction t as [| c t IH]; intros H.
  - simpl in H. rewrite orb_false_r in H. now apply prefix_contains_r with a.
  - rewrite contains_step in H. apply orb_true_iff in H as [H | H].
    + now apply prefix_contains_r with a.
    + apply contains_tail. now apply IH.
Qed.

(** X23. A text that contains a booking keyword in any case is a booking
    request, whatever else it says: so is every text with the checking
    keyword [booking] or the cancelling keyword [reschedule], which
    contain [book] and [schedule]. *)
Theorem detect_intent_booking_words (text kw : string) :
  In kw booking_words ->
  nlp_parser.contains kw (nlp_parser.lower text) = true ->
  nlp_parser.detect_intent text = ("book_service", 95 # 100).
Proof.
  intros Hin H.
  assert (Hany : nlp_parser.any_in
            ["book"; "schedule"; "appointment"; "service"; "need"; "want"]
            (nlp_parser.lower text) = true).
  { unfold nlp_parser.any_in. apply existsb_exists.
    unfold booking_words in Hin. simpl in Hin.
    destruct Hin as [<- | [<- | [<- | [<- | [<- | [<- | [<- | [<- | []]]]]]]]].
    - exists "book". simpl; auto.
    - exists "schedule". simpl; auto.
    - exists "appointment". simpl; auto 6.
    - exists "service". simpl; auto 6.
    - exists "need". simpl; auto 7.
    - exists "want". simpl; auto 8.
    - exists "book". split; [simpl; auto |].
      now apply (contains_app_l "book" "ing").
    - exists "schedule". split; [simpl; auto |].
      now apply (contains_app_r "re" "schedule"). }
  unfold nlp_parser.detect_intent. cbv zeta. rewrite Hany. reflexivity.
Qed.

Lemma detect_intent_booking_words_witness :
  nlp_parser.detect_intent "Please RESCHEDULE or cancel my visit"
  = ("book_service", 95 # 100).
Proof.
  apply (detect_intent_booking_words _ "reschedule").
  - unfold booking_words. simpl. auto 10.
  - reflexivity.
Defined.

(** X24. Whatever the text says, the time read from it is one of the eight
    slot labels of the scheduler, with one of four confidences: a time
    that is not a label is replaced, never returned. *)
Theorem extract_time_is_slot (text : string) :
  In (fst (nlp_parser.extract_time text)) AVAILABLE_SLOTS
  /\ In (snd (nlp_parser.extract_time text))
        [95 # 100; 90 # 100; 70 # 100; 50 # 100].
Proof.
  assert (Hrest : forall o : option (string * Q),
    (forall a, o = Some a -> In (fst a) AVAILABLE_SLOTS /\ snd a = 90 # 100) ->
    let r := match o with
             | Some answer => answer
             | None =>
                 if nlp_parser.contains "morning" (nlp_parser.lower text)
                 then ("09:00", 70 # 100)
                 else if nlp_parser.contains "afternoon" (nlp_parser.lower text)
                 then ("14:00", 70 # 100)
                 else if nlp_parser.contains "evening" (nlp_parser.lower text)
                 then ("16:00", 70 # 100)
                 else ("10:00", 50 # 100)
             end in
    In (fst r) AVAILABLE_SLOTS
    /\ In (snd r) [95 # 100; 90 # 100; 70 # 100; 50 # 100]).
  { intros [a |] Ho; cbv zeta.
    - destruct (Ho a eq_refl) as [H1 H2]. split; [exact H1 |].
      rewrite H2. simpl; auto.
    - destruct (nlp_parser.contains "morning" _);
        [| destruct (nlp_parser.contains "afternoon" _);
           [| destruct (nlp_parser.contains "evening" _)]];
        (split; [unfold AVAILABLE_SLOTS; simpl; auto 10 | simpl; auto]). }
  assert (Hperiod : forall a,
    match nlp_parser.search nlp_parser.match_am_pm (nlp_parser.lower text) with
    | Some (digits, period) =>
        let hour := nlp_parser.int digits in
        let hour :=
          if nlp_parser.contains "p" period && negb (hour =? 12) then hour + 12
          else if nlp_parser.contains "a" period && (hour =? 12) then 0
          else hour in
        option_map (fun slot => (slot, 90 # 100))
          (find (fun slot => nlp_parser.int (nlp_parser.before_colon slot) =? hour)
                nlp_parser.AVAILABLE_SLOTS)
    | None => None
    end = Some a -> In (fst a) AVAILABLE_SLOTS /\ snd a = 90 # 100).
  { intros a. destruct (nlp_parser.search nlp_parser.match_am_pm _)
      as [[digits period] |]; [| discriminate].
    cbv zeta. destruct (find _ nlp_parser.AVAILABLE_SLOTS) as [slot |] eqn:F;
      [| discriminate].
    intros [= <-]. apply find_some in F. split; [exact (proj1 F) | reflexivity]. }
  unfold nlp_parser.extract_time. cbv zeta.
  destruct (nlp_parser.search nlp_parser.match_time text) as [[hour minute] |].
  - destruct (str_in _ nlp_parser.AVAILABLE_SLOTS) eqn:E.
    + apply str_in_In in E. split; [exact E | simpl; auto].
    + exact (Hrest _ Hperiod).
  - exact (Hrest _ Hperiod).
Qed.

Lemma search_skip {A} (f : string -> option A) a s :
  (forall c r, nlp_parser.is_digit c = false -> f (String c r) = None) ->
  no_digit a = true ->
  nlp_parser.search f (a ++ s) = nlp_parser.search f s.
Proof.
  intros Hf. induction a as [| c a IH]; intros Ha; [reflexivity |].
  simpl in Ha. apply andb_true_iff in Ha as [Hc Ha].
  apply negb_true_iff in Hc.
  change (String c a ++ s) with (String c (a ++ s)).
  change (nlp_parser.search f (String c (a ++ s)))
    with (match f (String c (a ++ s)) with
          | Some m => Some m
          | None => nlp_parser.search f (a ++ s)
          end).
  rewrite (Hf _ _ Hc). now apply IH.
Qed.

Lemma search_here {A} (f : string -> option A) s m :
  f s = Some m -> nlp_parser.search f s = Some m.
Proof. intros H. destruct s; simpl; rewrite H; reflexivity. Qed.

Ltac break_match :=
  repeat match goal with
         | |- context [match ?x with _ => _ end] =>
             is_var x; destruct x; try reflexivity
         end.

Lemma match_time_no_digit c r :
  nlp_parser.is_digit c = false -> nlp_parser.match_time (String c r) = None.
Proof.
  intros H. unfold nlp_parser.match_time, nlp_parser.match_time_at,
    nlp_parser.match_time_at_1.
  rewrite H. simpl. break_match.
Qed.

(** X25. A slot label written in a text is read back: when no digit stands
    before it, [extract_time] returns the label with confidence 0.95,
    whatever follows. *)
Theorem extract_time_reads_label (before slot after : string) :
  no_digit before = true ->
  In slot AVAILABLE_SLOTS ->
  nlp_parser.extract_time (before ++ slot ++ after) = (slot, 95 # 100).
Proof.
  intros Hb Hin.
  unfold nlp_parser.extract_time. cbv zeta.
  rewrite (search_skip _ _ _ match_time_no_digit Hb).
  unfold AVAILABLE_SLOTS in Hin. simpl in Hin.
  destruct Hin as [<- | [<- | [<- | [<- | [<- | [<- | [<- | [<- | []]]]]]]]];
    (erewrite (search_here nlp_parser.match_time) by reflexivity;
     reflexivity).
Qed.

Lemma extract_time_reads_label_witness :
  nlp_parser.extract_time "Service at 14:00 or 3 pm, in the morning"
  = ("14:00", 95 # 100).
Proof.
  apply (extract_time_reads_label "Service at " "14:00"
           " or 3 pm, in the morning"); [reflexivity |].
  unfold AVAILABLE_SLOTS. simpl. auto 10.
Defined.

(** X26. [extract_vehicle] answers either nothing at all, or a make of the
    table whose key occurs in the text, with either no model
    (confidence 0.90) or a model of that very make that occurs in the
    text (confidence 0.95): a model of another make is never returned. *)
Theorem extract_vehicle_cases (text : string) :
  let '(make, model, confidence) := nlp_parser.extract_vehicle text in
  (make = "Unknown" /\ model = "Unknown" /\ confidence = 0%Q)
  \/ exists key,
       In (key, make) nlp_parser.VEHICLE_MAKES
       /\ nlp_parser.contains key (nlp_parser.lower text) = true
       /\ ((model = "Unknown" /\ confidence = 90 # 100)
           \/ exists models m,
                dict_get nlp_parser.VEHICLE_MODELS key = Some models
                /\ In m models
                /\ nlp_parser.contains m (nlp_parser.lower text) = true
                /\ model = nlp_parser.title m
                /\ confidence = 95 # 100).
Proof.
  unfold nlp_parser.extract_vehicle. cbv zeta.
  destruct (find _ nlp_parser.VEHICLE_MAKES) as [[key name] |] eqn:F.
  - apply find_some in F. destruct F as [Hin Hkey]. simpl in Hkey.
    destruct (dict_get nlp_parser.VEHICLE_MODELS key) as [models |] eqn:D.
    + unfold nlp_parser.find_model.
      destruct (find _ models) as [m |] eqn:G; simpl.
      * apply find_some in G. destruct G as [Hm Hc].
        right. exists key. split; [exact Hin |]. split; [exact Hkey |].
        right. exists models, m. repeat split; assumption.
      * right. exists key. split; [exact Hin |]. split; [exact Hkey |].
        left. split; reflexivity.
    + right. exists key. split; [exact Hin |]. split; [exact Hkey |].
      left. split; reflexivity.
  - left. repeat split.
Qed.

(** X27. The service type read from a text is one of eight names, the
    listed types with capitals; without a listed type in the text it is
    [General Service] with confidence 0.5, else the confidence is 0.90. *)
Theorem extract_service_type_names (text : string) :
  let '(service_type, confidence) := nlp_parser.extract_service_type text in
  In service_type
     ["General Service"; "Oil Change"; "Maintenance"; "Inspection";
      "Repair"; "Battery Replacement"; "Tire Replacement"; "Alignment"]
  /\ (confidence = 90 # 100
      \/ (confidence = 50 # 100 /\ service_type = "General Service"
          /\ forall service, In service nlp_parser.SERVICE_TYPES ->
               nlp_parser.contains service (nlp_parser.lower text) = false)).
Proof.
  unfold nlp_parser.extract_service_type. cbv zeta.
  destruct (find _ nlp_parser.SERVICE_TYPES) as [service |] eqn:F.
  - apply find_some in F. destruct F as [Hin _]. split; [| now left].
    unfold nlp_parser.SERVICE_TYPES in Hin. simpl in Hin.
    destruct Hin as [<- | [<- | [<- | [<- | [<- | [<- | [<- | [<- | []]]]]]]]];
      vm_compute; auto 10.
  - split; [simpl; auto |]. right. repeat split.
    intros service Hin. exact (find_none _ _ F service Hin).
Qed.

(** *** The calendar *)

Lemma valid_inv y m d :
  datetime.valid (y, m, d) = true ->
  1 <= y <= 9999 /\ 1 <= m <= 12 /\ 1 <= d <= datetime.days_in_month y m.
Proof.
  unfold datetime.valid, datetime.MINYEAR, datetime.MAXYEAR. intros H.
  repeat (apply andb_true_iff in H as [H ?]). lia.
Qed.

Lemma valid_intro y m d :
  1 <= y <= 9999 -> 1 <= m <= 12 -> 1 <= d <= datetime.days_in_month y m ->
  datetime.valid (y, m, d) = true.
Proof.
  unfold datetime.valid, datetime.MINYEAR, datetime.MAXYEAR. intros.
  repeat (apply andb_true_iff; split); lia.
Qed.

Lemma month_cases m :
  1 <= m <= 12 ->
  m = 1 \/ m = 2 \/ m = 3 \/ m = 4 \/ m = 5 \/ m = 6 \/ m = 7 \/ m = 8
  \/ m = 9 \/ m = 10 \/ m = 11 \/ m = 12.
Proof. lia. Qed.

Lemma days_before_next_month y m :
  1 <= m < 12 ->
  nlp_parser.days_before_month y (m + 1)
  = nlp_parser.days_before_month y m + datetime.days_in_month y m.
Proof.
  intros Hm. assert (H : 1 <= m <= 12) by lia.
  apply month_cases in H.
  unfold nlp_parser.days_before_month, datetime.days_in_month.
  destruct H as [-> | [-> | [-> | [-> | [-> | [-> | [-> | [-> | [-> | [-> |
    [-> | ->]]]]]]]]]]]; try lia;
    simpl; destruct (datetime.is_leap y); reflexivity.
Qed.

Lemma days_before_next_year y :
  nlp_parser.days_before_year (y + 1)
  = nlp_parser.days_before_year y + nlp_parser.days_before_month y 12 + 31.
Proof.
  unfold nlp_parser.days_before_year, nlp_parser.days_before_month,
    datetime.is_leap. cbv zeta. simpl nth. change (2 <? 12) with true.
  replace (y + 1 - 1) with y by lia. cbn [andb].
  destruct (y mod 4 =? 0) eqn:E4; destruct (y mod 100 =? 0) eqn:E100;
    destruct (y mod 400 =? 0) eqn:E400; cbn [andb orb negb];
    rewrite ?Z.eqb_eq, ?Z.eqb_neq in *;
    Z.div_mod_to_equations; lia.
Qed.

Lemma toordinal_tomorrow dt :
  datetime.valid dt = true ->
  nlp_parser.toordinal (datetime.tomorrow dt) = nlp_parser.toordinal dt + 1.
Proof.
  destruct dt as [[y m] d]. intros V. apply valid_inv in V.
  unfold datetime.tomorrow.
  destruct (d <? datetime.days_in_month y m) eqn:Ed.
  - unfold nlp_parser.toordinal. lia.
  - apply Z.ltb_ge in Ed. destruct (m <? 12) eqn:Em.
    + apply Z.ltb_lt in Em. unfold nlp_parser.toordinal.
      rewrite days_before_next_month by lia. lia.
    + apply Z.ltb_ge in Em. assert (m = 12) by lia. subst m.
      unfold nlp_parser.toordinal. rewrite days_before_next_year.
      change (datetime.days_in_month y 12) with 31 in *.
      change (nlp_parser.days_before_month (y + 1) 1) with 0. lia.
Qed.

Lemma valid_tomorrow dt :
  datetime.valid dt = true ->
  fst (fst dt) < 9999 \/ nlp_parser.toordinal dt < 3652059 ->
  datetime.valid (datetime.tomorrow dt) = true.
Proof.
  destruct dt as [[y m] d]. intros V Hy. simpl in Hy.
  apply valid_inv in V. unfold datetime.tomorrow.
  assert (Hdim : forall k, 1 <= k <= 12 -> 1 <= datetime.days_in_month y k).
  { intros k Hk. unfold datetime.days_in_month.
    destruct (k =? 2); [destruct (datetime.is_leap y); lia |].
    destruct ((k =? 4) || (k =? 6) || (k =? 9) || (k =? 11)); lia. }
  destruct (d <? datetime.days_in_month y m) eqn:Ed.
  - apply Z.ltb_lt in Ed. apply valid_intro; lia.
  - apply Z.ltb_ge in Ed. destruct (m <? 12) eqn:Em.
    + apply Z.ltb_lt in Em. apply valid_intro; try lia.
      specialize (Hdim (m + 1)). lia.
    + apply Z.ltb_ge in Em. assert (m = 12) by lia. subst m.
      change (datetime.days_in_month y 12) with 31 in *.
      assert (d = 31) by lia. subst d.
      assert (y < 9999).
      { destruct Hy as [Hy | Hy]; [exact Hy |].
        destruct (Z.eq_dec y 9999) as [-> | Hn]; [| lia].
        vm_compute in Hy. discriminate. }
      apply valid_intro; try lia. change (datetime.days_in_month (y + 1) 1) with 31.
      lia.
Qed.

Lemma toordinal_year_end y m d :
  datetime.valid (y, m, d) = true ->
  nlp_parser.toordinal (y, m, d) <= nlp_parser.days_before_year (y + 1).
Proof.
  intros V. apply valid_inv in V. destruct V as [Hy [Hm Hd]].
  rewrite days_before_next_year. unfold nlp_parser.toordinal.
  apply month_cases in Hm.
  unfold nlp_parser.days_before_month, datetime.days_in_month in *.
  destruct Hm as [-> | [-> | [-> | [-> | [-> | [-> | [-> | [-> | [-> | [-> |
    [-> | ->]]]]]]]]]]]; simpl in *; destruct (datetime.is_leap y); lia.
Qed.

Lemma days_before_year_mono y1 y2 :
  y1 <= y2 -> nlp_parser.days_before_year y1 <= nlp_parser.days_before_year y2.
Proof.
  unfold nlp_parser.days_before_year. cbv zeta. intros H.
  Z.div_mod_to_equations. lia.
Qed.

Lemma toordinal_before_last_year dt :
  datetime.valid dt = true -> fst (fst dt) < 9999 ->
  nlp_parser.toordinal dt + 365 <= 3652059.
Proof.
  destruct dt as [[y m] d]. cbn [fst]. intros V Hy.
  pose proof (toordinal_year_end _ _ _ V) as H1.
  pose proof (days_before_year_mono (y + 1) 9999 ltac:(lia)) as H2.
  change (nlp_parser.days_before_year 9999) with 3651694 in H2. lia.
Qed.

Lemma add_days_ordinal k : forall dt,
  datetime.valid dt = true ->
  nlp_parser.toordinal dt + Z.of_nat k <= 3652059 ->
  exists dt', datetime.add_days dt k = inr dt'
    /\ datetime.valid dt' = true
    /\ nlp_parser.toordinal dt' = nlp_parser.toordinal dt + Z.of_nat k.
Proof.
  induction k as [| k IH]; intros dt V Hk.
  - exists dt. simpl. repeat split; [assumption | lia].
  - assert (V' : datetime.valid (datetime.tomorrow dt) = true).
    { apply valid_tomorrow; [assumption | right; lia]. }
    pose proof (toordinal_tomorrow dt V) as Ht.
    destruct (IH (datetime.tomorrow dt) V' ltac:(lia)) as [dt' [H1 [H2 H3]]].
    exists dt'. simpl. rewrite V'. repeat split; [assumption.. | lia].
Qed.

(** X28. When a text names a day of the week (and not [tomorrow]), the
    date read is the next such day strictly after today: between one
    and seven days ahead, a week ahead when today is that day. The day
    taken is the first of Monday to Sunday that the text names. *)
Theorem extract_date_weekday (today : datetime.date) (text : string)
  (day_name : string) (day_offset : Z) :
  datetime.valid today = true ->
  fst (fst today) < 9999 ->
  nlp_parser.contains "tomorrow" (nlp_parser.lower text) = false ->
  find (fun kv => nlp_parser.contains (fst kv) (nlp_parser.lower text))
       nlp_parser.day_map = Some (day_name, day_offset) ->
  exists (k : nat) (dt : datetime.date),
    (1 <= k <= 7)%nat
    /\ datetime.add_days today k = inr dt
    /\ nlp_parser.weekday dt = day_offset
    /\ nlp_parser.extract_date today text
       = inr (datetime.strftime dt, 90 # 100).
Proof.
  intros V Hy Htom Hfind.
  unfold nlp_parser.extract_date. cbv zeta. rewrite Htom, Hfind.
  assert (Hoff : 0 <= day_offset <= 6).
  { apply find_some in Hfind. destruct Hfind as [Hin _].
    unfold nlp_parser.day_map in Hin. simpl in Hin.
    destruct Hin as [E | [E | [E | [E | [E | [E | [E | []]]]]]]];
      injection E as _ <-; lia. }
  assert (Hwd : 0 <= nlp_parser.weekday today < 7).
  { unfold nlp_parser.weekday. apply Z.mod_pos_bound. lia. }
  set (days_ahead :=
         if day_offset - nlp_parser.weekday today <=? 0
         then day_offset - nlp_parser.weekday today + 7
         else day_offset - nlp_parser.weekday today).
  assert (Hda : 1 <= days_ahead <= 7
                /\ (days_ahead = day_offset - nlp_parser.weekday today
                    \/ days_ahead = day_offset - nlp_parser.weekday today + 7)).
  { unfold days_ahead.
    destruct (day_offset - nlp_parser.weekday today <=? 0) eqn:E;
      [apply Z.leb_le in E | apply Z.leb_gt in E]; lia. }
  destruct Hda as [Hda Hda'].
  pose proof (toordinal_before_last_year today V Hy) as Hlast.
  destruct (add_days_ordinal (Z.to_nat days_ahead) today V ltac:(lia))
    as [dt [Hadd [Vdt Hord]]].
  exists (Z.to_nat days_ahead), dt.
  split; [lia |]. split; [exact Hadd |]. split.
  - unfold nlp_parser.weekday in *. rewrite Hord.
    rewrite Z2Nat.id by lia.
    destruct Hda' as [-> | ->]; Z.div_mod_to_equations; lia.
  - unfold nlp_parser.plus_days.
    replace (999999999 <? days_ahead) with false
      by (symmetry; apply Z.ltb_ge; lia).
    rewrite Hadd. reflexivity.
Qed.

Lemma extract_date_weekday_witness :
  exists (k : nat) (dt : datetime.date),
    (1 <= k <= 7)%nat
    /\ datetime.add_days (2026, 11, 4) k = inr dt
    /\ nlp_parser.weekday dt = 0
    /\ nlp_parser.extract_date (2026, 11, 4) "Book on Friday or Monday"
       = inr (datetime.strftime dt, 90 # 100).
Proof.
  apply (extract_date_weekday (2026, 11, 4) "Book on Friday or Monday"
           "monday" 0); [reflexivity | simpl; lia | reflexivity | reflexivity].
Defined.

Lemma match_iso_no_digit c r :
  nlp_parser.is_digit c = false -> nlp_parser.match_iso (String c r) = None.
Proof.
  intros H. unfold nlp_parser.match_iso. rewrite H. simpl. break_match.
Qed.

Lemma match_iso_app s g after :
  nlp_parser.match_iso s = Some g -> nlp_parser.match_iso (s ++ after) = Some g.
Proof.
  intros H.
  destruct s as [| y1 [| y2 [| y3 [| y4 [| c1 [| m1 [| m2 [| c2 [| d1
    [| d2 s]]]]]]]]]];
    try (unfold nlp_parser.match_iso in H; simpl in H; try discriminate H;
         repeat match type of H with
                | context [match ?x with _ => _ end] =>
                    is_var x; destruct x; try discriminate H
                end; fail).
  unfold nlp_parser.match_iso in *. simpl in *.
  repeat match type of H with
         | context [match ?x with _ => _ end] =>
             is_var x; destruct x; try discriminate H
         end.
  exact H.
Qed.

(** X29. A text [NNNN-NN-NN] written in a request is returned as the date
    exactly as written, with confidence 0.95, when no digit stands
    before it and the request names neither [tomorrow] nor a day of the
    week: it is not checked to be a calendar date. *)
Theorem extract_date_iso (today : datetime.date)
  (before d after : string) :
  no_digit before = true ->
  nlp_parser.match_iso d = Some d ->
  nlp_parser.contains "tomorrow" (nlp_parser.lower (before ++ d ++ after))
  = false ->
  find (fun kv => nlp_parser.contains (fst kv)
                    (nlp_parser.lower (before ++ d ++ after)))
       nlp_parser.day_map = None ->
  nlp_parser.extract_date today (before ++ d ++ after) = inr (d, 95 # 100).
Proof.
  intros Hb Hd Htom Hday.
  unfold nlp_parser.extract_date. cbv zeta. rewrite Htom, Hday.
  rewrite (search_skip _ _ _ match_iso_no_digit Hb).
  rewrite (search_here _ _ _ (match_iso_app _ _ after Hd)). reflexivity.
Qed.

Lemma extract_date_iso_witness :
  nlp_parser.extract_date (2026, 11, 4) "Book on 2025-13-45 at 10:00"
  = inr ("2025-13-45", 95 # 100)
  /\ datetime.strptime "2025-13-45" = inl ValueError.
Proof.
  split; [| reflexivity].
  apply (extract_date_iso (2026, 11, 4) "Book on " "2025-13-45" " at 10:00");
    reflexivity.
Defined.

(* ===================================================================== *)
(** ** The log of notifications *)
(* ===================================================================== *)

Lemma lookup_iff db k :
  (exists b, get_booking_by_id db k = Some b)
  <-> In k (map Booking.id (bookings db)).
Proof.
  unfold get_booking_by_id. split.
  - intros [b H]. apply find_some in H. destruct H as [Hin Hk].
    apply Z.eqb_eq in Hk. subst k. now apply in_map.
  - intros H. apply in_map_iff in H. destruct H as [b [Hk Hin]].
    destruct (find_exists (fun x => Booking.id x =? k) (bookings db) b Hin)
      as [y [Hy _]]; [now apply Z.eqb_eq |].
    now exists y.
Qed.

Lemma user_step_bookings name phone email db db1 r :
  create_or_get_user name phone email db = (db1, r) ->
  bookings db1 = bookings db.
Proof.
  intros E. pose proof (create_or_get_user_full name phone email db) as F.
  rewrite E in F. destruct r as [e | u].
  - destruct F as [-> _]. reflexivity.
  - destruct F as [[_ [_ ->]] | [_ [_ ->]]]; reflexivity.
Qed.

Lemma vehicle_step_bookings user_id make model year db db2 r :
  create_or_get_vehicle user_id make model year db = (db2, r) ->
  bookings db2 = bookings db.
Proof.
  intros E.
  pose proof (create_or_get_vehicle_full user_id make model year db) as F.
  rewrite E in F. destruct r as [e | v].
  - destruct F as [-> _]. reflexivity.
  - destruct F as [[_ [-> _]] | [_ [_ [_ ->]]]]; reflexivity.
Qed.

Lemma schedule_ids_incl booking db :
  incl (map Booking.id (bookings db))
       (map Booking.id (bookings (fst (schedule_appointment booking db)))).
Proof.
  rewrite schedule_appointment_steps. cbv zeta.
  destruct (find_preferred_slot db _ _ _) as [e | assigned];
    [apply incl_refl |].
  destruct (create_or_get_user _ _ _ db) as [db1 r1] eqn:E1.
  apply user_step_bookings in E1.
  destruct r1 as [e | u]; [cbn [fst]; rewrite E1; apply incl_refl |].
  destruct (create_or_get_vehicle _ _ _ _ db1) as [db2 r2] eqn:E2.
  apply vehicle_step_bookings in E2.
  destruct r2 as [e | v]; [cbn [fst]; rewrite E2, E1; apply incl_refl |].
  unfold try_400, bind, insert_booking, query, ret. cbn [fst bookings].
  rewrite E2, E1, map_app. apply incl_appl, incl_refl.
Qed.

Lemma create_ids_incl booking db :
  incl (map Booking.id (bookings db))
       (map Booking.id (bookings (fst (create_new_booking booking db)))).
Proof.
  unfold create_new_booking, try_400, create_booking.
  unfold bind at 1. unfold bind at 1.
  destruct (create_or_get_user _ _ _ db) as [db1 r1] eqn:E1.
  apply user_step_bookings in E1.
  destruct r1 as [e | u]; [cbn [fst]; rewrite E1; apply incl_refl |].
  unfold bind at 1.
  destruct (create_or_get_vehicle _ _ _ _ db1) as [db2 r2] eqn:E2.
  apply vehicle_step_bookings in E2.
  destruct r2 as [e | v]; [cbn [fst]; rewrite E2, E1; apply incl_refl |].
  unfold insert_booking, ret. cbn [fst bookings].
  rewrite E2, E1, map_app. apply incl_appl, incl_refl.
Qed.

Lemma cancel_ids booking_id db :
  map Booking.id (bookings (fst (cancel_booking_endpoint booking_id db)))
  = map Booking.id (bookings db).
Proof.
  unfold cancel_booking_endpoint, cancel_booking.
  destruct (find _ (bookings db)); cbn [fst]; [| reflexivity].
  apply update_status_ids.
Qed.

Lemma logged_for_incl db db' n :
  incl (map Booking.id (bookings db)) (map Booking.id (bookings db')) ->
  logged_for db n -> logged_for db' n.
Proof.
  intros Hincl [Hb Hrest]. split; [| exact Hrest].
  apply lookup_iff. apply Hincl. now apply lookup_iff.
Qed.

Lemma Forall_logged_incl db db' sent :
  incl (map Booking.id (bookings db)) (map Booking.id (bookings db')) ->
  Forall (logged_for db) sent -> Forall (logged_for db') sent.
Proof.
  intros Hincl H. eapply Forall_impl; [| exact H].
  intros n. now apply logged_for_incl.
Qed.

Lemma request_step_logged w w' :
  request_step w w' ->
  Forall (logged_for (fst w)) (snd w) -> Forall (logged_for (fst w')) (snd w').
Proof.
  intros Hstep. destruct Hstep as [booking db sent | booking db sent
    | booking_id db sent | now_email now_sms booking_id [db sent]
    | now booking_id [db sent] | now booking_id [db sent] | [db sent]];
    cbn [fst snd]; intros H.
  - exact (Forall_logged_incl _ _ _ (create_ids_incl booking db) H).
  - exact (Forall_logged_incl _ _ _ (schedule_ids_incl booking db) H).
  - apply (Forall_logged_incl db); [| exact H].
    rewrite cancel_ids. apply incl_refl.
  - unfold send_booking_confirmation.
    destruct (get_booking_by_id db booking_id) as [bk |] eqn:E; [| exact H].
    destruct (booking_user db bk), (booking_vehicle db bk); try exact H.
    cbv zeta. cbn [fst snd].
    destruct (get_booking_by_id_some _ _ _ E) as [_ Hid].
    unfold NotificationService.send_confirmation_sms,
      NotificationService.send_confirmation_email,
      NotificationService.log_notification. cbn [fst].
    apply Forall_app. split; [apply Forall_app; split; [exact H |] |];
      (constructor; [| constructor]);
      (split; [cbn; rewrite Hid; now exists bk |]);
      (split; [discriminate | cbn; auto]).
  - unfold send_booking_reminder.
    destruct (get_booking_by_id db booking_id) as [bk |] eqn:E; [| exact H].
    destruct (booking_user db bk), (booking_vehicle db bk); try exact H.
    cbv zeta. cbn [fst snd].
    destruct (get_booking_by_id_some _ _ _ E) as [_ Hid].
    unfold NotificationService.send_reminder_notification,
      NotificationService.log_notification. cbn [fst].
    apply Forall_app. split; [exact H |].
    constructor; [| constructor].
    split; [cbn; rewrite Hid; now exists bk |].
    split; [discriminate | cbn; auto].
  - unfold send_completion_notification.
    destruct (get_booking_by_id db booking_id) as [bk |] eqn:E; [| exact H].
    destruct (booking_user db bk), (booking_vehicle db bk); try exact H.
    cbv zeta. cbn [fst snd].
    destruct (get_booking_by_id_some _ _ _ E) as [_ Hid].
    assert (Hincl : incl (map Booking.id (bookings db))
                      (map Booking.id
                         (bookings (update_status (Booking.id bk) "Completed"
                                                  db))))
      by (rewrite update_status_ids; apply incl_refl).
    unfold NotificationService.send_completion_notification,
      NotificationService.log_notification. cbn [fst].
    apply Forall_app. split; [exact (Forall_logged_incl _ _ _ Hincl H) |].
    constructor; [| constructor].
    apply (logged_for_incl db); [exact Hincl |].
    split; [cbn; rewrite Hid; now exists bk |].
    split; [discriminate | cbn; auto].
  - constructor.
Qed.

(** X30. In every world the server reaches, each notification of the log
    is of a booking that the store still holds, carries a timestamp, and
    has the kind, status and id of one of the four senders: a reminder is
    logged as [scheduled], the others as [sent]. *)
Theorem served_notifications (w : World) :
  served w -> Forall (logged_for (fst w)) (snd w).
Proof.
  induction 1 as [| w w' _ IH Hstep]; [constructor |].
  exact (request_step_logged w w' Hstep IH).
Qed.

Lemma notified_served : served notified.
Proof.
  unfold notified.
  eapply served_step; [| apply step_completion].
  eapply served_step; [| apply step_reminder].
  eapply served_step; [| apply step_confirmation].
  exact served_busy_day.
Qed.

Lemma served_notifications_witness :
  Forall (logged_for (fst notified)) (snd notified)
  /\ List.length (snd notified) = 4%nat.
Proof.
  split; [exact (served_notifications notified notified_served) |].
  vm_compute. reflexivity.
Defined.
